(** * reflexible.data_structures: a shallow embedding

    The module under study is a read-only view over a FLEXPART netCDF4
    file: a metadata facade ([Header]), two indexed grid accessors ([FD]
    and [C]), a slab reducer ([get_slabs]) and a result container ([FDC]).

    Python values that can fail are embedded in an error monad [res] whose
    errors are the Python exception classes the code can raise.  numpy
    arrays are embedded as a shape together with an index function; the
    scalars stored in them are kept abstract (class [Scalar]), so that the
    statements about grids speak about the structure of the computation
    and assume no law of addition unless they say so.  The coordinates
    of the output grid are binary64 numbers with their rounding. *)

From Stdlib Require Import ZArith QArith List String Ascii Lia.
From Stdlib Require PrimFloat FloatOps SpecFloat.
From stdpp Require Import base decidable option numbers list gmap strings.

Set Warnings "-clear-no-such-hyp".

Open Scope Z_scope.
Open Scope string_scope.
Open Scope list_scope.

(** ** Python exceptions and the error monad *)

Inductive exn : Set :=
| TypeError | ValueError | KeyError | IndexError | AxisError
| AssertionError | AttributeError | UnboundLocalError | OverflowError.

Inductive res (A : Type) : Type :=
| Ok (a : A)
| Raise (e : exn).
Arguments Ok {A} a.
Arguments Raise {A} e.

#[global] Instance res_ret : MRet res := fun A a => Ok a.
#[global] Instance res_bind : MBind res := fun A B f m =>
  match m with Ok a => f a | Raise e => Raise e end.
#[global] Instance res_fmap : FMap res := fun A B f m =>
  match m with Ok a => Ok (f a) | Raise e => Raise e end.

#[global] Instance exn_eq_dec : EqDecision exn.
Proof. solve_decision. Defined.

(** [d[key]] on a mapping: a missing key raises [KeyError]. *)
Definition lookup_key {V : Type} (m : gmap string V) (key : string) : res V :=
  match m !! key with Some v => Ok v | None => Raise KeyError end.

(** [l[i]] on a Python list or tuple: negative indices count from the
    end, anything else out of range raises [IndexError]. *)
Definition norm_index (n : nat) (i : Z) : res nat :=
  if decide (0 <= i < Z.of_nat n) then Ok (Z.to_nat i)
  else if decide (- Z.of_nat n <= i < 0) then Ok (Z.to_nat (i + Z.of_nat n))
  else Raise IndexError.

Definition py_getitem {A : Type} (l : list A) (i : Z) : res A :=
  j ← norm_index (length l) i;
  match l !! j with Some x => Ok x | None => Raise IndexError end.

(** [l.index(x)]: position of the first element equal to [x], or
    [ValueError]. *)
Fixpoint py_index {A : Type} `{EqDecision A} (x : A) (l : list A) : res nat :=
  match l with
  | [] => Raise ValueError
  | y :: l' => if decide (x = y) then Ok 0%nat else S <$> py_index x l'
  end.

(** [range(start, stop, step)], as CPython computes its length. *)
Definition range_len (start stop step : Z) : Z :=
  if decide (0 < step) then
    if decide (start < stop) then (stop - start - 1) / step + 1 else 0
  else
    if decide (stop < start) then (start - stop - 1) / (- step) + 1 else 0.

Definition py_range (start stop step : Z) : res (list Z) :=
  if decide (step = 0) then Raise ValueError
  else Ok (map (fun i => start + Z.of_nat i * step)
                (seq 0 (Z.to_nat (range_len start stop step)))).

(** [for x in xs: body] threading a state and stopping at the first
    exception. *)
Fixpoint for_each {A S : Type} (body : A -> S -> res S) (xs : list A) (s : S)
  : res S :=
  match xs with
  | [] => Ok s
  | x :: xs' => s' ← body x s; for_each body xs' s'
  end.

(** A list comprehension whose element expression can raise. *)
Fixpoint comprehension {A B : Type} (f : A -> res B) (xs : list A)
  : res (list B) :=
  match xs with
  | [] => Ok []
  | x :: xs' => y ← f x; ys ← comprehension f xs'; Ok (y :: ys)
  end.

(** ** numpy arrays

    An array is its shape and its index function; only the values at
    in-bounds indices matter.  The scalar operations the module uses
    ([+], [/], [maximum], [minimum] and the additive zero of [np.zeros])
    are the methods of [Scalar]. *)

Class Scalar (T : Type) : Type := {
  s_zero : T;
  s_add : T -> T -> T;
  s_div : T -> T -> T;
  s_max : T -> T -> T;
  s_min : T -> T -> T
}.

(** Exact arithmetic: addition is a commutative monoid. *)
Class ExactAdd (T : Type) `{Scalar T} : Prop := {
  s_add_0_l : forall x : T, s_add s_zero x = x;
  s_add_comm : forall x y : T, s_add x y = s_add y x;
  s_add_assoc : forall x y z : T, s_add x (s_add y z) = s_add (s_add x y) z
}.

Record ndarray (T : Type) : Type := NDArray {
  shape : list nat;
  item : list nat -> T
}.
Arguments NDArray {T} shape item.
Arguments shape {T} _.
Arguments item {T} _ _.

(** One entry of a basic index expression: [:] or an integer. *)
Inductive ix : Set := Full | At (i : Z).

Module np.
Section Arrays.
Context {T : Type} `{Scalar T}.

Definition in_bounds (sh idx : list nat) : Prop :=
  Forall2 (fun i n => (i < n)%nat) idx sh.

(** Two arrays are the same array when they agree on shape and on every
    in-bounds element. *)
Definition array_eq (a b : ndarray T) : Prop :=
  shape a = shape b /\
  forall idx, in_bounds (shape a) idx -> item a idx = item b idx.

(** All indices of a shape, in C (row-major) order. *)
Fixpoint indices (sh : list nat) : list (list nat) :=
  match sh with
  | [] => [[]]
  | n :: sh' => i ← seq 0 n; cons i <$> indices sh'
  end.

Definition elements (a : ndarray T) : list T :=
  item a <$> indices (shape a).

Definition zeros (sh : list nat) : ndarray T :=
  NDArray sh (fun _ => s_zero).

(** [a.T]: all axes reversed. *)
Definition transpose (a : ndarray T) : ndarray T :=
  NDArray (rev (shape a)) (fun idx => item a (rev idx)).

(** Basic indexing [a[i0, i1, ...]]: each entry is resolved against
    the axis it addresses; integers drop their axis. *)
Fixpoint resolve (sh : list nat) (ixs : list ix) {struct ixs}
  : res (list (option nat)) :=
  match ixs, sh with
  | [], _ => Ok []
  | _ :: _, [] => Raise IndexError
  | Full :: ixs', _ :: sh' => r ← resolve sh' ixs'; Ok (None :: r)
  | At i :: ixs', n :: sh' =>
      j ← norm_index n i; r ← resolve sh' ixs'; Ok (Some j :: r)
  end.

Fixpoint sel_shape (sel : list (option nat)) (sh : list nat) {struct sel}
  : list nat :=
  match sel, sh with
  | [], _ => sh
  | _, [] => []
  | None :: sel', n :: sh' => n :: sel_shape sel' sh'
  | Some _ :: sel', _ :: sh' => sel_shape sel' sh'
  end.

Fixpoint sel_index (sel : list (option nat)) (idx : list nat) : list nat :=
  match sel with
  | [] => idx
  | Some j :: sel' => j :: sel_index sel' idx
  | None :: sel' =>
      match idx with
      | [] => []
      | i :: idx' => i :: sel_index sel' idx'
      end
  end.

Definition getitem (a : ndarray T) (ixs : list ix) : res (ndarray T) :=
  sel ← resolve (shape a) ixs;
  Ok (NDArray (sel_shape sel (shape a))
              (fun idx => item a (sel_index sel idx))).

(** Reductions. [sum_list] adds from the left, starting at zero. *)
Definition sum_list (xs : list T) : T := foldl s_add s_zero xs.

Definition norm_axis (rank : nat) (axis : Z) : res nat :=
  match norm_index rank axis with
  | Ok k => Ok k
  | Raise _ => Raise AxisError
  end.

Definition remove_at {A : Type} (k : nat) (l : list A) : list A :=
  take k l ++ drop (S k) l.

Definition insert_at {A : Type} (k : nat) (x : A) (l : list A) : list A :=
  take k l ++ x :: drop k l.

(** [a.sum(axis=axis)] *)
Definition sum (a : ndarray T) (axis : Z) : res (ndarray T) :=
  k ← norm_axis (length (shape a)) axis;
  Ok (NDArray (remove_at k (shape a))
        (fun idx => sum_list ((fun j => item a (insert_at k j idx))
                                <$> seq 0 (default 0%nat (shape a !! k))))).

(** [a.sum(axis=(-2, -1))]: both trailing axes are reduced.  numpy
    does not fix the order of the additions; here axis -2 goes first. *)
Definition sum_last2 (a : ndarray T) : res (ndarray T) :=
  a' ← sum a (-2); sum a' (-1).

(** [a.max()] and [a.min()]: a zero-size array has no extremum. *)
Definition reduce_all (op : T -> T -> T) (a : ndarray T) : res T :=
  match elements a with
  | [] => Raise ValueError
  | x :: xs => Ok (foldl op x xs)
  end.

Definition max (a : ndarray T) : res T := reduce_all s_max a.
Definition min (a : ndarray T) : res T := reduce_all s_min a.

(** Broadcasting of two shapes, aligned on their trailing axes. *)
Fixpoint broadcast_rev (r1 r2 : list nat) : res (list nat) :=
  match r1, r2 with
  | [], r => Ok r
  | r, [] => Ok r
  | n1 :: r1', n2 :: r2' =>
      n ← (if decide (n1 = n2) then Ok n1
           else if decide (n1 = 1%nat) then Ok n2
           else if decide (n2 = 1%nat) then Ok n1
           else Raise ValueError);
      r ← broadcast_rev r1' r2';
      Ok (n :: r)
  end.

Definition broadcast_shapes (s1 s2 : list nat) : res (list nat) :=
  r ← broadcast_rev (rev s1) (rev s2); Ok (rev r).

(** The index at which an operand of shape [sh] is read when the
    broadcast result is read at [idx]. *)
Definition bindex (sh idx : list nat) : list nat :=
  zip_with (fun n i => if decide (n = 1%nat) then 0%nat else i)
           sh (drop (length idx - length sh) idx).

Definition binop (op : T -> T -> T) (a b : ndarray T) : res (ndarray T) :=
  sh ← broadcast_shapes (shape a) (shape b);
  Ok (NDArray sh (fun idx => op (item a (bindex (shape a) idx))
                               (item b (bindex (shape b) idx)))).

(** [a / b] *)
Definition divide (a b : ndarray T) : res (ndarray T) := binop s_div a b.

(** [a += b]: the result is stored in [a], so the broadcast shape has
    to be the shape of [a]. *)
Definition iadd (a b : ndarray T) : res (ndarray T) :=
  sh ← broadcast_shapes (shape a) (shape b);
  if decide (sh = shape a) then
    Ok (NDArray (shape a)
          (fun idx => s_add (item a idx) (item b (bindex (shape b) idx))))
  else Raise ValueError.

(** [a + b] *)
Definition add (a b : ndarray T) : res (ndarray T) := binop s_add a b.

(** [a[:]] on an array: every axis is kept; a 0-d array cannot be
    sliced. *)
Definition slice_all (a : ndarray T) : res (ndarray T) :=
  match shape a with
  | [] => Raise IndexError
  | _ :: _ => Ok a
  end.

(** [a[::-1]]: the first axis reversed. *)
Definition flip (a : ndarray T) : res (ndarray T) :=
  match shape a with
  | [] => Raise IndexError
  | n :: sh =>
      Ok (NDArray (n :: sh)
            (fun idx => match idx with
                        | [] => item a []
                        | i :: idx' => item a ((n - 1 - i)%nat :: idx')
                        end))
  end.

(** [for t in a]: the sub-arrays along the first axis, in order; a 0-d
    array cannot be iterated. *)
Definition iter (a : ndarray T) : res (list (ndarray T)) :=
  match shape a with
  | [] => Raise TypeError
  | n :: sh =>
      Ok ((fun i : nat => NDArray sh (fun idx => item a (i :: idx))) <$> seq 0 n)
  end.

(** Number of elements of a shape, and the row-major correspondence
    between indices and positions. *)
Definition size (sh : list nat) : nat := foldr Nat.mul 1%nat sh.

Definition ravel (sh idx : list nat) : nat :=
  foldl (fun acc ni => (acc * ni.1 + ni.2)%nat) 0%nat (zip sh idx).

Fixpoint unravel (sh : list nat) (k : nat) : list nat :=
  match sh with
  | [] => []
  | _ :: sh' => (k / size sh')%nat :: unravel sh' (k mod size sh')%nat
  end.

(** [a.reshape(sh)]: the elements in row-major order under a new shape
    of the same size. *)
Definition reshape (a : ndarray T) (sh : list nat) : res (ndarray T) :=
  if decide (size (shape a) = size sh)
  then Ok (NDArray sh (fun idx => item a (unravel (shape a) (ravel sh idx))))
  else Raise ValueError.

End Arrays.
End np.

(** [int(t)] on an array element: the conversion of a scalar is the
    method of [ToInt]; an array converts when it holds one element. *)
Class ToInt (T : Type) : Type := s_int : T -> Z.

Definition py_int {T : Type} `{ToInt T} (t : ndarray T) : res Z :=
  if decide (np.size (shape t) = 1%nat)
  then Ok (s_int (item t (replicate (length (shape t)) 0%nat)))
  else Raise TypeError.

(** ** Dates and times

    A [datetime] is the number of microseconds since
    0001-01-01T00:00:00; Python's range ends at
    9999-12-31T23:59:59.999999.  Parsing and printing with the format
    ["%Y%m%d%H%M%S"] belong to Python's library and are the methods of
    [DateFormat]. *)

Definition datetime : Set := Z.

Definition datetime_max : datetime := 3652059 * 86400 * 1000000 - 1.

(** [datetime.timedelta(seconds=t)], in microseconds. *)
Definition timedelta (seconds : Z) : res Z :=
  if decide (- 999999999 * 86400 <= seconds < 1000000000 * 86400)
  then Ok (seconds * 1000000)
  else Raise OverflowError.

(** [d + delta] *)
Definition datetime_add (d : datetime) (delta : Z) : res datetime :=
  if decide (0 <= d + delta <= datetime_max) then Ok (d + delta)
  else Raise OverflowError.

(** [a / b] on timedeltas rounds the microseconds half to even
    (CPython's [_divide_and_round]). *)
Definition divide_and_round (a b : Z) : Z :=
  let q := a / b in
  let r := 2 * (a mod b) in
  let greater_than_half :=
    if decide (0 < b) then bool_decide (b < r) else bool_decide (r < b) in
  if greater_than_half || (bool_decide (r = b) && bool_decide (q mod 2 = 1))
  then q + 1 else q.

(** [b - ((b - a) / 2)] on two datetimes. *)
Definition midpoint (a b : datetime) : res datetime :=
  datetime_add b (- divide_and_round (b - a) 2).

Class DateFormat : Type := {
  strptime : string -> res datetime;
  strftime : datetime -> string
}.

(** ** The dataset handle

    [netCDF4.Dataset]: global attributes, named dimensions (with their
    sizes) and named variables. *)

Record ncvar (T : Type) : Type := NCVar {
  v_data : ndarray T;
  units : string;
  long_name : string
}.
Arguments NCVar {T} _ _ _.
Arguments v_data {T} _.
Arguments units {T} _.
Arguments long_name {T} _.

(** ** Binary64 numbers

    The origin and the spacing of the output grid are numeric
    attributes of the file, which the program reads as IEEE 754 binary64
    numbers; sums, products and quotients are the correctly rounded
    ones. *)
Definition float64 : Set := PrimFloat.float.

(** An integer converted to binary64: the nearest number, ties to
    even. *)
Definition float_of_Z (n : Z) : float64 :=
  FloatOps.SF2Prim
    (SpecFloat.binary_normalize FloatOps.prec FloatOps.emax n 0 false).

(** [float * int]: the integer operand is converted first, and an
    integer beyond the binary64 range does not convert. *)
Definition float_mul_int (x : float64) (n : Z) : res float64 :=
  let f := float_of_Z n in
  if PrimFloat.is_infinity f then Raise OverflowError
  else Ok (PrimFloat.mul x f).

(** [ceil(x)] as an integer; an infinity or a NaN has none. *)
Definition float_ceil (x : float64) : option Z :=
  match FloatOps.Prim2SF x with
  | SpecFloat.S754_zero _ => Some 0
  | SpecFloat.S754_finite sign m e =>
      let magnitude :=
        if decide (0 <= e) then Z.pos m * 2 ^ e
        else if sign then Z.pos m / 2 ^ (- e)
        else - ((- Z.pos m) / 2 ^ (- e)) in
      Some (if sign then - magnitude else magnitude)
  | _ => None
  end.

Record Dataset (T : Type) : Type := {
  outlon0 : float64;
  outlat0 : float64;
  dxout : float64;
  dyout : float64;
  ibdate : string;
  ibtime : string;
  iedate : string;
  ietime : string;
  loutstep : Z;
  ldirect : Z;
  iout : Z;
  dimensions : gmap string nat;
  variables : gmap string (ncvar T)
}.
Arguments outlon0 {T} _.
Arguments outlat0 {T} _.
Arguments dxout {T} _.
Arguments dyout {T} _.
Arguments ibdate {T} _.
Arguments ibtime {T} _.
Arguments iedate {T} _.
Arguments ietime {T} _.
Arguments loutstep {T} _.
Arguments ldirect {T} _.
Arguments iout {T} _.
Arguments dimensions {T} _.
Arguments variables {T} _.

(** [len(nc.dimensions[name])] *)
Definition dim_len {T : Type} (nc : Dataset T) (name : string) : res nat :=
  lookup_key (dimensions nc) name.

(** ** Formatting of variable names *)

Definition digit_char (d : Z) : ascii :=
  ascii_of_nat (48 + Z.to_nat d).

(** The decimal digits of a non-negative number, most significant first;
    [fuel] bounds the number of digits. *)
Fixpoint digits_fuel (fuel : nat) (n : Z) (acc : string) : string :=
  match fuel with
  | O => acc
  | S fuel' =>
      let acc' := String (digit_char (n mod 10)) acc in
      if decide (n < 10) then acc' else digits_fuel fuel' (n / 10) acc'
  end.

Definition digits (n : Z) : string :=
  digits_fuel (S (Z.to_nat (Z.log2 n))) n "".

Fixpoint zeros_string (k : nat) : string :=
  match k with O => "" | S k' => String "0" (zeros_string k') end.

(** ["%0<w>d" % n]: sign first, then zeros up to the width. *)
Definition fmt_0d (width : nat) (n : Z) : string :=
  let sign := if decide (n < 0) then "-" else "" in
  let body := digits (Z.abs n) in
  sign +:+ zeros_string (width - String.length sign - String.length body) +:+ body.

(** The variable-name selection shared by [Header.species], [FD] and
    [C]: two independent [if]s assign the name, and its use fails when
    neither did. *)
Definition select_varname (iout : Z) (n : Z) : res string :=
  let varname : option string := None in
  let varname :=
    if decide (iout = 1 \/ iout = 3 \/ iout = 5)
    then Some ("spec" +:+ fmt_0d 3 n +:+ "_mr") else varname in
  let varname :=
    if decide (iout = 2)
    then Some ("spec" +:+ fmt_0d 3 n +:+ "_pptv") else varname in
  match varname with
  | Some name => Ok name
  | None => Raise UnboundLocalError
  end.

(** ** Dynamically typed values

    Keys handed to [C.__getitem__] and the untyped slots of [FDC]. *)

#[warnings="-register-all"] Inductive pyval : Type :=
| PNone
| PBool (b : bool)
| PInt (n : Z)
| PFloat (q : Q)
| PStr (s : string)
| PDatetime (d : datetime)
| PTuple (items : list pyval)
| PList (items : list pyval).

(** ** The result container *)

Record FDC (T : Type) : Type := mkFDC {
  _grid : option (ndarray T);
  _gridfile : pyval;
  _itime : option (ndarray T);
  _timestamp : pyval;
  _species : pyval;
  _rel_i : pyval;
  _spec_i : pyval;
  _dry : pyval;
  _wet : pyval;
  _slabs : option (gmap nat (ndarray T));
  _shape : option (list nat);
  _max : option T;
  _min : option T
}.
Arguments mkFDC {T} _ _ _ _ _ _ _ _ _ _ _ _ _.
Arguments _grid {T} _.
Arguments _gridfile {T} _.
Arguments _itime {T} _.
Arguments _timestamp {T} _.
Arguments _species {T} _.
Arguments _rel_i {T} _.
Arguments _spec_i {T} _.
Arguments _dry {T} _.
Arguments _wet {T} _.
Arguments _slabs {T} _.
Arguments _shape {T} _.
Arguments _max {T} _.
Arguments _min {T} _.

Module FDC_.
Section Container.
Context {T : Type} `{Scalar T}.

(** [FDC()]: every slot starts as [None]. *)
Definition init : FDC T :=
  mkFDC None PNone None PNone PNone PNone PNone PNone PNone None None None None.

(** The [grid] setter also records shape, maximum and minimum of the
    assigned array. *)
Definition set_grid (c : FDC T) (value : ndarray T) : res (FDC T) :=
  let sh := shape value in
  mx ← np.max value;
  mn ← np.min value;
  Ok (mkFDC (Some value) (_gridfile c) (_itime c) (_timestamp c)
            (_species c) (_rel_i c) (_spec_i c) (_dry c) (_wet c)
            (_slabs c) (Some sh) (Some mx) (Some mn)).

Definition set_gridfile (c : FDC T) (value : pyval) : FDC T :=
  mkFDC (_grid c) value (_itime c) (_timestamp c) (_species c) (_rel_i c)
        (_spec_i c) (_dry c) (_wet c) (_slabs c) (_shape c) (_max c) (_min c).

Definition set_itime (c : FDC T) (value : option (ndarray T)) : FDC T :=
  mkFDC (_grid c) (_gridfile c) value (_timestamp c) (_species c) (_rel_i c)
        (_spec_i c) (_dry c) (_wet c) (_slabs c) (_shape c) (_max c) (_min c).

Definition set_timestamp (c : FDC T) (value : pyval) : FDC T :=
  mkFDC (_grid c) (_gridfile c) (_itime c) value (_species c) (_rel_i c)
        (_spec_i c) (_dry c) (_wet c) (_slabs c) (_shape c) (_max c) (_min c).

Definition set_species (c : FDC T) (value : pyval) : FDC T :=
  mkFDC (_grid c) (_gridfile c) (_itime c) (_timestamp c) value (_rel_i c)
        (_spec_i c) (_dry c) (_wet c) (_slabs c) (_shape c) (_max c) (_min c).

Definition set_rel_i (c : FDC T) (value : pyval) : FDC T :=
  mkFDC (_grid c) (_gridfile c) (_itime c) (_timestamp c) (_species c) value
        (_spec_i c) (_dry c) (_wet c) (_slabs c) (_shape c) (_max c) (_min c).

Definition set_spec_i (c : FDC T) (value : pyval) : FDC T :=
  mkFDC (_grid c) (_gridfile c) (_itime c) (_timestamp c) (_species c)
        (_rel_i c) value (_dry c) (_wet c) (_slabs c) (_shape c) (_max c)
        (_min c).

Definition set_slabs (c : FDC T) (value : gmap nat (ndarray T)) : FDC T :=
  mkFDC (_grid c) (_gridfile c) (_itime c) (_timestamp c) (_species c)
        (_rel_i c) (_spec_i c) (_dry c) (_wet c) (Some value) (_shape c)
        (_max c) (_min c).

(** Reading the [grid] slot where an array is needed: [None] has none
    of the attributes of an array. *)
Definition grid (c : FDC T) : res (ndarray T) :=
  match _grid c with Some g => Ok g | None => Raise AttributeError end.

End Container.
End FDC_.

(** ** The slab reducer *)

Section Slabs.
Context {T : Type} `{Scalar T}.

(** The array stored for level [i] before it is transposed. *)
Definition level (normAreaHeight : bool) (Heightnn grid : ndarray T)
    (i : nat) : res (ndarray T) :=
  if normAreaHeight then
    g ← np.getitem grid [Full; Full; At (Z.of_nat i)];
    h ← np.getitem Heightnn [Full; Full; At (Z.of_nat i)];
    np.divide g h
  else np.getitem grid [Full; Full; At (Z.of_nat i)].

(** The body of [get_slabs], with the local flag [normAreaHeight] as
    a parameter. *)
Definition get_slabs_with (normAreaHeight : bool)
    (Heightnn grid : ndarray T) : res (gmap nat (ndarray T)) :=
  nz ← py_getitem (shape grid) 2;
  slabs ← for_each
    (fun (i : nat) (slabs : gmap nat (ndarray T)) =>
       data ← level normAreaHeight Heightnn grid i;
       Ok (<[S i := np.transpose data]> slabs))
    (seq 0 nz) ∅;
  total ← np.sum grid 2;
  Ok (<[0%nat := np.transpose total]> slabs).

(** [get_slabs(Heightnn, grid)]: the flag is fixed to [True]. *)
Definition get_slabs (Heightnn grid : ndarray T)
  : res (gmap nat (ndarray T)) :=
  let normAreaHeight := true in
  get_slabs_with normAreaHeight Heightnn grid.
End Slabs.

(** ** Header: the metadata facade *)

(** [np.arange(start, stop, step)] on binary64 numbers.  The length is
    [ceil((stop - start) / step)], computed in binary64: a NaN raises
    [ValueError], a value outside the range of array sizes raises
    [OverflowError], and a length below one gives the empty array.  The
    first element is [start], the second [start + step], and element
    [i] from the third on is [start + i * delta], where [delta] is the
    difference of the first two. *)
Definition intp_max : Z := 2 ^ 63 - 1.

Definition arange (start stop step : float64) : res (list float64) :=
  let value := PrimFloat.div (PrimFloat.sub stop start) step in
  match float_ceil value with
  | None =>
      if PrimFloat.is_nan value then Raise ValueError else Raise OverflowError
  | Some length =>
      if decide (- intp_max - 1 <= length <= intp_max) then
        let next := PrimFloat.add start step in
        let delta := PrimFloat.sub next start in
        Ok ((fun i : nat =>
               match i with
               | O => start
               | S O => next
               | _ => PrimFloat.add start
                        (PrimFloat.mul (float_of_Z (Z.of_nat i)) delta)
               end) <$> seq 0 (Z.to_nat length))
      else Raise OverflowError
  end.

Module Header.
Section Facade.
Context {T : Type} `{DateFormat}.
Variable nc : Dataset T.

Definition direction : string :=
  if decide (ldirect nc < 0) then "backward" else "forward".

Definition nspec : res nat := dim_len nc "numspec".

Definition species : res (list string) :=
  n ← nspec;
  comprehension
    (fun i : nat =>
       varname ← select_varname (iout nc) (Z.of_nat i + 1);
       ncvar ← lookup_key (variables nc) varname;
       Ok (long_name ncvar))
    (seq 0 n).


Definition numpoint : res nat := dim_len nc "numpoint".
Definition numpointspec : res nat := dim_len nc "pointspec".
Definition numageclasses : res nat := dim_len nc "nageclass".
Definition numxgrid : res nat := dim_len nc "longitude".
Definition numygrid : res nat := dim_len nc "latitude".
Definition numzgrid : res nat := dim_len nc "height".

Definition longitude : res (list float64) :=
  n ← numxgrid;
  width ← float_mul_int (dxout nc) (Z.of_nat n);
  arange (outlon0 nc) (PrimFloat.add (outlon0 nc) width) (dxout nc).

Definition latitude : res (list float64) :=
  n ← numygrid;
  height ← float_mul_int (dyout nc) (Z.of_nat n);
  arange (outlat0 nc) (PrimFloat.add (outlat0 nc) height) (dyout nc).

(** [(d + datetime.timedelta(seconds=t)).strftime("%Y%m%d%H%M%S")] *)
Definition shifted (d : datetime) (t : Z) : res string :=
  delta ← timedelta t;
  d' ← datetime_add d delta;
  Ok (strftime d').

Definition available_dates : res (list string) :=
  let loutstep := loutstep nc in
  nsteps ← dim_len nc "time";
  let nsteps := Z.of_nat nsteps in
  if decide (ldirect nc < 0) then
    d ← strptime (iedate nc +:+ ietime nc);
    ts ← py_range (loutstep * (nsteps - 1)) (- loutstep) (- loutstep);
    comprehension (shifted d) ts
  else
    d ← strptime (ibdate nc +:+ ibtime nc);
    ts ← py_range 0 (loutstep * nsteps) loutstep;
    comprehension (shifted d) ts.

Context `{Scalar T} `{ToInt T}.

Definition ireleasestart : res (ndarray T) :=
  v ← lookup_key (variables nc) "RELSTART"; Ok (v_data v).

Definition ireleaseend : res (ndarray T) :=
  v ← lookup_key (variables nc) "RELEND"; Ok (v_data v).

(** [d + datetime.timedelta(seconds=int(t))] *)
Definition released (d : datetime) (t : ndarray T) : res datetime :=
  seconds ← py_int t;
  delta ← timedelta seconds;
  datetime_add d delta.

Definition releasestart : res (list datetime) :=
  if decide (ldirect nc < 0) then
    a ← ireleasestart;
    rel_start ← np.flip a;
    d ← strptime (iedate nc +:+ ietime nc);
    ts ← np.iter rel_start;
    comprehension (released d) ts
  else
    a ← ireleasestart;
    rel_start ← np.slice_all a;
    d ← strptime (ibdate nc +:+ ibtime nc);
    ts ← np.iter rel_start;
    comprehension (released d) ts.

Definition releaseend : res (list datetime) :=
  if decide (ldirect nc < 0) then
    a ← ireleaseend;
    rel_end ← np.flip a;
    d ← strptime (iedate nc +:+ ietime nc);
    ts ← np.iter rel_end;
    comprehension (released d) ts
  else
    a ← ireleaseend;
    rel_end ← np.slice_all a;
    d ← strptime (ibdate nc +:+ ibtime nc);
    ts ← np.iter rel_end;
    comprehension (released d) ts.

Definition releasetimes : res (list datetime) :=
  starts ← releasestart;
  ends ← releaseend;
  comprehension (fun ab : datetime * datetime => midpoint ab.1 ab.2)
                (zip starts ends).

(** [None] when the file has no orography. *)
Definition ORO : option (ndarray T) :=
  match variables nc !! "ORO" with
  | Some v => Some (np.transpose (v_data v))
  | None => None
  end.

Definition outheight : res (ndarray T) :=
  v ← lookup_key (variables nc) "height"; Ok (np.transpose (v_data v)).

Definition Heightnn : res (ndarray T) :=
  nx ← numxgrid;
  ny ← numygrid;
  nz ← numzgrid;
  oh ← outheight;
  outheight ← np.slice_all oh;
  match ORO with
  | Some o =>
      oro ← np.slice_all o;
      r ← np.reshape oro [nx; ny; 1%nat];
      np.add outheight r
  | None => np.reshape outheight [1%nat; 1%nat; nz]
  end.
End Facade.
End Header.

(** [itertools.product(xs, ys)] as a list: the first component varies
    slowest. *)
Definition product {A B : Type} (xs : list A) (ys : list B) : list (A * B) :=
  x ← xs; pair x <$> ys.

(** Calling a list object: lists are not callable. *)
Definition call_list {A B : Type} (l : list A) : res B := Raise TypeError.

(** ** FD: grids indexed with (species, date) *)

Module FD.
Section Accessor.
Context {T : Type} `{Scalar T} `{DateFormat}.

Record t : Type := mk {
  nc : Dataset T;
  nspec : nat;
  species : list string;
  available_dates : list string;
  grid_dates : list string;
  direction : string;
  iout : Z;
  _keys : list (nat * string)
}.

Definition init (nc : Dataset T) (nspec : nat) (species : list string)
    (available_dates : list string) (direction : string) (iout : Z) : t :=
  mk nc nspec species available_dates available_dates direction iout
     (product (seq 0 nspec) available_dates).

Definition keys (self : t) : res (list (nat * string)) :=
  call_list (_keys self).

Definition getitem (self : t) (item : Z * string) : res (FDC T) :=
  let '(nspec, date) := item in
  idate ← py_index date (available_dates self);
  let fdc := FDC_.init in
  varname ← select_varname (iout self) (nspec + 1);
  var ← lookup_key (variables (nc self)) varname;
  sub ← np.getitem (v_data var)
          [Full; Full; At (Z.of_nat idate); Full; Full; Full];
  fdc ← FDC_.set_grid fdc (np.transpose sub);
  tvar ← lookup_key (variables (nc self)) "time";
  itime ← np.getitem (v_data tvar) [At (Z.of_nat idate)];
  let fdc := FDC_.set_itime fdc (Some itime) in
  d ← py_getitem (available_dates self) (Z.of_nat idate);
  timestamp ← strptime d;
  let fdc := FDC_.set_timestamp fdc (PDatetime timestamp) in
  let fdc := FDC_.set_spec_i fdc (PInt nspec) in
  let fdc :=
    if decide (direction self = "forward")
    then FDC_.set_rel_i fdc (PInt 0)
    else FDC_.set_rel_i fdc (PStr "k") in
  let fdc := FDC_.set_species fdc (PList (PStr <$> species self)) in
  Ok fdc.
End Accessor.
Arguments t T : clear implicits.
End FD.

(** ** C: grids indexed with (species, release point) *)

Module C.
Section Accessor.
Context {T : Type} `{Scalar T} `{DateFormat}.

Record t : Type := mk {
  nc : Dataset T;
  nspec : nat;
  pointspec : nat;
  releasetimes : list datetime;
  species : list string;
  available_dates : list string;
  direction : string;
  iout : Z;
  Heightnn : ndarray T;
  _FD : FD.t T;
  _keys : list (nat * nat)
}.

Definition init (nc : Dataset T) (releasetimes : list datetime)
    (species : list string) (available_dates : list string)
    (direction : string) (iout : Z) (Heightnn : ndarray T) (fd : FD.t T)
  : res t :=
  nspec ← dim_len nc "numspec";
  pointspec ← dim_len nc "pointspec";
  Ok (mk nc nspec pointspec releasetimes species available_dates direction
         iout Heightnn fd (product (seq 0 nspec) (seq 0 pointspec))).

(** The [keys] property calls the stored list. *)
Definition keys (self : t) : res (list (nat * nat)) :=
  call_list (_keys self).

(** [__dir__] and [__iter__] hand out the stored list itself. *)
Definition dir (self : t) : list (nat * nat) := _keys self.
Definition iter (self : t) : list (nat * nat) := _keys self.

(** One turn of the accumulation loop:
    [c.grid += specvar[:, :, :, idate, pointspec, :].sum(axis=-1)]. *)
Definition accumulate (self : t) (specvar : ndarray T) (pointspec : Z)
    (date : string) (c : FDC T) : res (FDC T) :=
  idate ← py_index date (available_dates self);
  g ← FDC_.grid c;
  sub ← np.getitem specvar
          [Full; Full; Full; At (Z.of_nat idate); At pointspec; Full];
  s ← np.sum sub (-1);
  g' ← np.iadd g s;
  FDC_.set_grid c g'.

(** The grid of the backward branch, as the loop computes it. *)
Definition backward_grid (self : t) (specvar : ndarray T) (pointspec : Z)
    (c : FDC T) : res (FDC T) :=
  nx ← dim_len (nc self) "longitude";
  ny ← dim_len (nc self) "latitude";
  nz ← dim_len (nc self) "height";
  c ← FDC_.set_grid c (np.zeros [nx; ny; nz]);
  for_each (accumulate self specvar pointspec) (available_dates self) c.

(** The alternative the source keeps in its dead [else] branch:
    [c.grid = specvar[:, :, :, :, pointspec, :].sum(axis=(-2, -1))]. *)
Definition vectorized_grid (specvar : ndarray T) (pointspec : Z)
    (c : FDC T) : res (FDC T) :=
  sub ← np.getitem specvar [Full; Full; Full; Full; At pointspec; Full];
  g ← np.sum_last2 sub;
  FDC_.set_grid c g.

(** The backward branch; [loop] is the constant condition of the
    inner [if], which the source fixes to [True]. *)
Definition backward_with (loop : bool) (self : t) (nspec pointspec : Z)
  : res (FDC T) :=
  let c := FDC_.init in
  let c := FDC_.set_itime c None in
  timestamp ← py_getitem (releasetimes self) pointspec;
  let c := FDC_.set_timestamp c (PDatetime timestamp) in
  sp ← py_getitem (species self) nspec;
  let c := FDC_.set_species c (PStr sp) in
  let c := FDC_.set_gridfile c (PStr "multiple") in
  let c := FDC_.set_rel_i c (PInt pointspec) in
  let c := FDC_.set_spec_i c (PInt nspec) in
  varname ← select_varname (iout self) (nspec + 1);
  var ← lookup_key (variables (nc self)) varname;
  let specvar := np.transpose (v_data var) in
  if loop then backward_grid self specvar pointspec c
  else vectorized_grid specvar pointspec c.

Definition backward : t -> Z -> Z -> res (FDC T) := backward_with true.

Definition getitem (self : t) (item : pyval) : res (FDC T) :=
  match item with
  | PTuple [a; b] =>
      match a, b with
      | PInt nspec, PInt pointspec =>
          c ← (if decide (direction self = "backward") then
                 backward self nspec pointspec
               else
                 let fd := _FD self in
                 d ← py_getitem (FD.grid_dates fd) pointspec;
                 FD.getitem fd (nspec, d));
          g ← FDC_.grid c;
          slabs ← get_slabs (Heightnn self) g;
          Ok (FDC_.set_slabs c slabs)
      | _, _ => Raise AssertionError
      end
  | _ => Raise AssertionError
  end.
End Accessor.
Arguments t T : clear implicits.
End C.

(** ** The accessors as the header builds them *)

Section Factories.
Context {T : Type} `{Scalar T} `{DateFormat} `{ToInt T}.

(** The [FD] property of the header. *)
Definition Header_FD (nc : Dataset T) : res (FD.t T) :=
  nspec ← Header.nspec nc;
  species ← Header.species nc;
  available_dates ← Header.available_dates nc;
  Ok (FD.init nc nspec species available_dates (Header.direction nc) (iout nc)).

(** The [C] property of the header. *)
Definition Header_C (nc : Dataset T) : res (C.t T) :=
  releasetimes ← Header.releasetimes nc;
  species ← Header.species nc;
  available_dates ← Header.available_dates nc;
  Heightnn ← Header.Heightnn nc;
  fd ← Header_FD nc;
  C.init nc releasetimes species available_dates (Header.direction nc)
         (iout nc) Heightnn fd.

Definition fill_grids (nc : Dataset T) : res (C.t T) := Header_C nc.
End Factories.

(** ** Conditions under which the lookups are stated *)

(** Position at which [l.index(x)] finds [x] (0 when it raises). *)
Definition first_index {A : Type} `{EqDecision A} (x : A) (l : list A) : nat :=
  match py_index x l with Ok i => i | Raise _ => 0%nat end.

Section Conditions.
Context {T : Type} `{ST : Scalar T} `{DF : DateFormat}.

(** The variable of a species as FLEXPART lays it out: axes
    (nageclass, pointspec, time, height, latitude, longitude), the
    last three sized by the dimensions of the same names, none of the
    spatial or auxiliary axes empty. *)
Record species_var (nc : Dataset T) (varname : string) (raw : ndarray T)
    (na np nt nz ny nx : nat) : Prop := {
  sv_lookup : exists var, variables nc !! varname = Some var /\ v_data var = raw;
  sv_shape : shape raw = [na; np; nt; nz; ny; nx];
  sv_longitude : dimensions nc !! "longitude" = Some nx;
  sv_latitude : dimensions nc !! "latitude" = Some ny;
  sv_height : dimensions nc !! "height" = Some nz;
  sv_nonempty : (0 < na /\ 0 < np /\ 0 < nz /\ 0 < ny /\ 0 < nx)%nat
}.

(** A key [(s, date)] that [FD] can serve: the output mode is one of the
    handled ones, [date] first occurs at position [idate] of the
    available dates and can be parsed, the species variable [raw] is
    laid out as above with [idate] on its time axis, and the [time]
    variable has an entry at [idate]. *)
Record FD_ready (self : FD.t T) (s : Z) (date : string) (idate : nat)
    (raw : ndarray T) (na np nt nz ny nx : nat) : Prop := {
  fr_date : py_index date (FD.available_dates self) = Ok idate;
  fr_parse : exists ts, strptime date = Ok ts;
  fr_var : exists varname,
    select_varname (FD.iout self) (s + 1) = Ok varname /\
    species_var (FD.nc self) varname raw na np nt nz ny nx;
  fr_idate : (idate < nt)%nat;
  fr_time : exists tvar n rest,
    variables (FD.nc self) !! "time" = Some tvar /\
    shape (v_data tvar) = n :: rest /\ (idate < n)%nat
}.

(** The height field covers the levels of a grid of shape
    [nx :: ny :: nz :: rest] and broadcasts against its levels. *)
Definition heights_cover (Hnn : ndarray T) (nx ny nz : nat) (rest : list nat)
  : Prop :=
  exists hx hy hz hrest bs,
    shape Hnn = hx :: hy :: hz :: hrest /\ (nz <= hz)%nat /\
    np.broadcast_shapes (nx :: ny :: rest) (hx :: hy :: hrest) = Ok bs.

(** A key [(s, k)] that [C] can serve in a forward run: [date] is the
    grid date at position [k], and [FD] can serve [(s, date)]. *)
Record C_forward_ready (self : C.t T) (s k : Z) (date : string)
    (idate : nat) (raw : ndarray T) (na np nt nz ny nx : nat) : Prop := {
  cf_direction : C.direction self = "forward";
  cf_date : py_getitem (FD.grid_dates (C._FD self)) k = Ok date;
  cf_fd : FD_ready (C._FD self) s date idate raw na np nt nz ny nx;
  cf_heights : heights_cover (C.Heightnn self) nx ny nz [np; na]
}.

(** A key [(s, k)] that [C] can serve in a backward run: [k] addresses
    release point [kn] of the species variable [raw], the release time
    and the species name of the key exist, every available date has a
    place on the time axis of [raw], and the heights cover the grid. *)
Record C_backward_ready (self : C.t T) (s k : Z) (kn : nat)
    (raw : ndarray T) (na np nt nz ny nx : nat) : Prop := {
  cb_direction : C.direction self = "backward";
  cb_release : exists ts, py_getitem (C.releasetimes self) k = Ok ts;
  cb_species : exists sp, py_getitem (C.species self) s = Ok sp;
  cb_var : exists varname,
    select_varname (C.iout self) (s + 1) = Ok varname /\
    species_var (C.nc self) varname raw na np nt nz ny nx;
  cb_point : norm_index np k = Ok kn;
  cb_dates : (length (C.available_dates self) <= nt)%nat;
  cb_heights : heights_cover (C.Heightnn self) nx ny nz []
}.

(** What one date contributes to the cell [(x, y, z)]: the raw values at
    the date's index and at release point [kn], summed over the
    age-class axis. *)
Definition date_term (raw : ndarray T) (dates : list string) (na kn : nat)
    (x y z : nat) (date : string) : T :=
  np.sum_list ((fun a => item raw [a; kn; first_index date dates; z; y; x])
                 <$> seq 0 na).

(** The time offset, in seconds from the anchor date, of entry [i] of
    the available dates. *)
Definition offset (nc : Dataset T) (n : nat) (i : nat) : Z :=
  if decide (ldirect nc < 0)
  then loutstep nc * (Z.of_nat n - 1) - Z.of_nat i * loutstep nc
  else Z.of_nat i * loutstep nc.

(** The date the list is anchored at: the end date of a backward run,
    the start date of a forward run. *)
Definition anchor (nc : Dataset T) : string :=
  if decide (ldirect nc < 0) then iedate nc +:+ ietime nc
  else ibdate nc +:+ ibtime nc.

(** The statement about backward runs as the specification words it:
    the list has one entry per index of the time dimension, and entry
    [i] lies [(n - 1) * loutstep] seconds before the end date plus [i]
    steps of [loutstep] seconds. *)
Definition backward_dates_as_claimed (nc : Dataset T) : Prop :=
  forall (d : datetime) (n : nat),
    ldirect nc < 0 ->
    strptime (iedate nc +:+ ietime nc) = Ok d ->
    dimensions nc !! "time" = Some n ->
    exists l : list string,
      Header.available_dates nc = Ok l /\ length l = n /\
      forall i : nat, (i < n)%nat ->
        l !! i = Some (strftime (d - 1000000 * ((Z.of_nat n - 1) * loutstep nc)
                                   + 1000000 * (Z.of_nat i * loutstep nc))).

(** The output modes for which a variable name is chosen. *)
Definition handled (iout : Z) : Prop :=
  iout = 1 \/ iout = 2 \/ iout = 3 \/ iout = 5.

(** The cell of the height field that normalizes cell [(x, y)] of
    level [i]: the same cell when the field has the shape of the grid,
    the only cell of the level when it is broadcast. *)
Definition height_cell (Hnn : ndarray T) (x y i : nat) : T :=
  match shape Hnn with
  | hx :: hy :: _ =>
      item Hnn [if decide (hx = 1%nat) then 0%nat else x;
                if decide (hy = 1%nat) then 0%nat else y; i]
  | _ => item Hnn [x; y; i]
  end.

(** The derived slots describe the grid that is stored: shape, maximum
    and minimum belong to the array in the [grid] slot, and are empty
    while that slot is. *)
Definition FDC_consistent (c : FDC T) : Prop :=
  match _grid c with
  | Some g =>
      _shape c = Some (shape g) /\
      (exists mx, np.max g = Ok mx /\ _max c = Some mx) /\
      (exists mn, np.min g = Ok mn /\ _min c = Some mn)
  | None => _shape c = None /\ _max c = None /\ _min c = None
  end.

(** Two containers carry the same plain slots. *)
Definition same_meta (c c' : FDC T) : Prop :=
  _gridfile c' = _gridfile c /\ _itime c' = _itime c /\
  _timestamp c' = _timestamp c /\ _species c' = _species c /\
  _rel_i c' = _rel_i c /\ _spec_i c' = _spec_i c /\
  _dry c' = _dry c /\ _wet c' = _wet c /\ _slabs c' = _slabs c.

(** The one-dimensional variable [name] of the dataset holds [n]
    entries. *)
Definition vector_var (nc : Dataset T) (name : string) (a : ndarray T)
    (n : nat) : Prop :=
  (exists v, variables nc !! name = Some v /\ v_data v = a) /\ shape a = [n].

(** Position read in a release variable for entry [i] of the release
    lists: from the end in a backward run. *)
Definition release_index (nc : Dataset T) (n i : nat) : nat :=
  if decide (ldirect nc < 0) then (n - 1 - i)%nat else i.
End Conditions.

(** ** Instances used to run the model *)

(** Integers as scalars (division truncates; it only serves to run
    examples). *)
#[global] Instance Z_scalar : Scalar Z := {
  s_zero := 0;
  s_add := Z.add;
  s_div := Z.div;
  s_max := Z.max;
  s_min := Z.min
}.

(** Integer addition is exact. *)
#[global] Instance Z_exact : ExactAdd Z.
Proof. split; simpl; intros; lia. Qed.

(** A reference [DateFormat] for timestamps written as fourteen digits,
    after CPython's [_ymd2ord] and [_ord2ymd]. *)
Module RefDate.
Local Open Scope Z_scope.

Definition is_leap (y : Z) : bool :=
  (y mod 4 =? 0) && (negb (y mod 100 =? 0) || (y mod 400 =? 0)).

Definition days_before_year (y : Z) : Z :=
  let y := y - 1 in y * 365 + y / 4 - y / 100 + y / 400.

Definition days_in_month (y m : Z) : Z :=
  if (m =? 2) && is_leap y then 29
  else nth (Z.to_nat m) [0; 31; 28; 31; 30; 31; 30; 31; 31; 30; 31; 30; 31] 0.

Definition days_before_month (y m : Z) : Z :=
  nth (Z.to_nat m) [0; 0; 31; 59; 90; 120; 151; 181; 212; 243; 273; 304; 334] 0
  + (if (2 <? m) && is_leap y then 1 else 0).

Definition ymd2ord (y m d : Z) : Z :=
  days_before_year y + days_before_month y m + d.

Definition ord2ymd (ordinal : Z) : Z * Z * Z :=
  let n := ordinal - 1 in
  let n400 := n / 146097 in let n := n mod 146097 in
  let n100 := n / 36524 in let n := n mod 36524 in
  let n4 := n / 1461 in let n := n mod 1461 in
  let n1 := n / 365 in let n := n mod 365 in
  let year := n400 * 400 + 1 + n100 * 100 + n4 * 4 + n1 in
  if (n1 =? 4) || (n100 =? 4) then (year - 1, 12, 31)
  else
    let month := Z.shiftr (n + 50) 5 in
    let preceding := days_before_month year month in
    if n <? preceding then
      let month := month - 1 in
      let preceding := preceding - days_in_month year month in
      (year, month, n - preceding + 1)
    else (year, month, n - preceding + 1).

Definition digit_val (c : ascii) : option Z :=
  let n := Z.of_nat (nat_of_ascii c) in
  if (48 <=? n) && (n <=? 57) then Some (n - 48) else None.

Fixpoint number (s : string) (acc : Z) : option Z :=
  match s with
  | EmptyString => Some acc
  | String c s' =>
      match digit_val c with
      | Some d => number s' (acc * 10 + d)
      | None => None
      end
  end.

Definition field (s : string) (pos len : nat) : option Z :=
  number (String.substring pos len s) 0.

Definition parse (s : string) : res datetime :=
  if negb (String.length s =? 14)%nat then Raise ValueError else
  match field s 0 4, field s 4 2, field s 6 2,
        field s 8 2, field s 10 2, field s 12 2 with
  | Some y, Some m, Some d, Some hh, Some mm, Some ss =>
      if (1 <=? y) && (1 <=? m) && (m <=? 12) && (1 <=? d)
         && (d <=? days_in_month y m) && (hh <? 24) && (mm <? 60) && (ss <? 60)
      then Ok (((((ymd2ord y m d - 1) * 24 + hh) * 60 + mm) * 60 + ss) * 1000000)
      else Raise ValueError
  | _, _, _, _, _, _ => Raise ValueError
  end.

Definition print (d : datetime) : string :=
  let secs := d / 1000000 in
  let '(y, m, dd) := ord2ymd (secs / 86400 + 1) in
  let r := secs mod 86400 in
  fmt_0d 4 y +:+ fmt_0d 2 m +:+ fmt_0d 2 dd
  +:+ fmt_0d 2 (r / 3600) +:+ fmt_0d 2 (r mod 3600 / 60) +:+ fmt_0d 2 (r mod 60).

#[global] Instance format : DateFormat := {
  strptime := parse;
  strftime := print
}.
End RefDate.

(** A small dataset: one species, two release points, two age classes,
    a 2 x 3 x 2 grid and three output times. *)
Module Demo.
Import RefDate.

Definition code (idx : list nat) : Z :=
  foldl (fun acc i => acc * 10 + Z.of_nat i + 1) 0 idx.

(** Whole degrees, and half and a tenth of a degree. *)
Definition deg (z : Z) : float64 := float_of_Z z.
Definition half : float64 := PrimFloat.div (deg 1) (deg 2).
Definition tenth : float64 := PrimFloat.div (deg 1) (deg 10).

Definition dims : gmap string nat :=
  list_to_map [("numspec", 1%nat); ("numpoint", 2%nat); ("pointspec", 2%nat);
               ("nageclass", 2%nat); ("longitude", 2%nat);
               ("latitude", 3%nat); ("height", 2%nat); ("time", 3%nat)].

Definition vars : gmap string (ncvar Z) :=
  list_to_map
    [("spec001_mr", NCVar (NDArray [2; 2; 3; 2; 3; 2]%nat code) "ns" "TRACER");
     ("spec001_pptv", NCVar (NDArray [2; 2; 3; 2; 3; 2]%nat code) "pptv" "TRACER");
     ("time", NCVar (NDArray [3%nat] code) "s" "time")].

Definition nc (ldirect loutstep iout : Z) : Dataset Z := {|
  outlon0 := deg (-179); outlat0 := deg (-90); dxout := half; dyout := half;
  ibdate := "20100101"; ibtime := "000000";
  iedate := "20100105"; ietime := "000000";
  loutstep := loutstep; ldirect := ldirect; iout := iout;
  dimensions := dims; variables := vars
|}.

Definition dates (ldirect loutstep : Z) : list string :=
  match Header.available_dates (nc ldirect loutstep 1) with
  | Ok l => l
  | Raise _ => []
  end.

Definition fd (ldirect loutstep iout : Z) : FD.t Z :=
  let h := nc ldirect loutstep iout in
  FD.init h 1 ["TRACER"] (dates ldirect loutstep) (Header.direction h) iout.

(** Heights of the two levels, the same over the whole domain. *)
Definition heights : ndarray Z :=
  NDArray [1; 1; 2]%nat (fun idx => 100 * code idx).

Definition times : list datetime :=
  [63398246400000000; 63398250000000000].

(** The same attributes over a time dimension of five steps. *)
Definition nc5 (ldirect loutstep : Z) : Dataset Z := {|
  outlon0 := deg (-179); outlat0 := deg (-90); dxout := half; dyout := half;
  ibdate := "20100101"; ibtime := "000000";
  iedate := "20100105"; ietime := "000000";
  loutstep := loutstep; ldirect := ldirect; iout := 1;
  dimensions := <["time" := 5%nat]> dims; variables := vars
|}.

(** The same attributes on a grid of a tenth of a degree that starts at
    180 degrees west and has three longitudes. *)
Definition nc_tenth : Dataset Z := {|
  outlon0 := deg (-180); outlat0 := deg (-90); dxout := tenth; dyout := tenth;
  ibdate := "20100101"; ibtime := "000000";
  iedate := "20100105"; ietime := "000000";
  loutstep := 3600; ldirect := 1; iout := 1;
  dimensions := <["longitude" := 3%nat]> dims; variables := vars
|}.

Definition raw : ndarray Z := NDArray [2; 2; 3; 2; 3; 2]%nat code.

(** A grid of the shape of the domain. *)
Definition grid : ndarray Z := NDArray [2; 3; 2]%nat code.

Definition c (ldirect loutstep iout : Z) : C.t Z :=
  let h := nc ldirect loutstep iout in
  C.mk h 1 2 times ["TRACER"] (dates ldirect loutstep) (Header.direction h)
       iout heights (fd ldirect loutstep iout)
       [(0, 0); (0, 1)]%nat.
End Demo.

(** Reading back the number printed at the head of a string: the
    decimal value of its leading digits. *)
Fixpoint leading_number (s : string) (acc : Z) : Z :=
  match s with
  | EmptyString => acc
  | String c s' =>
      match RefDate.digit_val c with
      | Some d => leading_number s' (acc * 10 + d)
      | None => acc
      end
  end.

(** The species number printed in a variable name ["spec<number>..."]. *)
Definition species_number (name : string) : Z :=
  leading_number (String.substring 4 (String.length name - 4) name) 0.

(** Integers convert to themselves. *)
#[global] Instance Z_int : ToInt Z := fun z => z.

(** The small dataset completed with release windows, output heights
    and an orography. *)
Module DemoFull.

Definition vars (oro : bool) : gmap string (ncvar Z) :=
  let base :=
    <["RELSTART" := NCVar (NDArray [2%nat] (fun idx => -7200 * Demo.code idx)) "s" "start"]>
    (<["RELEND" := NCVar (NDArray [2%nat] (fun idx => -3600 * Demo.code idx)) "s" "end"]>
    (<["height" := NCVar (NDArray [2%nat] (fun idx => 100 * Demo.code idx)) "m" "height"]>
     Demo.vars)) in
  if oro
  then <["ORO" := NCVar (NDArray [3; 2]%nat (fun idx => 1000 * Demo.code idx)) "m" "orography"]> base
  else base.

Definition nc (ldirect loutstep iout : Z) (oro : bool) : Dataset Z := {|
  outlon0 := Demo.deg (-179); outlat0 := Demo.deg (-90);
  dxout := Demo.half; dyout := Demo.half;
  ibdate := "20100101"; ibtime := "000000";
  iedate := "20100105"; ietime := "000000";
  loutstep := loutstep; ldirect := ldirect; iout := iout;
  dimensions := Demo.dims; variables := vars oro
|}.

(** The C accessor the header builds for the dataset. *)
Definition c (ldirect loutstep iout : Z) (oro : bool) : C.t Z :=
  match Header_C (nc ldirect loutstep iout oro) with
  | Ok c => c
  | Raise _ => Demo.c ldirect loutstep iout
  end.
End DemoFull.

(** * Properties *)

(** ** The error monad *)

Lemma bind_Ok {A B : Type} (m : res A) (f : A -> res B) (a : A) :
  m = Ok a -> (m ≫= f) = f a.
Proof. intros ->. reflexivity. Qed.

Lemma bind_Raise {A B : Type} (m : res A) (f : A -> res B) (e : exn) :
  m = Raise e -> (m ≫= f) = Raise e.
Proof. intros ->. reflexivity. Qed.

Lemma bind_inv {A B : Type} (m : res A) (f : A -> res B) (b : B) :
  (m ≫= f) = Ok b -> exists a, m = Ok a /\ f a = Ok b.
Proof. destruct m as [a|e]; simpl; [eauto | discriminate]. Qed.

(** Runs the binds whose argument is already a result. *)
Ltac res_step := cbn [mbind res_bind mret res_ret fmap res_fmap].

(** Splits a successful sequence of binds in a hypothesis. *)
Ltac bind_inv H :=
  let a := fresh "a" in
  let Ha := fresh "H" a in
  apply bind_inv in H; destruct H as (a & Ha & H).

(** ** Python lists *)

Lemma norm_index_nat (n i : nat) :
  (i < n)%nat -> norm_index n (Z.of_nat i) = Ok i.
Proof.
  intros Hi. unfold norm_index.
  destruct (decide _) as [_|Hn]; [by rewrite Nat2Z.id | lia].
Qed.

Lemma py_getitem_nat {A : Type} (l : list A) (i : nat) (x : A) :
  l !! i = Some x -> py_getitem l (Z.of_nat i) = Ok x.
Proof.
  intros Hx. unfold py_getitem.
  rewrite norm_index_nat by (by eapply lookup_lt_Some). simpl.
  by rewrite Hx.
Qed.

Lemma py_index_lookup {A : Type} `{EqDecision A} (x : A) (l : list A) (i : nat) :
  py_index x l = Ok i -> l !! i = Some x /\ forall j, (j < i)%nat -> l !! j <> Some x.
Proof.
  revert i. induction l as [|y l IH]; intros i; simpl; [discriminate|].
  destruct (decide (x = y)) as [->|Hne].
  - intros [= <-]. split; [done | lia].
  - destruct (py_index x l) as [k|e]; simpl; [|discriminate].
    intros [= <-]. destruct (IH k eq_refl) as [Hk Hlt]. split; [done|].
    intros [|j] Hj; simpl; [congruence | apply Hlt; lia].
Qed.

Lemma py_index_elem {A : Type} `{EqDecision A} (x : A) (l : list A) :
  x ∈ l -> exists i, py_index x l = Ok i.
Proof.
  induction l as [|y l IH]; [by intros ?%elem_of_nil|].
  intros Hx. simpl. destruct (decide (x = y)) as [->|Hne]; [eauto|].
  apply elem_of_cons in Hx as [?|Hx]; [done|].
  destruct (IH Hx) as [i ->]. simpl. eauto.
Qed.

(** In a list without repetitions, [index] gives back the position. *)
Lemma py_index_NoDup {A : Type} `{EqDecision A} (l : list A) (i : nat) (x : A) :
  NoDup l -> l !! i = Some x -> py_index x l = Ok i.
Proof.
  intros Hnd Hi.
  destruct (py_index_elem x l) as [j Hj]; [by eapply list_elem_of_lookup_2|].
  rewrite Hj. f_equal.
  apply py_index_lookup in Hj as [Hj _].
  by eapply NoDup_lookup.
Qed.

Lemma for_each_app {A S : Type} (body : A -> S -> res S) (xs ys : list A) (s : S) :
  for_each body (xs ++ ys) s = (for_each body xs s ≫= for_each body ys).
Proof.
  revert s. induction xs as [|x xs IH]; intros s; simpl; [done|].
  destruct (body x s) as [s'|e]; simpl; [apply IH | done].
Qed.

(** ** Arrays *)

Section ArrayFacts.
Context {T : Type} `{ST : Scalar T}.

(** [a[:, :, i]] on an array with at least three axes. *)
Lemma getitem_level (a : ndarray T) (nx ny nz : nat) (rest : list nat) (i : nat) :
  shape a = nx :: ny :: nz :: rest -> (i < nz)%nat ->
  np.getitem a [Full; Full; At (Z.of_nat i)]
  = Ok (NDArray (nx :: ny :: rest)
          (fun idx => item a (np.sel_index [None; None; Some i] idx))).
Proof.
  intros Hsh Hi. unfold np.getitem. rewrite Hsh. simpl.
  rewrite norm_index_nat by done. reflexivity.
Qed.

Lemma norm_axis_nat (rank k : nat) :
  (k < rank)%nat -> np.norm_axis rank (Z.of_nat k) = Ok k.
Proof. intros Hk. unfold np.norm_axis. by rewrite norm_index_nat. Qed.

Lemma norm_axis_last (rank : nat) :
  np.norm_axis (S rank) (-1) = Ok rank.
Proof.
  unfold np.norm_axis, norm_index.
  destruct (decide _) as [?|_]; [lia|].
  destruct (decide _) as [_|?]; [|lia].
  f_equal. lia.
Qed.

(** The level arrays exist whenever grid and heights have three leading
    axes, the heights cover the levels of the grid, and a level of the
    grid broadcasts against a level of the heights. *)
Lemma level_ok (flag : bool) (Hnn G : ndarray T)
    (nx ny nz hx hy hz : nat) (rest hrest bs : list nat) (i : nat) :
  shape G = nx :: ny :: nz :: rest ->
  shape Hnn = hx :: hy :: hz :: hrest ->
  (nz <= hz)%nat ->
  np.broadcast_shapes (nx :: ny :: rest) (hx :: hy :: hrest) = Ok bs ->
  (i < nz)%nat ->
  exists data, level flag Hnn G i = Ok data /\
    shape data = if flag then bs else nx :: ny :: rest.
Proof.
  intros HG HH Hle Hbs Hi. unfold level.
  rewrite (getitem_level G nx ny nz rest i) by done.
  destruct flag; [|eauto].
  rewrite (getitem_level Hnn hx hy hz hrest i) by (done || lia).
  simpl. unfold np.divide, np.binop. simpl. rewrite Hbs. simpl. eauto.
Qed.
End ArrayFacts.

(** ** The slab reducer *)

Section SlabFacts.
Context {T : Type} `{ST : Scalar T}.

(** Invariant of the loop of [get_slabs]: running it over the levels
    [lv] adds exactly the keys [i + 1], each bound to the transposed
    level array, and leaves every other key alone. *)
Lemma slabs_loop (flag : bool) (Hnn G : ndarray T) (lv : list nat) :
  (forall i, i ∈ lv -> exists data, level flag Hnn G i = Ok data) ->
  forall slabs0 : gmap nat (ndarray T),
  exists slabs,
    for_each (fun i (slabs : gmap nat (ndarray T)) =>
                data ← level flag Hnn G i;
                Ok (<[S i := np.transpose data]> slabs)) lv slabs0
    = Ok slabs /\
    dom slabs = dom slabs0 ∪ list_to_set (S <$> lv) /\
    (forall k, k ∉ S <$> lv -> slabs !! k = slabs0 !! k) /\
    (NoDup lv -> forall i, i ∈ lv ->
       exists data, level flag Hnn G i = Ok data /\
                    slabs !! S i = Some (np.transpose data)).
Proof.
  induction lv as [|i lv IH]; intros Hok slabs0.
  - exists slabs0. simpl. split; [done|]. split; [set_solver|].
    split; [done|]. intros _ i Hi. by apply elem_of_nil in Hi.
  - destruct (Hok i) as [data Hdata]; [apply elem_of_cons; by left|].
    destruct (IH (fun j Hj => Hok j (proj2 (elem_of_cons _ _ _) (or_intror Hj)))
                (<[S i := np.transpose data]> slabs0))
      as (slabs & Hrun & Hdom & Hother & Hlev).
    exists slabs. simpl. rewrite Hdata. simpl. rewrite Hrun.
    split; [done|]. split; [|split].
    + rewrite Hdom, dom_insert_L. set_solver.
    + intros k Hk.
      apply not_elem_of_cons in Hk as [Hne Hk].
      rewrite Hother by done. by rewrite lookup_insert_ne.
    + intros Hnd j Hj. apply NoDup_cons in Hnd as [Hni Hnd].
      apply elem_of_cons in Hj as [->|Hj].
      * exists data. split; [done|]. rewrite Hother.
        -- by rewrite lookup_insert_eq.
        -- intros (j & [= <-] & Hj)%list_elem_of_fmap. done.
      * by apply Hlev.
Qed.
End SlabFacts.

Section SlabSpec.
Context {T : Type} `{ST : Scalar T}.

Lemma sum_axis2 (G : ndarray T) (nx ny nz : nat) (rest : list nat) :
  shape G = nx :: ny :: nz :: rest ->
  np.sum G 2
  = Ok (NDArray (nx :: ny :: rest)
          (fun idx => np.sum_list
             ((fun j => item G (np.insert_at 2 j idx)) <$> seq 0 nz))).
Proof.
  intros HG. unfold np.sum. rewrite HG.
  change 2 with (Z.of_nat 2). rewrite norm_axis_nat by (simpl; lia).
  reflexivity.
Qed.

(** C2: [get_slabs] runs with normalization switched on, and for either
    value of the flag the mapping it returns has exactly the keys
    [0..nz]; key [0] holds the transpose of the sum of the raw grid over
    the height axis, and key [i] in [1..nz] holds the transpose of
    [G[:,:,i-1] / H[:,:,i-1]] when the flag is on and of [G[:,:,i-1]]
    when it is off. *)
Theorem get_slabs_spec (flag : bool) (Hnn G : ndarray T)
    (nx ny nz hx hy hz : nat) (rest hrest bs : list nat) :
  shape G = nx :: ny :: nz :: rest ->
  shape Hnn = hx :: hy :: hz :: hrest ->
  (nz <= hz)%nat ->
  np.broadcast_shapes (nx :: ny :: rest) (hx :: hy :: hrest) = Ok bs ->
  get_slabs Hnn G = get_slabs_with true Hnn G /\
  exists (slabs : gmap nat (ndarray T)) (total : ndarray T),
    get_slabs_with flag Hnn G = Ok slabs /\
    dom slabs = set_seq 0 (S nz) /\
    np.sum G 2 = Ok total /\
    slabs !! 0%nat = Some (np.transpose total) /\
    forall i : nat, (1 <= i <= nz)%nat ->
      exists g, np.getitem G [Full; Full; At (Z.of_nat i - 1)] = Ok g /\
        if flag then
          exists h q,
            np.getitem Hnn [Full; Full; At (Z.of_nat i - 1)] = Ok h /\
            np.divide g h = Ok q /\
            slabs !! i = Some (np.transpose q)
        else slabs !! i = Some (np.transpose g).
Proof.
  intros HG HH Hle Hbs. split; [reflexivity|].
  destruct (slabs_loop flag Hnn G (seq 0 nz)) with (slabs0 := (∅ : gmap nat (ndarray T)))
    as (slabs & Hrun & Hdom & Hother & Hlev).
  { intros i Hi%elem_of_seq.
    destruct (level_ok flag Hnn G nx ny nz hx hy hz rest hrest bs i)
      as (data & Hdata & _); [done..|lia|eauto]. }
  exists (<[0%nat := np.transpose
              (NDArray (nx :: ny :: rest)
                 (fun idx => np.sum_list
                    ((fun j => item G (np.insert_at 2 j idx)) <$> seq 0 nz)))]> slabs).
  eexists. unfold get_slabs_with.
  assert (Hnz : py_getitem (shape G) 2 = Ok nz).
  { rewrite HG. by apply (py_getitem_nat _ 2 nz). }
  rewrite Hnz. simpl. rewrite Hrun. simpl.
  rewrite (sum_axis2 G nx ny nz rest HG). simpl.
  split; [reflexivity|]. split; [|split; [reflexivity|split]].
  - rewrite dom_insert_L, Hdom, dom_empty_L.
    apply set_eq. intros k.
    rewrite !elem_of_union, (elem_of_set_seq (C := gset nat) 1 nz k),
      elem_of_singleton, elem_of_list_to_set, list_elem_of_fmap.
    split.
    + intros [->|[Hk|(j & -> & Hj%elem_of_seq)]];
        [by left | set_solver | right; lia].
    + intros [->|Hk]; [by left|]. destruct k as [|k]; [lia|].
      right; right. exists k. split; [done|]. apply elem_of_seq. lia.
  - by rewrite lookup_insert_eq.
  - intros i Hi. destruct i as [|i]; [lia|].
    destruct (Hlev (NoDup_seq 0 nz) i) as (data & Hdata & Hslab);
      [apply elem_of_seq; lia|].
    replace (Z.of_nat (S i) - 1) with (Z.of_nat i) by lia.
    rewrite lookup_insert_ne by done.
    unfold level in Hdata.
    rewrite (getitem_level G nx ny nz rest i) in * by (done || lia).
    eexists. split; [reflexivity|].
    destruct flag.
    + rewrite (getitem_level Hnn hx hy hz hrest i) in * by (done || lia).
      simpl in Hdata. eauto.
    + by injection Hdata as <-.
Qed.
(** The run of [get_slabs_with] written out: the mapping it returns,
    with the total column under key 0 and level [i] under key [i + 1]. *)
Lemma get_slabs_with_run (flag : bool) (Hnn G : ndarray T)
    (nx ny nz hx hy hz : nat) (rest hrest bs : list nat) :
  shape G = nx :: ny :: nz :: rest ->
  shape Hnn = hx :: hy :: hz :: hrest ->
  (nz <= hz)%nat ->
  np.broadcast_shapes (nx :: ny :: rest) (hx :: hy :: hrest) = Ok bs ->
  exists slabs : gmap nat (ndarray T),
    get_slabs_with flag Hnn G = Ok slabs /\
    slabs !! 0%nat
    = Some (np.transpose
              (NDArray (nx :: ny :: rest)
                 (fun idx => np.sum_list
                    ((fun j => item G (np.insert_at 2 j idx)) <$> seq 0 nz)))) /\
    (forall k, (nz < k)%nat -> slabs !! k = None) /\
    forall i, (i < nz)%nat ->
      exists data, level flag Hnn G i = Ok data /\
                   shape data = (if flag then bs else nx :: ny :: rest) /\
                   slabs !! S i = Some (np.transpose data).
Proof.
  intros HG HH Hle Hbs.
  destruct (slabs_loop flag Hnn G (seq 0 nz)) with (slabs0 := (∅ : gmap nat (ndarray T)))
    as (slabs & Hrun & Hdom & Hother & Hlev).
  { intros i Hi%elem_of_seq.
    destruct (level_ok flag Hnn G nx ny nz hx hy hz rest hrest bs i)
      as (data & Hdata & _); [done..|lia|eauto]. }
  eexists. unfold get_slabs_with.
  assert (Hnz : py_getitem (shape G) 2 = Ok nz).
  { rewrite HG. by apply (py_getitem_nat _ 2 nz). }
  rewrite Hnz. res_step. rewrite Hrun. res_step.
  rewrite (sum_axis2 G nx ny nz rest HG). res_step.
  split; [reflexivity|]. split; [by rewrite lookup_insert_eq|]. split.
  - intros k Hk. rewrite lookup_insert_ne by lia. rewrite Hother; [done|].
    intros (j & -> & Hj%elem_of_seq)%list_elem_of_fmap. lia.
  - intros i Hi.
    destruct (Hlev (NoDup_seq 0 nz) i) as (data & Hdata & Hslab);
      [apply elem_of_seq; lia|].
    destruct (level_ok flag Hnn G nx ny nz hx hy hz rest hrest bs i)
      as (data' & Hdata' & Hsh); [done..|].
    rewrite Hdata in Hdata'. injection Hdata' as <-.
    exists data. split; [done|]. split; [done|].
    by rewrite lookup_insert_ne.
Qed.
End SlabSpec.

(** ** Extremes and the [grid] setter *)

Section GridSetter.
Context {T : Type} `{ST : Scalar T}.

Lemma indices_nonempty (sh : list nat) :
  Forall (fun n => (0 < n)%nat) sh -> np.indices sh <> [].
Proof.
  induction 1 as [|n sh Hn _ IH]; [done|]. simpl.
  destruct n as [|n]; [lia|]. simpl.
  destruct (np.indices sh); [done | discriminate].
Qed.

Lemma reduce_all_ok (op : T -> T -> T) (a : ndarray T) :
  Forall (fun n => (0 < n)%nat) (shape a) ->
  exists x, np.reduce_all op a = Ok x.
Proof.
  intros Hpos. unfold np.reduce_all, np.elements.
  destruct (np.indices (shape a)) eqn:Hidx; [|simpl; eauto].
  by apply indices_nonempty in Hpos.
Qed.

(** What the setter leaves behind: the array itself, its shape and its
    extremes; every other slot is kept. *)
Lemma set_grid_inv (c c' : FDC T) (value : ndarray T) :
  FDC_.set_grid c value = Ok c' ->
  _grid c' = Some value /\ _shape c' = Some (shape value) /\
  (exists mx, np.max value = Ok mx /\ _max c' = Some mx) /\
  (exists mn, np.min value = Ok mn /\ _min c' = Some mn) /\
  _gridfile c' = _gridfile c /\ _itime c' = _itime c /\
  _timestamp c' = _timestamp c /\ _species c' = _species c /\
  _rel_i c' = _rel_i c /\ _spec_i c' = _spec_i c /\ _slabs c' = _slabs c.
Proof.
  unfold FDC_.set_grid. intros Hset.
  bind_inv Hset. bind_inv Hset. injection Hset as <-. simpl.
  repeat split; eauto.
Qed.

Lemma set_grid_ok (c : FDC T) (value : ndarray T) :
  Forall (fun n => (0 < n)%nat) (shape value) ->
  exists c', FDC_.set_grid c value = Ok c'.
Proof.
  intros Hpos. unfold FDC_.set_grid, np.max, np.min.
  destruct (reduce_all_ok s_max value Hpos) as [mx ->].
  destruct (reduce_all_ok s_min value Hpos) as [mn ->].
  simpl. eauto.
Qed.
End GridSetter.



Section FDSpec.
Context {T : Type} `{ST : Scalar T} `{DF : DateFormat}.

Lemma lookup_key_Some {V : Type} (m : gmap string V) (key : string) (v : V) :
  m !! key = Some v -> lookup_key m key = Ok v.
Proof. unfold lookup_key. by intros ->. Qed.

(** C4: for a key that [FD] can serve, the lookup returns a container
    whose grid is the raw slice at the resolved date index with its axes
    reversed, of shape (numxgrid, numygrid, numzgrid) followed by the
    release-point and age-class axes, and whose [shape], [max] and [min]
    slots are the shape, maximum and minimum of that grid. *)
Theorem FD_getitem_spec (self : FD.t T) (s : Z) (date : string)
    (idate : nat) (raw : ndarray T) (na np nt nz ny nx : nat) :
  FD_ready self s date idate raw na np nt nz ny nx ->
  exists (fdc : FDC T) (g : ndarray T) (mx mn : T),
    FD.getitem self (s, date) = Ok fdc /\
    _grid fdc = Some g /\
    dim_len (FD.nc self) "longitude" = Ok nx /\
    dim_len (FD.nc self) "latitude" = Ok ny /\
    dim_len (FD.nc self) "height" = Ok nz /\
    shape g = [nx; ny; nz] ++ [np; na] /\
    (forall x y z p a,
        item g [x; y; z; p; a] = item raw [a; p; idate; z; y; x]) /\
    _shape fdc = Some (shape g) /\
    np.max g = Ok mx /\ _max fdc = Some mx /\
    np.min g = Ok mn /\ _min fdc = Some mn.
Proof.
  intros [Hdate [ts Hts] (varname & Hname & Hsv) Hidate
            (tvar & n & rest & Htvar & Htsh & Hn)].
  destruct Hsv as [(var & Hvar & Hraw) Hsh Hlon Hlat Hhei
                     (Hna & Hnp & Hnz & Hny & Hnx)].
  pose (sub := NDArray [na; np; nz; ny; nx]
                 (fun idx => item raw
                    (np.sel_index [None; None; Some idate; None; None; None] idx))).
  assert (Hsub : np.getitem raw
                   [Full; Full; At (Z.of_nat idate); Full; Full; Full] = Ok sub).
  { unfold np.getitem. rewrite Hsh. simpl.
    rewrite norm_index_nat by done. reflexivity. }
  destruct (set_grid_ok FDC_.init (np.transpose sub)) as [c1 Hc1].
  { simpl. repeat constructor; lia. }
  destruct (set_grid_inv _ _ _ Hc1)
    as (Hg & Hshape & (mx & Hmx & Hmax) & (mn & Hmn & Hmin) & _).
  assert (Hit : exists it, np.getitem (v_data tvar) [At (Z.of_nat idate)] = Ok it).
  { unfold np.getitem. rewrite Htsh. simpl.
    rewrite norm_index_nat by done. simpl. eauto. }
  destruct Hit as [it Hit].
  apply py_index_lookup in Hdate as Hlook. destruct Hlook as [Hlook _].
  eexists _, (np.transpose sub), mx, mn.
  split.
  { unfold FD.getitem. rewrite Hdate. simpl. rewrite Hname. simpl.
    rewrite (lookup_key_Some _ _ _ Hvar). simpl. rewrite Hraw, Hsub. simpl.
    rewrite Hc1. simpl. rewrite (lookup_key_Some _ _ _ Htvar). simpl.
    rewrite Hit. simpl. rewrite (py_getitem_nat _ _ _ Hlook). simpl.
    rewrite Hts. simpl. reflexivity. }
  unfold dim_len. rewrite !(lookup_key_Some _ _ _ Hlon),
    !(lookup_key_Some _ _ _ Hlat), !(lookup_key_Some _ _ _ Hhei).
  destruct (decide (FD.direction self = "forward")); simpl;
    rewrite Hg, Hshape, Hmax, Hmin; repeat split; done.
Qed.
(** The run of the [FD] lookup written out: every slot of the container
    it returns. *)
Lemma FD_getitem_run (self : FD.t T) (s : Z) (date : string)
    (idate : nat) (raw : ndarray T) (na np nt nz ny nx : nat) :
  FD_ready self s date idate raw na np nt nz ny nx ->
  exists (it : ndarray T) (ts : datetime) (mx mn : T),
    let g := np.transpose
               (NDArray [na; np; nz; ny; nx]
                  (fun idx => item raw
                     (np.sel_index [None; None; Some idate; None; None; None] idx))) in
    (exists tvar, variables (FD.nc self) !! "time" = Some tvar /\
                  np.getitem (v_data tvar) [At (Z.of_nat idate)] = Ok it) /\
    strptime date = Ok ts /\
    np.max g = Ok mx /\ np.min g = Ok mn /\
    FD.getitem self (s, date)
    = Ok (mkFDC (Some g) PNone (Some it) (PDatetime ts)
                (PList (PStr <$> FD.species self))
                (if decide (FD.direction self = "forward")
                 then PInt 0 else PStr "k")
                (PInt s) PNone PNone None (Some (shape g)) (Some mx) (Some mn)).
Proof.
  intros [Hdate [ts Hts] (varname & Hname & Hsv) Hidate
            (tvar & n & rest & Htvar & Htsh & Hn)].
  destruct Hsv as [(var & Hvar & Hraw) Hsh Hlon Hlat Hhei
                     (Hna & Hnp & Hnz & Hny & Hnx)].
  set (sub := NDArray [na; np; nz; ny; nx]
                (fun idx => item raw
                   (np.sel_index [None; None; Some idate; None; None; None] idx))).
  assert (Hsub : np.getitem raw
                   [Full; Full; At (Z.of_nat idate); Full; Full; Full] = Ok sub).
  { unfold np.getitem. rewrite Hsh. simpl.
    rewrite norm_index_nat by done. reflexivity. }
  assert (Hpos : Forall (fun n => (0 < n)%nat) (shape (np.transpose sub))).
  { simpl. repeat constructor; lia. }
  destruct (reduce_all_ok s_max _ Hpos) as [mx Hmx].
  destruct (reduce_all_ok s_min _ Hpos) as [mn Hmn].
  assert (Hit : exists it, np.getitem (v_data tvar) [At (Z.of_nat idate)] = Ok it).
  { unfold np.getitem. rewrite Htsh. simpl.
    rewrite norm_index_nat by done. simpl. eauto. }
  destruct Hit as [it Hit].
  apply py_index_lookup in Hdate as Hlook. destruct Hlook as [Hlook _].
  exists it, ts, mx, mn. cbv zeta.
  split; [eauto|]. split; [done|]. split; [done|]. split; [done|].
  unfold FD.getitem. rewrite Hdate. res_step. rewrite Hname. res_step.
  rewrite (lookup_key_Some _ _ _ Hvar). res_step. rewrite Hraw, Hsub. res_step.
  unfold FDC_.set_grid, np.max, np.min. rewrite Hmx, Hmn. res_step.
  rewrite (lookup_key_Some _ _ _ Htvar). res_step.
  rewrite Hit. res_step. rewrite (py_getitem_nat _ _ _ Hlook). res_step.
  rewrite Hts. res_step.
  by destruct (decide (FD.direction self = "forward")).
Qed.

(** What the lookups built on [FD] need of it. *)
Lemma FD_getitem_ok (self : FD.t T) (s : Z) (date : string)
    (idate : nat) (raw : ndarray T) (na np nt nz ny nx : nat) :
  FD_ready self s date idate raw na np nt nz ny nx ->
  exists (fdc : FDC T) (g : ndarray T),
    FD.getitem self (s, date) = Ok fdc /\ _grid fdc = Some g /\
    shape g = [nx; ny; nz; np; na] /\
    forall x y z p a,
      item g [x; y; z; p; a] = item raw [a; p; idate; z; y; x].
Proof.
  intros Hready.
  destruct (FD_getitem_run _ _ _ _ _ _ _ _ _ _ _ Hready)
    as (it & ts & mx & mn & _ & _ & _ & _ & Hrun).
  eexists _, _. split; [exact Hrun|]. by repeat split.
Qed.
End FDSpec.


Section CForward.
Context {T : Type} `{ST : Scalar T} `{DF : DateFormat}.

Lemma get_slabs_ok (Hnn G : ndarray T) (nx ny nz : nat) (rest : list nat) :
  shape G = nx :: ny :: nz :: rest ->
  heights_cover Hnn nx ny nz rest ->
  exists slabs, get_slabs Hnn G = Ok slabs.
Proof.
  intros HG (hx & hy & hz & hrest & bs & HH & Hle & Hbs).
  destruct (get_slabs_with_run true Hnn G nx ny nz hx hy hz rest hrest bs)
    as (slabs & Hrun & _); eauto.
Qed.

(** In a forward run, for a key FD can serve and a height field that
    broadcasts against the levels of the FD grid (as the one without an
    orography does), the lookup [C[s, k]] returns what
    [FD[s, grid_dates[k]]] returns, with the slabs attached: the grid,
    and the shape and extremes recorded with it, are those of the [FD]
    result. *)
Theorem C_getitem_forward (self : C.t T) (s k : Z) (date : string)
    (idate : nat) (raw : ndarray T) (na np nt nz ny nx : nat) :
  C_forward_ready self s k date idate raw na np nt nz ny nx ->
  exists (c f : FDC T) (slabs : gmap nat (ndarray T)),
    C.getitem self (PTuple [PInt s; PInt k]) = Ok c /\
    py_getitem (FD.grid_dates (C._FD self)) k = Ok date /\
    FD.getitem (C._FD self) (s, date) = Ok f /\
    c = FDC_.set_slabs f slabs /\
    _grid c = _grid f /\
    _shape c = _shape f /\ _max c = _max f /\ _min c = _min f.
Proof.
  intros [Hdir Hdate Hfd Hcover].
  destruct (FD_getitem_ok _ _ _ _ _ _ _ _ _ _ _ Hfd)
    as (f & g & Hf & Hg & Hsh & _).
  destruct (get_slabs_ok (C.Heightnn self) g nx ny nz [np; na] Hsh Hcover)
    as [slabs Hslabs].
  exists (FDC_.set_slabs f slabs), f, slabs.
  split; [|by repeat split].
  unfold C.getitem.
  destruct (decide (C.direction self = "backward")) as [Hb|_];
    [by rewrite Hdir in Hb|].
  rewrite Hdate. res_step. rewrite Hf. res_step.
  unfold FDC_.grid. rewrite Hg. res_step. by rewrite Hslabs.
Qed.
End CForward.

Section Broadcast.
Context {T : Type} `{ST : Scalar T}.

Lemma broadcast_rev_refl (r : list nat) : np.broadcast_rev r r = Ok r.
Proof.
  induction r as [|n r IH]; [done|]. simpl.
  destruct (decide (n = n)); [|done]. res_step. by rewrite IH.
Qed.

Lemma broadcast_shapes_refl (sh : list nat) : np.broadcast_shapes sh sh = Ok sh.
Proof.
  unfold np.broadcast_shapes. rewrite broadcast_rev_refl. res_step.
  by rewrite rev_involutive.
Qed.

(** Against an operand of the full shape, an in-bounds index is read
    as it is. *)
Lemma bindex_in_bounds (sh idx : list nat) :
  np.in_bounds sh idx -> np.bindex sh idx = idx.
Proof.
  intros Hb. unfold np.bindex.
  rewrite (Forall2_length _ _ _ Hb), Nat.sub_diag, drop_0.
  induction Hb as [|i n idx sh Hi _ IH]; [done|]. simpl.
  rewrite IH. destruct (decide (n = 1%nat)); [|done]. f_equal. lia.
Qed.

Lemma iadd_same_shape (a b : ndarray T) :
  shape b = shape a ->
  np.iadd a b
  = Ok (NDArray (shape a)
          (fun idx => s_add (item a idx) (item b (np.bindex (shape b) idx)))).
Proof.
  intros Hsh. unfold np.iadd. rewrite Hsh, broadcast_shapes_refl. res_step.
  by destruct (decide (shape a = shape a)).
Qed.
End Broadcast.


Section CBackward.
Context {T : Type} `{ST : Scalar T} `{DF : DateFormat}.
Variables (self : C.t T) (raw : ndarray T) (na np nt nz ny nx : nat).
Variables (k : Z) (kn : nat).
Hypothesis Hraw : shape raw = [na; np; nt; nz; ny; nx].
Hypothesis Hk : norm_index np k = Ok kn.
Hypothesis Hpos : (0 < nx /\ 0 < ny /\ 0 < nz)%nat.

Lemma accumulate_step (date : string) (idate : nat) (c : FDC T) (g : ndarray T) :
  py_index date (C.available_dates self) = Ok idate -> (idate < nt)%nat ->
  _grid c = Some g -> shape g = [nx; ny; nz] ->
  exists c' g',
    C.accumulate self (np.transpose raw) k date c = Ok c' /\
    _grid c' = Some g' /\ shape g' = [nx; ny; nz] /\
    forall x y z, (x < nx)%nat -> (y < ny)%nat -> (z < nz)%nat ->
      item g' [x; y; z]
      = s_add (item g [x; y; z])
              (date_term raw (C.available_dates self) na kn x y z date).
Proof.
  intros Hidx Hlt Hg Hsh.
  pose (sub := NDArray [nx; ny; nz; na]
           (fun idx => item (np.transpose raw)
              (np.sel_index [None; None; None; Some idate; Some kn; None] idx))).
  assert (Hsub : np.getitem (np.transpose raw)
            [Full; Full; Full; At (Z.of_nat idate); At k; Full] = Ok sub).
  { unfold np.getitem. simpl. rewrite Hraw. simpl.
    rewrite norm_index_nat by done. res_step. rewrite Hk. reflexivity. }
  pose (sm := NDArray [nx; ny; nz]
           (fun idx => np.sum_list
              ((fun j => item sub (np.insert_at 3 j idx)) <$> seq 0 na))).
  assert (Hsum : np.sum sub (-1) = Ok sm).
  { unfold np.sum. simpl shape. change (length [nx; ny; nz; na]) with 4%nat.
    rewrite norm_axis_last. reflexivity. }
  pose (g' := NDArray (shape g)
           (fun idx => s_add (item g idx) (item sm (np.bindex (shape sm) idx)))).
  destruct (set_grid_ok c g') as [c' Hc'].
  { simpl. rewrite Hsh. repeat constructor; lia. }
  exists c', g'.
  destruct (set_grid_inv _ _ _ Hc') as (Hg' & _).
  split; [|split; [done|split; [done|]]].
  - unfold C.accumulate. rewrite Hidx. res_step.
    unfold FDC_.grid. rewrite Hg. res_step. rewrite Hsub. res_step.
    rewrite Hsum. res_step.
    rewrite (iadd_same_shape g sm) by (by rewrite Hsh). res_step. exact Hc'.
  - intros x y z Hx Hy Hz. subst g'. cbn [item].
    rewrite bindex_in_bounds by (repeat constructor; done).
    unfold date_term, first_index. rewrite Hidx. reflexivity.
Qed.

(** Invariant of the accumulation loop over a list of dates. *)
Lemma accumulate_loop (ds : list string) :
  (forall d, d ∈ ds -> d ∈ C.available_dates self) ->
  (length (C.available_dates self) <= nt)%nat ->
  forall (c : FDC T) (g : ndarray T),
  _grid c = Some g -> shape g = [nx; ny; nz] ->
  exists c' g',
    for_each (C.accumulate self (np.transpose raw) k) ds c = Ok c' /\
    _grid c' = Some g' /\ shape g' = [nx; ny; nz] /\
    forall x y z, (x < nx)%nat -> (y < ny)%nat -> (z < nz)%nat ->
      item g' [x; y; z]
      = foldl (fun acc date =>
                 s_add acc (date_term raw (C.available_dates self) na kn x y z date))
              (item g [x; y; z]) ds.
Proof.
  intros Hin Hlen. induction ds as [|d ds IH]; intros c g Hg Hsh.
  - exists c, g. by repeat split.
  - destruct (py_index_elem d (C.available_dates self)) as [idate Hidx].
    { apply Hin, elem_of_cons. by left. }
    assert (Hlt : (idate < nt)%nat).
    { apply py_index_lookup in Hidx as [Hl%lookup_lt_Some _]. lia. }
    destruct (accumulate_step d idate c g Hidx Hlt Hg Hsh)
      as (c1 & g1 & Hstep & Hg1 & Hsh1 & Hval1).
    destruct IH with (c := c1) (g := g1) as (c' & g' & Hrun & Hg' & Hsh' & Hval);
      [|done..|].
    { intros d' Hd'. apply Hin, elem_of_cons. by right. }
    exists c', g'. simpl. rewrite Hstep. res_step.
    repeat split; [done..|].
    intros x y z Hx Hy Hz. rewrite Hval, Hval1 by done. reflexivity.
Qed.
End CBackward.

Section CBackwardSpec.
Context {T : Type} `{ST : Scalar T} `{DF : DateFormat}.

(** The backward branch with the accumulation loop: it returns a
    container whose grid has the shape of the zero accumulator and
    holds, cell by cell, the contributions of the available dates
    added up from zero in the order of the dates. *)
Lemma backward_loop_spec (self : C.t T) (s k : Z) (kn : nat)
    (raw : ndarray T) (na np nt nz ny nx : nat) :
  C_backward_ready self s k kn raw na np nt nz ny nx ->
  exists (c : FDC T) (g : ndarray T),
    C.backward self s k = Ok c /\
    _grid c = Some g /\ shape g = [nx; ny; nz] /\
    forall x y z, (x < nx)%nat -> (y < ny)%nat -> (z < nz)%nat ->
      item g [x; y; z]
      = foldl (fun acc date =>
                 s_add acc (date_term raw (C.available_dates self) na kn x y z date))
              s_zero (C.available_dates self).
Proof.
  intros [Hdir [ts Hts] [sp Hsp] (varname & Hname & Hsv) Hk Hlen Hcover].
  destruct Hsv as [(var & Hvar & Hraw) Hsh Hlon Hlat Hhei
                     (Hna & Hnp & Hnz & Hny & Hnx)].
  set (c0 := FDC_.set_spec_i
               (FDC_.set_rel_i
                  (FDC_.set_gridfile
                     (FDC_.set_species
                        (FDC_.set_timestamp (FDC_.set_itime (@FDC_.init T) None)
                           (PDatetime ts)) (PStr sp)) (PStr "multiple"))
                  (PInt k)) (PInt s)).
  destruct (set_grid_ok c0 (np.zeros [nx; ny; nz])) as [c1 Hc1].
  { simpl. repeat constructor; lia. }
  destruct (set_grid_inv _ _ _ Hc1) as (Hg1 & _).
  destruct (accumulate_loop self raw na np nt nz ny nx k kn Hsh Hk
              (conj Hnx (conj Hny Hnz)) (C.available_dates self)
              (fun d Hd => Hd) Hlen c1 (np.zeros [nx; ny; nz]) Hg1 eq_refl)
    as (c' & g' & Hrun & Hg' & Hsh' & Hval).
  exists c', g'. split; [|by repeat split].
  unfold C.backward, C.backward_with. rewrite Hts. res_step.
  rewrite Hsp. res_step. rewrite Hname. res_step.
  rewrite (lookup_key_Some _ _ _ Hvar). res_step. rewrite Hraw.
  unfold C.backward_grid, dim_len.
  rewrite (lookup_key_Some _ _ _ Hlon), (lookup_key_Some _ _ _ Hlat),
    (lookup_key_Some _ _ _ Hhei). res_step.
  fold c0. rewrite Hc1. res_step. exact Hrun.
Qed.

(** C1: in a backward run the lookup [C[s, k]] returns a grid of shape
    (numxgrid, numygrid, numzgrid) whose cell [(x, y, z)] is the sum,
    started at zero and taken over the available dates in their order,
    of the raw values at that date's index and at release point [k]
    summed over the age-class axis. *)
Theorem C_getitem_backward (self : C.t T) (s k : Z) (kn : nat)
    (raw : ndarray T) (na np nt nz ny nx : nat) :
  C_backward_ready self s k kn raw na np nt nz ny nx ->
  exists (c : FDC T) (g : ndarray T),
    C.getitem self (PTuple [PInt s; PInt k]) = Ok c /\
    _grid c = Some g /\
    dim_len (C.nc self) "longitude" = Ok nx /\
    dim_len (C.nc self) "latitude" = Ok ny /\
    dim_len (C.nc self) "height" = Ok nz /\
    shape g = [nx; ny; nz] /\
    forall x y z, (x < nx)%nat -> (y < ny)%nat -> (z < nz)%nat ->
      item g [x; y; z]
      = foldl (fun acc date =>
                 s_add acc
                   (np.sum_list
                      ((fun a => item raw
                          [a; kn; first_index date (C.available_dates self); z; y; x])
                         <$> seq 0 na)))
              s_zero (C.available_dates self).
Proof.
  intros Hready.
  destruct (backward_loop_spec _ _ _ _ _ _ _ _ _ _ _ Hready)
    as (c & g & Hrun & Hg & Hsh & Hval).
  destruct Hready as [Hdir _ _ (varname & _ & Hsv) _ _ Hcover].
  destruct Hsv as [_ _ Hlon Hlat Hhei _].
  destruct (get_slabs_ok (C.Heightnn self) g nx ny nz [] Hsh Hcover)
    as [slabs Hslabs].
  exists (FDC_.set_slabs c slabs), g.
  unfold dim_len. rewrite (lookup_key_Some _ _ _ Hlon),
    (lookup_key_Some _ _ _ Hlat), (lookup_key_Some _ _ _ Hhei).
  split; [|by repeat split].
  unfold C.getitem.
  destruct (decide (C.direction self = "backward")) as [_|Hn]; [|done].
  rewrite Hrun. res_step. unfold FDC_.grid. rewrite Hg. res_step.
  by rewrite Hslabs.
Qed.
End CBackwardSpec.

(** ** Sums in exact arithmetic *)

Section ExactSums.
Context {T : Type} `{EA : ExactAdd T}.

Lemma s_add_0_r (x : T) : s_add x s_zero = x.
Proof. by rewrite s_add_comm, s_add_0_l. Qed.

Lemma foldl_add_start (x : T) (l : list T) :
  foldl s_add x l = s_add x (np.sum_list l).
Proof.
  unfold np.sum_list. revert x. induction l as [|y l IH]; intros x; simpl.
  - by rewrite s_add_0_r.
  - rewrite (IH (s_add x y)), (IH (s_add s_zero y)), s_add_0_l.
    by rewrite s_add_assoc.
Qed.

Lemma sum_list_cons (x : T) (l : list T) :
  np.sum_list (x :: l) = s_add x (np.sum_list l).
Proof.
  unfold np.sum_list at 1. simpl. by rewrite s_add_0_l, foldl_add_start.
Qed.

Lemma sum_list_add {A : Type} (f g : A -> T) (l : list A) :
  np.sum_list ((fun i => s_add (f i) (g i)) <$> l)
  = s_add (np.sum_list (f <$> l)) (np.sum_list (g <$> l)).
Proof.
  induction l as [|i l IH].
  - unfold np.sum_list. simpl. by rewrite s_add_0_l.
  - rewrite !fmap_cons, !sum_list_cons, IH.
    rewrite <- !s_add_assoc. f_equal.
    rewrite !s_add_assoc. f_equal. apply s_add_comm.
Qed.

Lemma sum_list_zero {A : Type} (l : list A) :
  np.sum_list ((fun _ => s_zero) <$> l) = (s_zero : T).
Proof.
  induction l as [|i l IH]; [done|].
  by rewrite fmap_cons, sum_list_cons, IH, s_add_0_l.
Qed.

(** The two orders of a double sum agree. *)
Lemma sum_list_exchange {A B : Type} (v : A -> B -> T) (xs : list A) (ys : list B) :
  np.sum_list ((fun x => np.sum_list ((fun y => v x y) <$> ys)) <$> xs)
  = np.sum_list ((fun y => np.sum_list ((fun x => v x y) <$> xs)) <$> ys).
Proof.
  induction xs as [|x xs IH].
  - simpl. by rewrite sum_list_zero.
  - rewrite fmap_cons, sum_list_cons, IH.
    rewrite <- (sum_list_add (fun y => v x y)
                  (fun y => np.sum_list ((fun x' => v x' y) <$> xs))).
    f_equal. apply list_fmap_ext. intros _ y _.
    by rewrite fmap_cons, sum_list_cons.
Qed.
End ExactSums.

(** ** The loop against the single reduction *)

Lemma first_index_positions {A : Type} `{EqDecision A} (l : list A) :
  NoDup l -> (fun x => first_index x l) <$> l = seq 0 (length l).
Proof.
  intros Hnd. apply (list_eq_same_length _ _ (length l)).
  - apply length_seq.
  - apply length_fmap.
  - intros i j j' Hi Hj Hj'.
    apply lookup_seq in Hj' as [-> _].
    apply list_lookup_fmap_Some in Hj as (x & -> & Hx).
    unfold first_index. by rewrite (py_index_NoDup l i x Hnd Hx).
Qed.

Section LoopVsReduction.
Context {T : Type} `{EA : ExactAdd T} `{DF : DateFormat}.

(** The dead branch of the source, run on a key the live branch can
    serve: the grid is the sum over the age-class axis of the sums
    over the time axis. *)
Lemma backward_vectorized_spec (self : C.t T) (s k : Z) (kn : nat)
    (raw : ndarray T) (na np nt nz ny nx : nat) :
  C_backward_ready self s k kn raw na np nt nz ny nx ->
  exists (c : FDC T) (g : ndarray T),
    C.backward_with false self s k = Ok c /\
    _grid c = Some g /\ shape g = [nx; ny; nz] /\
    forall x y z,
      item g [x; y; z]
      = np.sum_list
          ((fun a => np.sum_list
                       ((fun t => item raw [a; kn; t; z; y; x]) <$> seq 0 nt))
             <$> seq 0 na).
Proof.
  intros [Hdir [ts Hts] [sp Hsp] (varname & Hname & Hsv) Hk Hlen Hcover].
  destruct Hsv as [(var & Hvar & Hraw) Hsh Hlon Hlat Hhei
                     (Hna & Hnp & Hnz & Hny & Hnx)].
  pose (sub := NDArray [nx; ny; nz; nt; na]
           (fun idx => item (np.transpose raw)
              (np.sel_index [None; None; None; None; Some kn; None] idx))).
  assert (Hsub : np.getitem (np.transpose raw)
            [Full; Full; Full; Full; At k; Full] = Ok sub).
  { unfold np.getitem. simpl. rewrite Hsh. simpl. rewrite Hk. reflexivity. }
  pose (s1 := NDArray [nx; ny; nz; na]
           (fun idx => np.sum_list
              ((fun j => item sub (np.insert_at 3 j idx)) <$> seq 0 nt))).
  assert (Hs1 : np.sum sub (-2) = Ok s1) by reflexivity.
  pose (s2 := NDArray [nx; ny; nz]
           (fun idx => np.sum_list
              ((fun j => item s1 (np.insert_at 3 j idx)) <$> seq 0 na))).
  assert (Hs2 : np.sum s1 (-1) = Ok s2) by reflexivity.
  set (c0 := FDC_.set_spec_i
               (FDC_.set_rel_i
                  (FDC_.set_gridfile
                     (FDC_.set_species
                        (FDC_.set_timestamp (FDC_.set_itime (@FDC_.init T) None)
                           (PDatetime ts)) (PStr sp)) (PStr "multiple"))
                  (PInt k)) (PInt s)).
  destruct (set_grid_ok c0 s2) as [c1 Hc1].
  { simpl. repeat constructor; lia. }
  destruct (set_grid_inv _ _ _ Hc1) as (Hg1 & _).
  exists c1, s2. split; [|by repeat split].
  unfold C.backward_with. rewrite Hts. res_step.
  rewrite Hsp. res_step. rewrite Hname. res_step.
  rewrite (lookup_key_Some _ _ _ Hvar). res_step. rewrite Hraw.
  unfold C.vectorized_grid. rewrite Hsub. res_step.
  unfold np.sum_last2. rewrite Hs1. res_step. rewrite Hs2. res_step.
  exact Hc1.
Qed.

(** In exact arithmetic (addition associative and commutative with
    zero neutral, as for integer data; the rounding of floating-point
    sums is not covered), on a key the backward branch can serve, with
    one available date for every index of the time axis and no date
    listed twice: the accumulation loop and the reduction
    [specvar[:, :, :, :, pointspec, :].sum(axis=(-2, -1))] of the dead
    branch both return a grid of the shape of the domain, cell
    [(x, y, z)] of either is the sum over the age classes of the sums
    over the time axis of [raw[a, kn, t, z, y, x]], and the two grids
    are the same array. *)
Theorem backward_loop_equals_reduction (self : C.t T) (s k : Z) (kn : nat)
    (raw : ndarray T) (na np nt nz ny nx : nat) :
  C_backward_ready self s k kn raw na np nt nz ny nx ->
  NoDup (C.available_dates self) ->
  length (C.available_dates self) = nt ->
  exists (c1 c2 : FDC T) (g1 g2 : ndarray T),
    C.backward_with true self s k = Ok c1 /\
    C.backward_with false self s k = Ok c2 /\
    _grid c1 = Some g1 /\ _grid c2 = Some g2 /\
    shape g1 = [nx; ny; nz] /\ shape g2 = [nx; ny; nz] /\
    (forall x y z, (x < nx)%nat -> (y < ny)%nat -> (z < nz)%nat ->
       let reduction :=
         np.sum_list
           ((fun a => np.sum_list
                        ((fun t => item raw [a; kn; t; z; y; x]) <$> seq 0 nt))
              <$> seq 0 na) in
       item g1 [x; y; z] = reduction /\ item g2 [x; y; z] = reduction) /\
    np.array_eq g1 g2.
Proof.
  intros Hready Hnd Hlen.
  destruct (backward_loop_spec _ _ _ _ _ _ _ _ _ _ _ Hready)
    as (c1 & g1 & Hrun1 & Hg1 & Hsh1 & Hval1).
  destruct (backward_vectorized_spec _ _ _ _ _ _ _ _ _ _ _ Hready)
    as (c2 & g2 & Hrun2 & Hg2 & Hsh2 & Hval2).
  assert (Hcell : forall x y z, (x < nx)%nat -> (y < ny)%nat -> (z < nz)%nat ->
            item g1 [x; y; z] = item g2 [x; y; z]); last first.
  { exists c1, c2, g1, g2. split_and!; try done.
    - intros x y z Hx Hy Hz. cbv zeta. split; [|by apply Hval2].
      rewrite Hcell by done. by apply Hval2.
    - split; [congruence|].
      intros idx Hb. rewrite Hsh1 in Hb. unfold np.in_bounds in Hb.
      apply Forall2_cons_inv_r in Hb as (x & idx1 & Hx & Hb & ->).
      apply Forall2_cons_inv_r in Hb as (y & idx2 & Hy & Hb & ->).
      apply Forall2_cons_inv_r in Hb as (z & idx3 & Hz & Hb & ->).
      apply Forall2_nil_inv_r in Hb as ->.
      by apply Hcell. }
  intros x y z Hx Hy Hz.
  rewrite Hval1, Hval2 by done.
  unfold date_term.
  rewrite <- (foldl_fmap s_add s_zero (C.available_dates self)
                (fun date => np.sum_list
                   ((fun a => item raw
                       [a; kn; first_index date (C.available_dates self); z; y; x])
                      <$> seq 0 na))).
  change (foldl s_add s_zero ?l) with (np.sum_list l).
  transitivity
    (np.sum_list
       ((fun t => np.sum_list
                    ((fun a => item raw [a; kn; t; z; y; x]) <$> seq 0 na))
          <$> ((fun d => first_index d (C.available_dates self))
                 <$> C.available_dates self))).
  { by rewrite <- list_fmap_compose. }
  rewrite first_index_positions, Hlen by done.
  apply (sum_list_exchange (fun t a => item raw [a; kn; t; z; y; x])).
Qed.
End LoopVsReduction.

(** ** Ranges and comprehensions *)

Lemma div_block (n m : Z) : 0 < m -> 0 < n -> (n * m - 1) / m + 1 = n.
Proof.
  intros Hm Hn.
  assert ((n * m - 1) / m = n - 1) as ->; [|lia].
  symmetry. apply (Z.div_unique _ _ _ (m - 1)); lia.
Qed.

(** Going down from [l * (n - 1)] to 0 in steps of [l]: [n] values. *)
Lemma range_len_backward (l : Z) (n : nat) :
  l <> 0 -> range_len (l * (Z.of_nat n - 1)) (- l) (- l) = Z.of_nat n.
Proof.
  intros Hl. unfold range_len.
  destruct n as [|n]; repeat case_decide; try lia.
  - replace (- l - l * (Z.of_nat (S n) - 1) - 1) with (Z.of_nat (S n) * (- l) - 1) by lia.
    apply div_block; lia.
  - replace (l * (Z.of_nat (S n) - 1) - - l - 1) with (Z.of_nat (S n) * l - 1) by lia.
    rewrite Z.opp_involutive. apply div_block; lia.
Qed.

(** Going up from 0 in steps of [l] below [l * n]: [n] values. *)
Lemma range_len_forward (l : Z) (n : nat) :
  l <> 0 -> range_len 0 (l * Z.of_nat n) l = Z.of_nat n.
Proof.
  intros Hl. unfold range_len.
  destruct n as [|n]; repeat case_decide; try lia.
  - replace (l * Z.of_nat (S n) - 0 - 1) with (Z.of_nat (S n) * l - 1) by lia.
    apply div_block; lia.
  - replace (0 - l * Z.of_nat (S n) - 1) with (Z.of_nat (S n) * (- l) - 1) by lia.
    apply div_block; lia.
Qed.

Lemma comprehension_ok {A B : Type} (f : A -> res B) (g : A -> B) (xs : list A) :
  (forall x, x ∈ xs -> f x = Ok (g x)) -> comprehension f xs = Ok (g <$> xs).
Proof.
  induction xs as [|x xs IH]; intros Hf; [done|]. simpl.
  rewrite Hf by (apply elem_of_cons; by left). res_step.
  rewrite IH; [done|]. intros y Hy. apply Hf, elem_of_cons. by right.
Qed.


(** ** Available dates *)

Section Dates.
Context {T : Type} `{DF : DateFormat}.

Lemma shifted_ok (d : datetime) (t : Z) :
  0 <= d <= datetime_max -> 0 <= d + 1000000 * t <= datetime_max ->
  Header.shifted d t = Ok (strftime (d + 1000000 * t)).
Proof.
  unfold datetime_max. intros Hd Ht. unfold Header.shifted, timedelta.
  case_decide; [|lia]. res_step. unfold datetime_add, datetime_max.
  case_decide; [|lia]. res_step. do 2 f_equal. lia.
Qed.

(** C5, as the code has it: with a non-zero [loutstep] the list has one
    entry for each index of the time dimension; entry [i] is the anchor
    date shifted by [offset] seconds, which in a backward run starts at
    the end date plus [(n - 1) * loutstep] seconds, moves by
    [- loutstep] seconds per entry and ends at the end date itself, and
    in a forward run starts at the start date and moves by [loutstep]
    seconds per entry.  The entries of a backward run increase exactly
    when [loutstep] is negative, those of a forward run exactly when it
    is positive. *)
Theorem available_dates_spec (nc : Dataset T) (n : nat) (d : datetime) :
  dimensions nc !! "time" = Some n ->
  loutstep nc <> 0 ->
  strptime (anchor nc) = Ok d ->
  (forall i : nat, (i < n)%nat ->
     0 <= d + 1000000 * (Z.of_nat i * loutstep nc) <= datetime_max) ->
  exists ds : list datetime,
    Header.available_dates nc = Ok (strftime <$> ds) /\
    length (strftime <$> ds) = n /\
    (forall i : nat, (i < n)%nat ->
       ds !! i = Some (d + 1000000 * offset nc n i)) /\
    (ldirect nc < 0 ->
       ds !! 0%nat = (if decide (n = 0%nat) then None
                      else Some (d + 1000000 * (loutstep nc * (Z.of_nat n - 1)))) /\
       last ds = (if decide (n = 0%nat) then None else Some d)) /\
    (0 <= ldirect nc ->
       ds !! 0%nat = (if decide (n = 0%nat) then None else Some d)) /\
    (forall (i : nat) (x y : datetime),
       ds !! i = Some x -> ds !! S i = Some y ->
       y - x = 1000000 * (if decide (ldirect nc < 0)
                          then - loutstep nc else loutstep nc)) /\
    (forall (i j : nat) (x y : datetime),
       ds !! i = Some x -> ds !! j = Some y -> (i < j)%nat ->
       x < y <-> if decide (ldirect nc < 0) then loutstep nc < 0
                 else 0 < loutstep nc).
Proof.
  intros Hn Hl Hd Hrange.
  set (ds := (fun i : nat => d + 1000000 * offset nc n i) <$> seq 0 n).
  assert (Hds : forall i x, ds !! i = Some x <->
                  x = d + 1000000 * offset nc n i /\ (i < n)%nat).
  { intros i x. unfold ds. rewrite list_lookup_fmap_Some. split.
    - intros (j & -> & [-> ?]%lookup_seq). done.
    - intros [-> Hi]. exists i. split; [done|]. by apply lookup_seq. }
  assert (Hlen : length ds = n).
  { unfold ds. by rewrite length_fmap, length_seq. }
  assert (Hrun : Header.available_dates nc = Ok (strftime <$> ds)); [|clearbody ds;
    exists ds; split; [done|split; [|split; [|split; [|split; [|split]]]]]].
  - unfold Header.available_dates, dim_len, anchor, offset in *.
    rewrite (lookup_key_Some _ _ _ Hn). res_step.
    destruct (decide (ldirect nc < 0)) as [Hb|Hf]; rewrite Hd; res_step.
    + unfold py_range. destruct (decide (- loutstep nc = 0)); [lia|].
      rewrite range_len_backward, Nat2Z.id by done. res_step.
      rewrite (comprehension_ok _ (fun t => strftime (d + 1000000 * t))).
      * unfold ds. rewrite <- !list_fmap_compose. apply (f_equal Ok).
        apply list_fmap_ext. intros _ i _. simpl. f_equal; lia.
      * intros t (i & -> & Hi%elem_of_seq)%list_elem_of_fmap.
        assert (Hi' : (n - 1 - i < n)%nat) by lia.
        pose proof (Hrange _ Hi') as Hr. pose proof (Hrange 0%nat ltac:(lia)) as H0.
        apply shifted_ok; [lia|].
        assert (Hz : Z.of_nat (n - 1 - i) = Z.of_nat n - 1 - Z.of_nat i) by lia.
        rewrite Hz in Hr.
        replace (loutstep nc * (Z.of_nat n - 1) + Z.of_nat i * - loutstep nc)
          with ((Z.of_nat n - 1 - Z.of_nat i) * loutstep nc) by lia.
        done.
    + unfold py_range. destruct (decide (loutstep nc = 0)); [lia|].
      rewrite range_len_forward, Nat2Z.id by done. res_step.
      rewrite (comprehension_ok _ (fun t => strftime (d + 1000000 * t))).
      * unfold ds. rewrite <- !list_fmap_compose. apply (f_equal Ok).
        apply list_fmap_ext. intros _ i _. simpl. f_equal; lia.
      * intros t (i & -> & Hi%elem_of_seq)%list_elem_of_fmap.
        pose proof (Hrange i ltac:(lia)) as Hr.
        pose proof (Hrange 0%nat ltac:(lia)) as H0.
        apply shifted_ok; [lia|].
        by replace (0 + Z.of_nat i * loutstep nc) with (Z.of_nat i * loutstep nc) by lia.
  - by rewrite length_fmap.
  - intros i Hi. by apply Hds.
  - intros Hb. destruct (decide (n = 0%nat)) as [->|Hne];
      [by apply nil_length_inv in Hlen as ->|]. split.
    + apply Hds. split; [|lia]. unfold offset.
      destruct (decide (ldirect nc < 0)); [|done]. f_equal. lia.
    + unfold datetime in *. rewrite last_lookup, Hlen. apply Hds.
      split; [|lia]. unfold offset.
      destruct (decide (ldirect nc < 0)); [|done].
      assert (Z.of_nat (Init.Nat.pred n) = Z.of_nat n - 1) as -> by lia. lia.
  - intros Hf. destruct (decide (n = 0%nat)) as [->|Hne];
      [by apply nil_length_inv in Hlen as ->|].
    apply Hds. split; [|lia]. unfold offset.
    destruct (decide (ldirect nc < 0)); lia.
  - intros i x y [-> Hi]%Hds [-> Hj]%Hds. unfold offset.
    destruct (decide (ldirect nc < 0)); lia.
  - intros i j x y [-> Hi]%Hds [-> Hj]%Hds Hij. unfold offset.
    destruct (decide (ldirect nc < 0)); nia.
Qed.
(** The run of [available_dates] written out. *)
Lemma available_dates_run (nc : Dataset T) (n : nat) (d : datetime) :
  dimensions nc !! "time" = Some n ->
  loutstep nc <> 0 ->
  strptime (anchor nc) = Ok d ->
  (forall i : nat, (i < n)%nat ->
     0 <= d + 1000000 * (Z.of_nat i * loutstep nc) <= datetime_max) ->
  Header.available_dates nc
  = Ok ((fun i : nat => strftime (d + 1000000 * offset nc n i)) <$> seq 0 n).
Proof.
  intros Hn Hl Hd Hrange.
  unfold Header.available_dates, dim_len, anchor, offset in *.
  rewrite (lookup_key_Some _ _ _ Hn). res_step.
  destruct (decide (ldirect nc < 0)) as [Hb|Hf]; rewrite Hd; res_step;
    unfold py_range.
  - destruct (decide (- loutstep nc = 0)); [lia|].
    rewrite range_len_backward, Nat2Z.id by done. res_step.
    rewrite (comprehension_ok _ (fun t => strftime (d + 1000000 * t))).
    + rewrite <- list_fmap_compose. apply (f_equal Ok).
      apply list_fmap_ext. intros _ i _. simpl. do 2 f_equal. lia.
    + intros t (i & -> & Hi%elem_of_seq)%list_elem_of_fmap.
      pose proof (Hrange (n - 1 - i)%nat ltac:(lia)) as Hr.
      pose proof (Hrange 0%nat ltac:(lia)) as H0.
      assert (Hz : Z.of_nat (n - 1 - i) = Z.of_nat n - 1 - Z.of_nat i) by lia.
      rewrite Hz in Hr. apply shifted_ok; [lia|].
      replace (loutstep nc * (Z.of_nat n - 1) + Z.of_nat i * - loutstep nc)
        with ((Z.of_nat n - 1 - Z.of_nat i) * loutstep nc) by lia.
      done.
  - destruct (decide (loutstep nc = 0)); [lia|].
    rewrite range_len_forward, Nat2Z.id by done. res_step.
    rewrite (comprehension_ok _ (fun t => strftime (d + 1000000 * t))).
    + rewrite <- list_fmap_compose. apply (f_equal Ok).
      apply list_fmap_ext. intros _ i _. simpl. f_equal; lia.
    + intros t (i & -> & Hi%elem_of_seq)%list_elem_of_fmap.
      pose proof (Hrange i ltac:(lia)) as Hr.
      pose proof (Hrange 0%nat ltac:(lia)) as H0.
      apply shifted_ok; [lia|].
      by replace (0 + Z.of_nat i * loutstep nc) with (Z.of_nat i * loutstep nc) by lia.
Qed.
End Dates.

(** ** Longitudes and latitudes *)

Section Coordinates.

(** C6: the length of the longitude array is the binary64 value of
    [ceil((stop - start) / step)], which rounding can push past the
    number of grid columns.  On the grid that starts at 180 degrees
    west with a spacing of a tenth of a degree and three longitudes the
    quotient is just above three, and the array has four elements, all
    of them before the end point; on the half-degree grid, whose spacing
    is a binary fraction, the arrays have [numxgrid] and [numygrid]
    elements. *)
Theorem longitude_count_exceeds_numxgrid :
  Header.numxgrid Demo.nc_tenth = Ok 3%nat /\
  (exists lons : list float64,
     Header.longitude Demo.nc_tenth = Ok lons /\ length lons = 4%nat /\
     Forall (fun x => PrimFloat.ltb x
                        (PrimFloat.add (outlon0 Demo.nc_tenth)
                           (PrimFloat.mul (dxout Demo.nc_tenth) (float_of_Z 3)))
                      = true) lons) /\
  (exists lons lats : list float64,
     Header.longitude (Demo.nc 1 3600 1) = Ok lons /\ length lons = 2%nat /\
     Header.latitude (Demo.nc 1 3600 1) = Ok lats /\ length lats = 3%nat).
Proof.
  split; [reflexivity|]. split.
  - eexists. split; [vm_compute; reflexivity|]. split; [reflexivity|].
    repeat constructor; vm_compute; reflexivity.
  - eexists _, _. split; [vm_compute; reflexivity|]. split; [reflexivity|].
    split; [vm_compute; reflexivity | reflexivity].
Qed.
End Coordinates.

(** ** Keys of the C accessor *)

Section CKeys.
Context {T : Type} `{ST : Scalar T} `{DF : DateFormat}.

(** The list stored by the constructor is the product of the species
    indices with the release-point indices, and iteration hands it
    out. *)
Lemma C_iter_product (nc : Dataset T) (releasetimes : list datetime)
    (species dates : list string) (direction : string) (iout : Z)
    (Hnn : ndarray T) (fd : FD.t T) (self : C.t T) :
  C.init nc releasetimes species dates direction iout Hnn fd = Ok self ->
  C.iter self = product (seq 0 (C.nspec self)) (seq 0 (C.pointspec self)).
Proof.
  unfold C.init. intros Hinit.
  bind_inv Hinit. bind_inv Hinit. by injection Hinit as <-.
Qed.

(** C7, as the code has it: on an accessor built by the constructor,
    reading the [keys] property calls the stored list and raises
    [TypeError]; the ordered product of the species indices with the
    release-point indices is what [__iter__] and [__dir__] hand out. *)
Theorem C_keys_raises (nc : Dataset T) (releasetimes : list datetime)
    (species dates : list string) (direction : string) (iout : Z)
    (Hnn : ndarray T) (fd : FD.t T) (self : C.t T) (ns np : nat) :
  C.init nc releasetimes species dates direction iout Hnn fd = Ok self ->
  dimensions nc !! "numspec" = Some ns ->
  dimensions nc !! "pointspec" = Some np ->
  C.keys self = Raise TypeError /\
  C.iter self = product (seq 0 ns) (seq 0 np) /\
  C.dir self = product (seq 0 ns) (seq 0 np).
Proof.
  intros Hinit Hns Hnp. split; [reflexivity|].
  assert (Hiter : C.iter self = product (seq 0 ns) (seq 0 np)); [|by split].
  rewrite (C_iter_product _ _ _ _ _ _ _ _ _ Hinit).
  unfold C.init, dim_len in Hinit.
  rewrite (lookup_key_Some _ _ _ Hns), (lookup_key_Some _ _ _ Hnp) in Hinit.
  by injection Hinit as <-.
Qed.

(** C8, as the code has it: a key that is not a pair of plain integers
    makes the lookup fail its assertion, before anything else is
    evaluated. *)
Theorem C_getitem_rejects (self : C.t T) (item : pyval) :
  (forall s k : Z, item <> PTuple [PInt s; PInt k]) ->
  C.getitem self item = Raise AssertionError.
Proof.
  intros Hbad. unfold C.getitem.
  destruct item as [| | | | | |items|]; try reflexivity.
  destruct items as [|a [|b [|c items]]]; try reflexivity.
  destruct a; try reflexivity. destruct b; try reflexivity.
  by destruct (Hbad n n0).
Qed.
End CKeys.

(** ** Output modes without a variable name *)

Section Unhandled.
Context {T : Type} `{ST : Scalar T} `{DF : DateFormat}.

Lemma select_varname_unhandled (iout n : Z) :
  ~ handled iout -> select_varname iout n = Raise UnboundLocalError.
Proof.
  unfold handled, select_varname. intros Hno.
  repeat case_decide; tauto.
Qed.

End Unhandled.

(** ** The slabs of a three-dimensional grid, cell by cell *)

Section SlabCells.
Context {T : Type} `{ST : Scalar T}.

(** For a grid of shape (nx, ny, nz) and heights that are either one
    profile of shape (1, 1, hz) or a field of shape (nx, ny, hz) with
    at least as many levels as the grid, every slab has shape (ny, nx):
    cell [(y, x)] of slab 0 is the sum of the column [(x, y)] over the
    levels, and cell [(y, x)] of slab [i + 1] is cell [(x, y, i)] of the
    grid divided by the height that belongs to it. *)
Lemma get_slabs_cells (Hnn G : ndarray T) (nx ny nz hz : nat) :
  shape G = [nx; ny; nz] ->
  shape Hnn = [1; 1; hz]%nat \/ shape Hnn = [nx; ny; hz] ->
  (nz <= hz)%nat ->
  exists slabs : gmap nat (ndarray T),
    get_slabs Hnn G = Ok slabs /\
    (exists total, slabs !! 0%nat = Some total /\ shape total = [ny; nx] /\
       forall x y, item total [y; x]
                   = np.sum_list ((fun z => item G [x; y; z]) <$> seq 0 nz)) /\
    forall i, (i < nz)%nat ->
      exists a, slabs !! S i = Some a /\ shape a = [ny; nx] /\
        forall x y, (x < nx)%nat -> (y < ny)%nat ->
          item a [y; x] = s_div (item G [x; y; i]) (height_cell Hnn x y i).
Proof.
  intros HG HH Hle.
  assert (Hbs : exists hx hy, shape Hnn = [hx; hy; hz] /\
            np.broadcast_shapes [nx; ny] [hx; hy] = Ok [nx; ny]).
  { destruct HH as [HH|HH]; rewrite HH.
    - exists 1%nat, 1%nat. split; [done|].
      unfold np.broadcast_shapes. simpl. by repeat case_decide.
    - exists nx, ny. split; [done|]. apply broadcast_shapes_refl. }
  destruct Hbs as (hx & hy & HH' & Hbs).
  destruct (get_slabs_with_run true Hnn G nx ny nz hx hy hz [] [] [nx; ny]
              HG HH' Hle Hbs) as (slabs & Hrun & H0 & _ & Hlev).
  exists slabs. split; [exact Hrun|]. split.
  - eexists. split; [exact H0|]. split; reflexivity.
  - intros i Hi. destruct (Hlev i Hi) as (data & Hdata & _ & Hs).
    unfold level in Hdata.
    rewrite (getitem_level G nx ny nz [] i HG Hi) in Hdata.
    rewrite (getitem_level Hnn hx hy hz [] i HH') in Hdata by lia.
    unfold np.divide, np.binop in Hdata. cbn [shape mbind res_bind] in Hdata.
    rewrite Hbs in Hdata. cbn [mbind res_bind] in Hdata.
    injection Hdata as <-.
    eexists. split; [exact Hs|]. split; [reflexivity|].
    intros x y Hx Hy. cbn [np.transpose item shape rev app].
    rewrite bindex_in_bounds by (repeat constructor; done).
    unfold height_cell. rewrite HH'. reflexivity.
Qed.
End SlabCells.

(** ** Distinct dates *)

Section DistinctDates.
Context {T : Type} `{DF : DateFormat}.

(** When printing tells apart the anchor date shifted by different
    numbers of seconds, no date is listed twice; together with the
    length this is what the comparison of the loop with the single
    reduction asks of the available dates. *)
Lemma available_dates_NoDup (nc : Dataset T) (n : nat) (d : datetime) :
  dimensions nc !! "time" = Some n ->
  loutstep nc <> 0 ->
  strptime (anchor nc) = Ok d ->
  (forall i : nat, (i < n)%nat ->
     0 <= d + 1000000 * (Z.of_nat i * loutstep nc) <= datetime_max) ->
  (forall t1 t2 : Z,
     strftime (d + 1000000 * t1) = strftime (d + 1000000 * t2) -> t1 = t2) ->
  exists l : list string,
    Header.available_dates nc = Ok l /\ length l = n /\ NoDup l.
Proof.
  intros Hn Hl Hd Hrange Hinj.
  eexists. split; [by apply (available_dates_run nc n d)|].
  split; [by rewrite length_fmap, length_seq|].
  apply NoDup_fmap_2_strong; [|apply NoDup_seq].
  intros i j _ _ Hij%Hinj. unfold offset in Hij.
  destruct (decide (ldirect nc < 0)); nia.
Qed.
End DistinctDates.

(** ** The model at work on the small dataset *)

Section Runs.
Import RefDate.

Example dates_backward_negative_step :
  Header.available_dates (Demo.nc5 (-1) (-3600))
  = Ok ["20100104200000"; "20100104210000"; "20100104220000";
        "20100104230000"; "20100105000000"].
Proof. vm_compute. reflexivity. Qed.

Example dates_backward_positive_step :
  Header.available_dates (Demo.nc5 (-1) 3600)
  = Ok ["20100105040000"; "20100105030000"; "20100105020000";
        "20100105010000"; "20100105000000"].
Proof. vm_compute. reflexivity. Qed.

Example dates_forward :
  Header.available_dates (Demo.nc5 1 3600)
  = Ok ["20100101000000"; "20100101010000"; "20100101020000";
        "20100101030000"; "20100101040000"].
Proof. vm_compute. reflexivity. Qed.

Example dates_zero_step :
  Header.available_dates (Demo.nc5 (-1) 0) = Raise ValueError.
Proof. vm_compute. reflexivity. Qed.

(** C5, counterexample: with five steps of 3600 s the list of a backward
    run starts four hours after the end date and descends, and with
    steps of -3600 s it starts four hours before the end date; neither
    list is the one the statement describes. *)
Lemma available_dates_backward_counterexample :
  ~ backward_dates_as_claimed (Demo.nc5 (-1) 3600) /\
  ~ backward_dates_as_claimed (Demo.nc5 (-1) (-3600)).
Proof.
  split; intros Hclaim.
  - destruct (Hclaim 63398246400000000 5%nat) as (l & Hl & _ & Hi);
      [done | by vm_compute | by vm_compute |].
    rewrite dates_backward_positive_step in Hl. injection Hl as <-.
    specialize (Hi 0%nat ltac:(lia)). vm_compute in Hi. discriminate.
  - destruct (Hclaim 63398246400000000 5%nat) as (l & Hl & _ & Hi);
      [done | by vm_compute | by vm_compute |].
    rewrite dates_backward_negative_step in Hl. injection Hl as <-.
    specialize (Hi 0%nat ltac:(lia)). vm_compute in Hi. discriminate.
Qed.

(** C8, counterexample: a list in place of the tuple is turned down
    with [AssertionError], which is not [TypeError]. *)
Lemma C_getitem_rejects_counterexample :
  C.getitem (Demo.c 1 3600 1) (PList [PInt 0; PInt 0]) <> Raise TypeError.
Proof. vm_compute. discriminate. Qed.

Example keys_of_demo :
  C.init (Demo.nc 1 3600 1) Demo.times ["TRACER"] (Demo.dates 1 3600)
         "forward" 1 Demo.heights (Demo.fd 1 3600 1)
  = Ok (Demo.c 1 3600 1) /\
  C.iter (Demo.c 1 3600 1) = [(0, 0); (0, 1)]%nat /\
  C.keys (Demo.c 1 3600 1) = Raise TypeError.
Proof. vm_compute. done. Qed.
End Runs.

Section Witnesses.
Import RefDate.

Lemma demo_species_var (ldirect loutstep : Z) :
  species_var (Demo.nc ldirect loutstep 1) "spec001_mr" Demo.raw 2 2 3 2 3 2.
Proof.
  split; try reflexivity.
  - eexists. split; reflexivity.
  - repeat split; lia.
Qed.

Lemma demo_heights_cover :
  heights_cover Demo.heights 2 3 2 [] /\
  heights_cover Demo.heights 2 3 2 [2; 2]%nat.
Proof.
  split; exists 1%nat, 1%nat, 2%nat, []; eexists;
    (split; [reflexivity|split; [lia|reflexivity]]).
Qed.

(** C2 on the small dataset. *)
Lemma get_slabs_spec_witness :
  exists slabs : gmap nat (ndarray Z),
    get_slabs Demo.heights Demo.grid = Ok slabs /\
    dom slabs = set_seq 0 3.
Proof.
  destruct (get_slabs_spec true Demo.heights Demo.grid 2 3 2 1 1 2 [] [] [2; 3]%nat)
    as [Hdef (slabs & total & Hrun & Hdom & _)];
    [reflexivity | reflexivity | lia | reflexivity |].
  exists slabs. rewrite Hdef. split; [exact Hrun | exact Hdom].
Defined.

Lemma demo_FD_ready :
  FD_ready (Demo.fd 1 3600 1) 0 "20100101010000" 1 Demo.raw 2 2 3 2 3 2.
Proof.
  split.
  - reflexivity.
  - eexists. reflexivity.
  - exists "spec001_mr". split; [reflexivity | apply demo_species_var].
  - lia.
  - eexists _, 3%nat, []. split; [reflexivity|]. split; [reflexivity | lia].
Qed.

(** C4 on the small dataset. *)
Lemma FD_getitem_spec_witness :
  exists (fdc : FDC Z) (g : ndarray Z),
    FD.getitem (Demo.fd 1 3600 1) (0, "20100101010000") = Ok fdc /\
    _grid fdc = Some g /\ _shape fdc = Some [2; 3; 2; 2; 2]%nat /\
    item g [1; 2; 0; 1; 0]%nat = 122132.
Proof.
  destruct (FD_getitem_spec _ _ _ _ _ _ _ _ _ _ _ demo_FD_ready)
    as (fdc & g & mx & mn & Hrun & Hg & _ & _ & _ & Hsh & Hval & Hshape & _).
  exists fdc, g. rewrite Hshape, Hsh, Hval.
  repeat split; [exact Hrun | exact Hg].
Defined.

(** The forward delegation on the small dataset, which has no
    orography. *)
Lemma C_getitem_forward_witness :
  exists c f : FDC Z,
    C.getitem (Demo.c 1 3600 1) (PTuple [PInt 0; PInt 1]) = Ok c /\
    FD.getitem (Demo.fd 1 3600 1) (0, "20100101010000") = Ok f /\
    _grid c = _grid f.
Proof.
  destruct (C_getitem_forward (Demo.c 1 3600 1) 0 1 "20100101010000" 1
              Demo.raw 2 2 3 2 3 2)
    as (c & f & slabs & Hc & _ & Hf & _ & Hg & _).
  { split; [reflexivity | reflexivity | apply demo_FD_ready
           | apply demo_heights_cover]. }
  exists c, f. repeat split; [exact Hc | exact Hf | exact Hg].
Defined.

Lemma demo_C_backward_ready :
  C_backward_ready (Demo.c (-1) (-3600) 1) 0 1 1 Demo.raw 2 2 3 2 3 2.
Proof.
  split.
  - reflexivity.
  - eexists. reflexivity.
  - eexists. reflexivity.
  - exists "spec001_mr". split; [reflexivity | apply demo_species_var].
  - reflexivity.
  - vm_compute. lia.
  - apply demo_heights_cover.
Qed.

(** C1 on the small dataset. *)
Lemma C_getitem_backward_witness :
  exists (c : FDC Z) (g : ndarray Z),
    C.getitem (Demo.c (-1) (-3600) 1) (PTuple [PInt 0; PInt 1]) = Ok c /\
    _grid c = Some g /\ shape g = [2; 3; 2]%nat /\
    item g [0; 0; 0]%nat = 1032666.
Proof.
  destruct (C_getitem_backward _ _ _ _ _ _ _ _ _ _ _ demo_C_backward_ready)
    as (c & g & Hrun & Hg & _ & _ & _ & Hsh & Hval).
  exists c, g. rewrite (Hval 0 0 0)%nat by lia.
  repeat split; [exact Hrun | exact Hg | exact Hsh].
Defined.

(** The loop and the reduction on the small dataset, in integers. *)
Lemma backward_loop_equals_reduction_witness :
  exists (c1 c2 : FDC Z) (g1 g2 : ndarray Z),
    C.backward_with true (Demo.c (-1) (-3600) 1) 0 1 = Ok c1 /\
    C.backward_with false (Demo.c (-1) (-3600) 1) 0 1 = Ok c2 /\
    _grid c1 = Some g1 /\ _grid c2 = Some g2 /\ np.array_eq g1 g2 /\
    item g1 [0; 0; 0]%nat = 1032666 /\ item g2 [0; 0; 0]%nat = 1032666.
Proof.
  destruct (backward_loop_equals_reduction (Demo.c (-1) (-3600) 1) 0 1 1
              Demo.raw 2 2 3 2 3 2 demo_C_backward_ready)
    as (c1 & c2 & g1 & g2 & Hc1 & Hc2 & Hg1 & Hg2 & _ & _ & Hval & Heq).
  - refine (bool_decide_unpack _ _). vm_compute. exact I.
  - reflexivity.
  - exists c1, c2, g1, g2.
    destruct (Hval 0 0 0)%nat as [H1 H2]; [lia | lia | lia |].
    rewrite H1, H2.
    split_and!; [exact Hc1 | exact Hc2 | exact Hg1 | exact Hg2 | exact Heq
                | reflexivity | reflexivity].
Defined.

(** C5 on the small dataset. *)
Lemma available_dates_spec_witness :
  exists ds : list datetime,
    Header.available_dates (Demo.nc5 (-1) (-3600)) = Ok (strftime <$> ds) /\
    length (strftime <$> ds) = 5%nat /\
    ds !! 0%nat = Some (63398246400000000 - 1000000 * (4 * 3600)) /\
    last ds = Some 63398246400000000.
Proof.
  destruct (available_dates_spec (Demo.nc5 (-1) (-3600)) 5 63398246400000000)
    as (ds & Hrun & Hlen & _ & Hback & _).
  - reflexivity.
  - discriminate.
  - reflexivity.
  - intros i Hi. unfold datetime_max. simpl loutstep. lia.
  - destruct Hback as [H0 Hlast]; [reflexivity|].
    exists ds. repeat split; [exact Hrun | exact Hlen | exact H0 | exact Hlast].
Defined.

(** C7 on the small dataset. *)
Lemma C_keys_raises_witness :
  C.keys (Demo.c 1 3600 1) = Raise TypeError /\
  C.iter (Demo.c 1 3600 1) = [(0, 0); (0, 1)]%nat.
Proof.
  destruct (C_keys_raises (Demo.nc 1 3600 1) Demo.times ["TRACER"]
              (Demo.dates 1 3600) "forward" 1 Demo.heights (Demo.fd 1 3600 1)
              (Demo.c 1 3600 1) 1 2)
    as (Hkeys & Hiter & _); [reflexivity | reflexivity | reflexivity |].
  split; [exact Hkeys | exact Hiter].
Defined.

(** C8 on the small dataset. *)
Lemma C_getitem_rejects_witness :
  C.getitem (Demo.c 1 3600 1) (PTuple [PInt 0; PBool true])
  = Raise AssertionError.
Proof. apply C_getitem_rejects. intros s k. discriminate. Defined.

End Witnesses.

(** * Further properties of the accessors *)

(** ** Failures and slots of the FD lookup *)

Lemma py_index_not_elem {A : Type} `{EqDecision A} (x : A) (l : list A) :
  x ∉ l -> py_index x l = Raise ValueError.
Proof.
  induction l as [|y l IH]; [done|]. intros Hx.
  apply not_elem_of_cons in Hx as [Hne Hx]. simpl.
  destruct (decide (x = y)); [done|]. by rewrite IH.
Qed.

Lemma indices_zero (sh : list nat) : 0%nat ∈ sh -> np.indices sh = [].
Proof.
  induction sh as [|n sh IH]; [by intros ?%elem_of_nil|].
  intros [<-|Hin]%elem_of_cons; [done|]. simpl. rewrite (IH Hin).
  induction (seq 0 n) as [|i l IHl]; [done|]. simpl. exact IHl.
Qed.

Section GridSetterFailure.
Context {T : Type} `{ST : Scalar T}.

(** Assigning a zero-size array to the grid fails in [max()]. *)
Lemma set_grid_empty (c : FDC T) (value : ndarray T) :
  0%nat ∈ shape value -> FDC_.set_grid c value = Raise ValueError.
Proof.
  intros Hz. unfold FDC_.set_grid, np.max, np.reduce_all, np.elements.
  by rewrite (indices_zero _ Hz).
Qed.
End GridSetterFailure.

Section FDFailures.
Context {T : Type} `{ST : Scalar T} `{DF : DateFormat}.

(** The FD lookup fails in the order of its statements: a date that is
    not among the available dates raises [ValueError] whatever the
    output mode and the dataset; with the date found and a name chosen,
    a dataset without that variable raises [KeyError]; and with the
    variable found, an empty axis next to the time axis raises
    [ValueError], since the maximum of a zero-size grid does not
    exist. *)
Theorem FD_getitem_failures (self : FD.t T) (s : Z) (date : string) :
  (date ∉ FD.available_dates self ->
     FD.getitem self (s, date) = Raise ValueError) /\
  (forall varname,
     date ∈ FD.available_dates self ->
     select_varname (FD.iout self) (s + 1) = Ok varname ->
     variables (FD.nc self) !! varname = None ->
     FD.getitem self (s, date) = Raise KeyError) /\
  (forall varname var idate na np nt nz ny nx,
     py_index date (FD.available_dates self) = Ok idate ->
     select_varname (FD.iout self) (s + 1) = Ok varname ->
     variables (FD.nc self) !! varname = Some var ->
     shape (v_data var) = [na; np; nt; nz; ny; nx] ->
     (idate < nt)%nat ->
     0%nat ∈ [na; np; nz; ny; nx] ->
     FD.getitem self (s, date) = Raise ValueError).
Proof.
  split; [|split].
  - intros Hno. unfold FD.getitem. by rewrite (py_index_not_elem _ _ Hno).
  - intros varname Hin Hname Hvar. unfold FD.getitem.
    destruct (py_index_elem _ _ Hin) as [idate ->]. res_step.
    rewrite Hname. res_step. unfold lookup_key. by rewrite Hvar.
  - intros varname var idate na np nt nz ny nx Hidx Hname Hvar Hsh Hlt Hz.
    unfold FD.getitem. rewrite Hidx. res_step. rewrite Hname. res_step.
    rewrite (lookup_key_Some _ _ _ Hvar). res_step.
    unfold np.getitem. rewrite Hsh. simpl.
    rewrite norm_index_nat by done. res_step.
    rewrite set_grid_empty; [done|]. simpl.
    repeat (apply elem_of_cons in Hz as [Hz|Hz]; [rewrite <- Hz; set_solver|]).
    by apply elem_of_nil in Hz.
Qed.

(** The plain slots of an FD result: the time value and the parsed
    timestamp of the date, the species index of the key, the whole
    species list, the release marker 0 in a forward run and ['k']
    otherwise; the file tag, the deposition grids and the slabs are left
    empty. *)
Theorem FD_getitem_slots (self : FD.t T) (s : Z) (date : string)
    (idate : nat) (raw : ndarray T) (na np nt nz ny nx : nat) :
  FD_ready self s date idate raw na np nt nz ny nx ->
  exists (fdc : FDC T) (tvar : ncvar T) (it : ndarray T) (ts : datetime),
    FD.getitem self (s, date) = Ok fdc /\
    variables (FD.nc self) !! "time" = Some tvar /\
    _itime fdc = Some it /\ item it [] = item (v_data tvar) [idate] /\
    strptime date = Ok ts /\ _timestamp fdc = PDatetime ts /\
    _spec_i fdc = PInt s /\
    _species fdc = PList (PStr <$> FD.species self) /\
    _rel_i fdc = (if decide (FD.direction self = "forward")
                  then PInt 0 else PStr "k") /\
    _gridfile fdc = PNone /\ _dry fdc = PNone /\ _wet fdc = PNone /\
    _slabs fdc = None.
Proof.
  intros Hready.
  destruct (FD_getitem_run _ _ _ _ _ _ _ _ _ _ _ Hready)
    as (it & ts & mx & mn & (tvar & Htvar & Hit) & Hts & _ & _ & Hrun).
  eexists _, tvar, it, ts. split; [exact Hrun|]. simpl.
  repeat split; try done.
  unfold np.getitem in Hit.
  destruct (shape (v_data tvar)) as [|n rest] eqn:Hsh; [done|]. simpl in Hit.
  destruct (norm_index n (Z.of_nat idate)) as [j|] eqn:Hj; [|done].
  simpl in Hit. injection Hit as <-. simpl.
  unfold norm_index in Hj.
  destruct (decide (0 <= Z.of_nat idate < Z.of_nat n));
    [injection Hj as <-; by rewrite Nat2Z.id|].
  destruct (decide (- Z.of_nat n <= Z.of_nat idate < 0)); [lia|done].
Qed.

(** With no date listed twice, looking up the date at position [i]
    reads time index [i] of the species variable and of the [time]
    variable. *)
Theorem FD_getitem_position (self : FD.t T) (s : Z) (date : string)
    (i idate : nat) (raw : ndarray T) (na np nt nz ny nx : nat) :
  NoDup (FD.available_dates self) ->
  FD.available_dates self !! i = Some date ->
  FD_ready self s date idate raw na np nt nz ny nx ->
  idate = i /\
  exists (fdc : FDC T) (g : ndarray T),
    FD.getitem self (s, date) = Ok fdc /\ _grid fdc = Some g /\
    forall x y z p a,
      item g [x; y; z; p; a] = item raw [a; p; i; z; y; x].
Proof.
  intros Hnd Hi Hready.
  assert (idate = i) as ->.
  { destruct Hready as [Hdate _ _ _ _].
    rewrite (py_index_NoDup _ _ _ Hnd Hi) in Hdate. by injection Hdate. }
  split; [done|].
  destruct (FD_getitem_ok _ _ _ _ _ _ _ _ _ _ _ Hready)
    as (fdc & g & Hrun & Hg & _ & Hval).
  by exists fdc, g.
Qed.

(** The keys stored by the constructor are the pairs of a species index
    below [nspec] and an available date, species-major, one for each
    combination; reading [keys] calls that list and raises
    [TypeError]. *)
Theorem FD_keys_spec (nc : Dataset T) (nspec : nat) (species dates : list string)
    (direction : string) (iout : Z) :
  let self := FD.init nc nspec species dates direction iout in
  FD.keys self = Raise TypeError /\
  length (FD._keys self) = (nspec * length dates)%nat /\
  (forall (s : nat) (d : string),
     (s, d) ∈ FD._keys self <-> (s < nspec)%nat /\ d ∈ dates) /\
  (forall (s i : nat) (d : string),
     (s < nspec)%nat -> dates !! i = Some d ->
     FD._keys self !! (s * length dates + i)%nat = Some (s, d)) /\
  FD.grid_dates self = FD.available_dates self.
Proof.
  cbv zeta. split; [reflexivity|]. simpl.
  assert (Hlen : forall (l : list nat),
            length (product l dates) = (length l * length dates)%nat).
  { induction l as [|x l IH]; [done|]. unfold product in *.
    rewrite bind_cons, length_app, length_fmap, IH. simpl. lia. }
  split; [by rewrite Hlen, length_seq|]. split; [|split; [|done]].
  - intros s d. unfold product. rewrite list_elem_of_bind. split.
    + intros (x & (d' & [= -> ->] & Hd)%list_elem_of_fmap & Hx%elem_of_seq).
      split; [lia|done].
    + intros [Hs Hd]. exists s. split.
      * apply list_elem_of_fmap. by exists d.
      * apply elem_of_seq. lia.
  - intros s i d Hs Hi.
    assert (Hgen : forall start n s', (s' < n)%nat ->
              product (seq start n) dates !! (s' * length dates + i)%nat
              = Some ((start + s')%nat, d)).
    { intros start n. revert start. induction n as [|n IH]; intros start s' Hs'; [lia|].
      unfold product in *.
      change (seq start (S n)) with (start :: seq (S start) n).
      rewrite bind_cons. destruct s' as [|s'].
      - rewrite lookup_app_l
          by (rewrite length_fmap; apply lookup_lt_Some in Hi; lia).
        replace (0 * length dates + i)%nat with i by lia.
        rewrite list_lookup_fmap, Hi. simpl. do 2 f_equal. lia.
      - rewrite lookup_app_r by (rewrite length_fmap; lia).
        rewrite length_fmap.
        replace (S s' * length dates + i - length dates)%nat
          with (s' * length dates + i)%nat by lia.
        rewrite IH by lia. do 2 f_equal. lia. }
    by rewrite Hgen.
Qed.
End FDFailures.

(** ** What the C lookup keeps and returns *)

Section ContainerInvariant.
Context {T : Type} `{ST : Scalar T}.

Lemma same_meta_refl (c : FDC T) : same_meta c c.
Proof. by repeat split. Qed.

Lemma same_meta_trans (c1 c2 c3 : FDC T) :
  same_meta c1 c2 -> same_meta c2 c3 -> same_meta c1 c3.
Proof.
  unfold same_meta. intros H12 H23.
  destruct H12 as (?&?&?&?&?&?&?&?&?), H23 as (?&?&?&?&?&?&?&?&?).
  repeat split; congruence.
Qed.

(** The setter of the grid touches the grid and its derived slots only,
    and leaves them describing the new grid. *)
Lemma set_grid_meta (c c' : FDC T) (value : ndarray T) :
  FDC_.set_grid c value = Ok c' ->
  _grid c' = Some value /\ FDC_consistent c' /\ same_meta c c'.
Proof.
  unfold FDC_.set_grid. intros Hset.
  bind_inv Hset. bind_inv Hset. injection Hset as <-.
  unfold FDC_consistent, same_meta. simpl.
  split; [done|]. split; [|by repeat split].
  split; [done|]. split; eauto.
Qed.

Lemma init_consistent : FDC_consistent (@FDC_.init T).
Proof. by repeat split. Qed.
End ContainerInvariant.

Section CKeeps.
Context {T : Type} `{ST : Scalar T} `{DF : DateFormat}.

Lemma accumulate_keeps (self : C.t T) (specvar : ndarray T) (k : Z)
    (date : string) (c c' : FDC T) :
  C.accumulate self specvar k date c = Ok c' ->
  FDC_consistent c' /\ same_meta c c' /\ is_Some (_grid c').
Proof.
  unfold C.accumulate. intros Hrun.
  do 5 bind_inv Hrun.
  destruct (set_grid_meta _ _ _ Hrun) as (Hg & Hcons & Hmeta).
  rewrite Hg. eauto.
Qed.

Lemma accumulate_loop_keeps (self : C.t T) (specvar : ndarray T) (k : Z)
    (ds : list string) (c c' : FDC T) :
  for_each (C.accumulate self specvar k) ds c = Ok c' ->
  FDC_consistent c -> is_Some (_grid c) ->
  FDC_consistent c' /\ same_meta c c' /\ is_Some (_grid c').
Proof.
  revert c. induction ds as [|d ds IH]; intros c Hrun Hcons Hsome; simpl in Hrun.
  - injection Hrun as <-. split; [done|]. split; [apply same_meta_refl|done].
  - bind_inv Hrun.
    destruct (accumulate_keeps _ _ _ _ _ _ Ha) as (Hc1 & Hm1 & Hs1).
    destruct (IH _ Hrun Hc1 Hs1) as (Hc' & Hm' & Hs').
    split; [done|]. split; [by eapply same_meta_trans|done].
Qed.

(** The backward branch, whichever way its grid is filled, returns a
    container that describes its grid and carries the slots assigned
    before the grid. *)
Lemma backward_keeps (self : C.t T) (s k : Z) (c : FDC T) :
  C.backward self s k = Ok c ->
  FDC_consistent c /\ is_Some (_grid c) /\
  (exists ts, py_getitem (C.releasetimes self) k = Ok ts /\
              _timestamp c = PDatetime ts) /\
  (exists sp, py_getitem (C.species self) s = Ok sp /\ _species c = PStr sp) /\
  _gridfile c = PStr "multiple" /\ _itime c = None /\
  _rel_i c = PInt k /\ _spec_i c = PInt s /\
  _dry c = PNone /\ _wet c = PNone /\ _slabs c = None.
Proof.
  unfold C.backward, C.backward_with, C.backward_grid. intros Hrun.
  bind_inv Hrun. bind_inv Hrun. bind_inv Hrun. bind_inv Hrun.
  bind_inv Hrun. bind_inv Hrun. bind_inv Hrun. bind_inv Hrun.
  destruct (set_grid_meta _ _ _ Ha6) as (Hg & Hcons & Hmeta).
  destruct (accumulate_loop_keeps _ _ _ _ _ _ Hrun Hcons) as (Hc' & Hm' & Hs');
    [by rewrite Hg|].
  pose proof (same_meta_trans _ _ _ Hmeta Hm') as Hm.
  destruct Hm as (Hgf & Hit & Hts & Hsp & Hrel & Hspec & Hdry & Hwet & Hsl).
  simpl in *. split; [done|]. split; [done|].
  split; [eauto|]. split; [eauto|]. by repeat split.
Qed.

Lemma FD_getitem_keeps (fd : FD.t T) (key : Z * string) (f : FDC T) :
  FD.getitem fd key = Ok f ->
  FDC_consistent f /\ is_Some (_grid f) /\ _slabs f = None /\
  _spec_i f = PInt key.1.
Proof.
  destruct key as [s date]. unfold FD.getitem. intros Hrun.
  do 9 bind_inv Hrun.
  destruct (set_grid_meta _ _ _ Ha3) as (Hg & Hcons & Hmeta).
  injection Hrun as <-.
  destruct Hmeta as (_ & _ & _ & _ & _ & _ & _ & _ & Hsl). simpl in Hsl.
  unfold FDC_consistent in *.
  destruct (decide (FD.direction fd = "forward")); simpl;
    rewrite Hg in *; (split; [exact Hcons|]); (split; [by eexists|]);
    by split.
Qed.

(** Every container the C lookup returns, in either direction and for
    whatever key and dataset, describes its own grid: the [shape],
    [max] and [min] slots are those of the grid in the [grid] slot, the
    slabs are the ones [get_slabs] computes from that grid and the
    heights, and the grid has at least three axes; the key was a pair of
    plain integers, the first of which is recorded as species index. *)
Theorem C_getitem_consistent (self : C.t T) (item : pyval) (c : FDC T) :
  C.getitem self item = Ok c ->
  FDC_consistent c /\
  exists (g : ndarray T) (slabs : gmap nat (ndarray T)) (s k : Z),
    item = PTuple [PInt s; PInt k] /\
    _grid c = Some g /\ (3 <= length (shape g))%nat /\
    get_slabs (C.Heightnn self) g = Ok slabs /\ _slabs c = Some slabs /\
    is_Some (slabs !! 0%nat) /\ _spec_i c = PInt s.
Proof.
  unfold C.getitem. intros Hrun.
  destruct item as [| | | | | |items|]; try done.
  destruct items as [|a [|b [|? ?]]]; try done.
  destruct a as [| |s| | | | |]; try done.
  destruct b as [| |k| | | | |]; try done.
  bind_inv Hrun. bind_inv Hrun. bind_inv Hrun. injection Hrun as <-.
  assert (Hc : FDC_consistent a /\ is_Some (_grid a) /\ _spec_i a = PInt s).
  { destruct (decide (C.direction self = "backward")).
    - destruct (backward_keeps _ _ _ _ Ha) as (? & ? & _ & _ & _ & _ & _ & ? & _).
      done.
    - bind_inv Ha.
      destruct (FD_getitem_keeps _ _ _ Ha) as (? & ? & _ & ?). done. }
  destruct Hc as (Hcons & _ & Hspec).
  unfold FDC_.grid in Ha0. destruct (_grid a) as [g|] eqn:Hg; [|done].
  injection Ha0 as <-.
  split.
  { unfold FDC_consistent in *. simpl. by rewrite Hg in *. }
  exists g, a1, s, k. simpl. repeat split; try done.
  - unfold get_slabs, get_slabs_with in Ha1.
    apply bind_inv in Ha1 as (nz & Hnz & _).
    unfold py_getitem in Hnz. apply bind_inv in Hnz as (j & Hj & _).
    unfold norm_index in Hj. repeat case_decide; try done; lia.
  - unfold get_slabs, get_slabs_with in Ha1.
    apply bind_inv in Ha1 as (nz & _ & Hrun).
    apply bind_inv in Hrun as (sl & _ & Hrun).
    apply bind_inv in Hrun as (total & _ & Hrun).
    injection Hrun as <-. rewrite lookup_insert_eq. eauto.
Qed.
End CKeeps.

Section CBackwardMore.
Context {T : Type} `{ST : Scalar T} `{DF : DateFormat}.

(** The container of a backward lookup: it is tagged ["multiple"], has
    no time index, carries the release time and the species name of the
    key and the key itself, leaves the deposition grids empty, and its
    shape, maximum and minimum are those of the accumulated grid, not of
    the zero array the loop started from. *)
Theorem C_getitem_backward_slots (self : C.t T) (s k : Z) (kn : nat)
    (raw : ndarray T) (na np nt nz ny nx : nat) :
  C_backward_ready self s k kn raw na np nt nz ny nx ->
  exists (c : FDC T) (g : ndarray T) (slabs : gmap nat (ndarray T))
         (ts : datetime) (sp : string) (mx mn : T),
    C.getitem self (PTuple [PInt s; PInt k]) = Ok c /\
    _grid c = Some g /\
    _gridfile c = PStr "multiple" /\ _itime c = None /\
    py_getitem (C.releasetimes self) k = Ok ts /\
    _timestamp c = PDatetime ts /\
    py_getitem (C.species self) s = Ok sp /\ _species c = PStr sp /\
    _rel_i c = PInt k /\ _spec_i c = PInt s /\
    _dry c = PNone /\ _wet c = PNone /\
    get_slabs (C.Heightnn self) g = Ok slabs /\ _slabs c = Some slabs /\
    _shape c = Some [nx; ny; nz] /\
    np.max g = Ok mx /\ _max c = Some mx /\
    np.min g = Ok mn /\ _min c = Some mn.
Proof.
  intros Hready.
  destruct (backward_loop_spec _ _ _ _ _ _ _ _ _ _ _ Hready)
    as (c & g & Hrun & Hg & Hsh & _).
  destruct Hready as [Hdir _ _ _ _ _ Hcover].
  destruct (get_slabs_ok (C.Heightnn self) g nx ny nz [] Hsh Hcover)
    as [slabs Hslabs].
  destruct (backward_keeps _ _ _ _ Hrun)
    as (Hcons & _ & (ts & Hts & Htime) & (sp & Hsp & Hspecies) & Hfile & Hit
        & Hrel & Hspec & Hdry & Hwet & _).
  unfold FDC_consistent in Hcons. rewrite Hg in Hcons.
  destruct Hcons as (Hshape & (mx & Hmx & Hmax) & (mn & Hmn & Hmin)).
  exists (FDC_.set_slabs c slabs), g, slabs, ts, sp, mx, mn.
  split.
  { unfold C.getitem.
    destruct (decide (C.direction self = "backward")) as [_|Hn]; [|done].
    rewrite Hrun. res_step. unfold FDC_.grid. rewrite Hg. res_step.
    by rewrite Hslabs. }
  simpl. rewrite <- Hsh. by repeat split.
Qed.

(** Release points are addressed like the items of a Python sequence:
    two indices that name the same release point, such as [k] and
    [k - pointspec], get the same grid. *)
Theorem C_getitem_backward_wraps (self : C.t T) (s k k' : Z) (kn : nat)
    (raw : ndarray T) (na np nt nz ny nx : nat) :
  C_backward_ready self s k kn raw na np nt nz ny nx ->
  C_backward_ready self s k' kn raw na np nt nz ny nx ->
  exists (c c' : FDC T) (g g' : ndarray T),
    C.getitem self (PTuple [PInt s; PInt k]) = Ok c /\
    C.getitem self (PTuple [PInt s; PInt k']) = Ok c' /\
    _grid c = Some g /\ _grid c' = Some g' /\ np.array_eq g g' /\
    _rel_i c = PInt k /\ _rel_i c' = PInt k'.
Proof.
  intros Hready Hready'.
  assert (Hone : forall j, C_backward_ready self s j kn raw na np nt nz ny nx ->
    exists c g, C.getitem self (PTuple [PInt s; PInt j]) = Ok c /\
      _grid c = Some g /\ shape g = [nx; ny; nz] /\ _rel_i c = PInt j /\
      forall x y z, (x < nx)%nat -> (y < ny)%nat -> (z < nz)%nat ->
        item g [x; y; z]
        = foldl (fun acc date =>
                   s_add acc (date_term raw (C.available_dates self) na kn x y z date))
                s_zero (C.available_dates self)).
  { intros j Hj.
    destruct (backward_loop_spec _ _ _ _ _ _ _ _ _ _ _ Hj)
      as (c & g & Hrun & Hg & Hsh & Hval).
    destruct Hj as [Hdir _ _ _ _ _ Hcover].
    destruct (get_slabs_ok (C.Heightnn self) g nx ny nz [] Hsh Hcover)
      as [slabs Hslabs].
    destruct (backward_keeps _ _ _ _ Hrun) as (_ & _ & _ & _ & _ & _ & Hrel & _).
    exists (FDC_.set_slabs c slabs), g. split; [|by repeat split].
    unfold C.getitem.
    destruct (decide (C.direction self = "backward")) as [_|Hn]; [|done].
    rewrite Hrun. res_step. unfold FDC_.grid. rewrite Hg. res_step.
    by rewrite Hslabs. }
  destruct (Hone k Hready) as (c & g & Hc & Hg & Hsh & Hrel & Hval).
  destruct (Hone k' Hready') as (c' & g' & Hc' & Hg' & Hsh' & Hrel' & Hval').
  exists c, c', g, g'. repeat split; try done; [congruence|].
  intros idx Hb. rewrite Hsh in Hb. unfold np.in_bounds in Hb.
  apply Forall2_cons_inv_r in Hb as (x & idx1 & Hx & Hb & ->).
  apply Forall2_cons_inv_r in Hb as (y & idx2 & Hy & Hb & ->).
  apply Forall2_cons_inv_r in Hb as (z & idx3 & Hz & Hb & ->).
  apply Forall2_nil_inv_r in Hb as ->.
  by rewrite Hval, Hval'.
Qed.

(** An index outside the sequence it addresses raises [IndexError]
    before the dataset is read: the release times in a backward run, the
    grid dates of the FD accessor otherwise, whatever the number of
    release points. *)
Theorem C_getitem_out_of_range (self : C.t T) (s k : Z) :
  (C.direction self = "backward" ->
   ~ (- Z.of_nat (length (C.releasetimes self)) <= k
      < Z.of_nat (length (C.releasetimes self))) ->
   C.getitem self (PTuple [PInt s; PInt k]) = Raise IndexError) /\
  (C.direction self <> "backward" ->
   ~ (- Z.of_nat (length (FD.grid_dates (C._FD self))) <= k
      < Z.of_nat (length (FD.grid_dates (C._FD self)))) ->
   C.getitem self (PTuple [PInt s; PInt k]) = Raise IndexError).
Proof.
  assert (Hidx : forall (A : Type) (l : list A),
            ~ (- Z.of_nat (length l) <= k < Z.of_nat (length l)) ->
            py_getitem l k = Raise IndexError).
  { intros A l Hout. unfold py_getitem, norm_index.
    repeat case_decide; try lia. done. }
  split; intros Hdir Hout; unfold C.getitem.
  - destruct (decide (C.direction self = "backward")); [|done].
    unfold C.backward, C.backward_with. by rewrite Hidx.
  - destruct (decide (C.direction self = "backward")); [done|].
    by rewrite Hidx.
Qed.

(** In a forward run whose FD accessor lists no date twice, the key
    [(s, k)] reads time index [k]: the grid date at position [k] is
    found again at position [k], so release point [k] is paired with
    output time [k]. *)
Theorem C_getitem_forward_position (self : C.t T) (s : Z) (k : nat)
    (date : string) (idate : nat) (raw : ndarray T)
    (na np nt nz ny nx : nat) :
  C_forward_ready self s (Z.of_nat k) date idate raw na np nt nz ny nx ->
  FD.grid_dates (C._FD self) = FD.available_dates (C._FD self) ->
  NoDup (FD.available_dates (C._FD self)) ->
  idate = k /\
  exists (c : FDC T) (g : ndarray T),
    C.getitem self (PTuple [PInt s; PInt (Z.of_nat k)]) = Ok c /\
    _grid c = Some g /\ shape g = [nx; ny; nz; np; na] /\
    forall x y z p a,
      item g [x; y; z; p; a] = item raw [a; p; k; z; y; x].
Proof.
  intros [Hdir Hdate Hfd Hcover] Hsame Hnd.
  assert (idate = k) as ->.
  { rewrite Hsame in Hdate. unfold py_getitem in Hdate. bind_inv Hdate.
    destruct (FD.available_dates (C._FD self) !! a) as [d|] eqn:Hd; [|done].
    injection Hdate as ->.
    unfold norm_index in Ha. repeat case_decide; try done; try lia.
    injection Ha as <-. rewrite Nat2Z.id in Hd.
    destruct Hfd as [Hidx _ _ _ _].
    rewrite (py_index_NoDup _ _ _ Hnd Hd) in Hidx. by injection Hidx. }
  split; [done|].
  destruct (FD_getitem_ok _ _ _ _ _ _ _ _ _ _ _ Hfd)
    as (f & g & Hf & Hg & Hsh & Hval).
  destruct (get_slabs_ok (C.Heightnn self) g nx ny nz [np; na] Hsh Hcover)
    as [slabs Hslabs].
  exists (FDC_.set_slabs f slabs), g. split; [|by repeat split].
  unfold C.getitem.
  destruct (decide (C.direction self = "backward")) as [Hb|_];
    [by rewrite Hdir in Hb|].
  rewrite Hdate. res_step. rewrite Hf. res_step.
  unfold FDC_.grid. rewrite Hg. res_step. by rewrite Hslabs.
Qed.
End CBackwardMore.

(** ** Failures and the empty case of the slab reducer *)

Lemma broadcast_rev_raise (r1 r2 : list nat) (e : exn) :
  np.broadcast_rev r1 r2 = Raise e -> e = ValueError.
Proof.
  revert r2. induction r1 as [|n1 r1 IH]; intros [|n2 r2]; simpl; try done.
  repeat case_decide; res_step; try (by intros [= <-]);
    (destruct (np.broadcast_rev r1 r2) eqn:Hr; [done|]);
    res_step; intros [= <-]; by eapply IH.
Qed.

Lemma broadcast_shapes_raise (s1 s2 : list nat) (e : exn) :
  np.broadcast_shapes s1 s2 = Raise e -> e = ValueError.
Proof.
  unfold np.broadcast_shapes.
  destruct (np.broadcast_rev (rev s1) (rev s2)) eqn:Hr; [done|].
  res_step. intros [= <-]. by eapply broadcast_rev_raise.
Qed.

Lemma for_each_raise {A S : Type} (body : A -> S -> res S) (xs ys : list A)
    (x : A) (s s' : S) (e : exn) :
  for_each body xs s = Ok s' -> body x s' = Raise e ->
  for_each body (xs ++ x :: ys) s = Raise e.
Proof.
  intros Hxs Hx. rewrite for_each_app, Hxs. res_step. simpl. by rewrite Hx.
Qed.

Section SlabFailures.
Context {T : Type} `{ST : Scalar T}.

(** [get_slabs] reads the third axis of the grid before anything else:
    a grid with fewer than three axes raises [IndexError].  A grid
    without levels gives the total column alone and never reads the
    heights.  With levels, heights of fewer than three axes or of fewer
    levels than the grid raise [IndexError], and heights whose levels do
    not broadcast against those of the grid raise [ValueError]. *)
Theorem get_slabs_failures (Hnn G : ndarray T) :
  ((length (shape G) < 3)%nat -> get_slabs Hnn G = Raise IndexError) /\
  (forall nx ny rest,
     shape G = nx :: ny :: 0%nat :: rest ->
     exists total, np.sum G 2 = Ok total /\
       get_slabs Hnn G = Ok {[0%nat := np.transpose total]}) /\
  (forall nx ny nz rest,
     shape G = nx :: ny :: nz :: rest -> (0 < nz)%nat ->
     (length (shape Hnn) < 3)%nat ->
     get_slabs Hnn G = Raise IndexError) /\
  (forall nx ny nz rest hx hy hz hrest bs,
     shape G = nx :: ny :: nz :: rest ->
     shape Hnn = hx :: hy :: hz :: hrest -> (hz < nz)%nat ->
     np.broadcast_shapes (nx :: ny :: rest) (hx :: hy :: hrest) = Ok bs ->
     get_slabs Hnn G = Raise IndexError) /\
  (forall nx ny nz rest hx hy hz hrest,
     shape G = nx :: ny :: nz :: rest ->
     shape Hnn = hx :: hy :: hz :: hrest -> (0 < nz)%nat -> (0 < hz)%nat ->
     (forall bs, np.broadcast_shapes (nx :: ny :: rest) (hx :: hy :: hrest)
                 <> Ok bs) ->
     get_slabs Hnn G = Raise ValueError).
Proof.
  assert (Hnz : forall nx ny nz rest, shape G = nx :: ny :: nz :: rest ->
            py_getitem (shape G) 2 = Ok nz).
  { intros nx ny nz rest ->. by apply (py_getitem_nat _ 2 nz). }
  split; [|split; [|split; [|split]]].
  - intros Hlen. unfold get_slabs, get_slabs_with, py_getitem, norm_index.
    destruct (decide (0 <= 2 < Z.of_nat (length (shape G)))); [lia|].
    destruct (decide (- Z.of_nat (length (shape G)) <= 2 < 0)); [lia|done].
  - intros nx ny rest HG. eexists. split; [by apply (sum_axis2 G nx ny 0 rest)|].
    unfold get_slabs, get_slabs_with. rewrite (Hnz _ _ _ _ HG). res_step.
    simpl. by rewrite (sum_axis2 G nx ny 0 rest HG).
  - intros nx ny nz rest HG Hpos Hlen.
    unfold get_slabs, get_slabs_with. rewrite (Hnz _ _ _ _ HG). res_step.
    destruct nz as [|nz]; [lia|]. simpl. unfold level.
    rewrite (getitem_level G nx ny (S nz) rest 0 HG) by lia. res_step.
    unfold np.getitem.
    destruct (shape Hnn) as [|? [|? [|? ?]]]; simpl in *; try done. lia.
  - intros nx ny nz rest hx hy hz hrest bs HG HH Hlt Hbs.
    unfold get_slabs, get_slabs_with. rewrite (Hnz _ _ _ _ HG). res_step.
    destruct (slabs_loop true Hnn G (seq 0 hz)) with (slabs0 := (∅ : gmap nat (ndarray T)))
      as (slabs & Hrun & _).
    { intros i Hi%elem_of_seq. unfold level.
      rewrite (getitem_level G nx ny nz rest i HG) by lia.
      rewrite (getitem_level Hnn hx hy hz hrest i HH) by lia. res_step.
      unfold np.divide, np.binop. simpl. rewrite Hbs. res_step. eauto. }
    replace nz with (hz + S (nz - S hz))%nat by lia.
    rewrite seq_app. simpl seq.
    erewrite for_each_raise; [done | exact Hrun |].
    unfold level. rewrite (getitem_level G nx ny nz rest hz HG) by lia.
    res_step. unfold np.getitem. rewrite HH. simpl.
    unfold norm_index. replace (0 + hz)%nat with hz by lia.
    destruct (decide (0 <= Z.of_nat hz < Z.of_nat hz)); [lia|].
    destruct (decide (- Z.of_nat hz <= Z.of_nat hz < 0)); [lia|done].
  - intros nx ny nz rest hx hy hz hrest HG HH Hnzpos Hhz Hbs.
    unfold get_slabs, get_slabs_with. rewrite (Hnz _ _ _ _ HG). res_step.
    destruct nz as [|nz]; [lia|]. simpl. unfold level.
    rewrite (getitem_level G nx ny (S nz) rest 0 HG) by lia.
    rewrite (getitem_level Hnn hx hy hz hrest 0 HH) by lia. res_step.
    unfold np.divide, np.binop. simpl.
    destruct (np.broadcast_shapes (nx :: ny :: rest) (hx :: hy :: hrest))
      as [bs|e] eqn:Hb; [by destruct (Hbs bs)|].
    apply broadcast_shapes_raise in Hb as ->. done.
Qed.
End SlabFailures.

(** ** Forward lookups over an orography *)

Section CForwardOrography.
Context {T : Type} `{ST : Scalar T} `{DF : DateFormat}.

Lemma get_slabs_no_broadcast (Hnn G : ndarray T)
    (nx ny nz hx hy hz : nat) (rest hrest : list nat) :
  shape G = nx :: ny :: nz :: rest ->
  shape Hnn = hx :: hy :: hz :: hrest -> (0 < nz)%nat -> (0 < hz)%nat ->
  (forall bs, np.broadcast_shapes (nx :: ny :: rest) (hx :: hy :: hrest)
              <> Ok bs) ->
  get_slabs Hnn G = Raise ValueError.
Proof.
  intros HG HH Hnz Hhz Hbs.
  unfold get_slabs, get_slabs_with.
  rewrite HG at 1. rewrite (py_getitem_nat _ 2 nz) by done. res_step.
  destruct nz as [|nz]; [lia|]. simpl. unfold level.
  rewrite (getitem_level G nx ny (S nz) rest 0 HG) by lia.
  rewrite (getitem_level Hnn hx hy hz hrest 0 HH) by lia. res_step.
  unfold np.divide, np.binop. simpl.
  destruct (np.broadcast_shapes (nx :: ny :: rest) (hx :: hy :: hrest))
    as [bs|e] eqn:Hb; [by destruct (Hbs bs)|].
  apply broadcast_shapes_raise in Hb as ->. done.
Qed.

(** The release-point and age-class axes of a forward grid against the
    longitude and latitude axes of a height field: they broadcast only
    when, axis by axis, the sizes agree or one of them is 1. *)
Lemma broadcast_points_against_domain (nx ny np na : nat) :
  (na <> ny /\ na <> 1%nat /\ ny <> 1%nat) \/
  (np <> nx /\ np <> 1%nat /\ nx <> 1%nat) ->
  forall bs, np.broadcast_shapes [nx; ny; np; na] [nx; ny] <> Ok bs.
Proof.
  intros Hmis bs. unfold np.broadcast_shapes. simpl.
  repeat case_decide; res_step; try done; lia.
Qed.

(** C3: with an orography the height field has the shape of the
    domain, (numxgrid, numygrid, levels), while the grid the FD accessor
    returns keeps its release-point and age-class axes.  Unless these
    two axes happen to fit the longitude and latitude axes, the division
    of the first level of the grid by the first level of the heights
    does not broadcast: the FD lookup for the key returns its grid, and
    the C lookup that delegates to it raises [ValueError] instead of
    returning that grid. *)
Theorem C_getitem_forward_orography (self : C.t T) (s k : Z)
    (date : string) (idate : nat) (raw : ndarray T)
    (na np nt nz ny nx hz : nat) :
  C.direction self = "forward" ->
  py_getitem (FD.grid_dates (C._FD self)) k = Ok date ->
  FD_ready (C._FD self) s date idate raw na np nt nz ny nx ->
  shape (C.Heightnn self) = [nx; ny; hz] -> (0 < hz)%nat ->
  (na <> ny /\ na <> 1%nat /\ ny <> 1%nat) \/
  (np <> nx /\ np <> 1%nat /\ nx <> 1%nat) ->
  (exists (f : FDC T) (g : ndarray T),
     FD.getitem (C._FD self) (s, date) = Ok f /\ _grid f = Some g /\
     shape g = [nx; ny; nz; np; na]) /\
  C.getitem self (PTuple [PInt s; PInt k]) = Raise ValueError.
Proof.
  intros Hdir Hdate Hfd HH Hhz Hmis.
  destruct (FD_getitem_ok _ _ _ _ _ _ _ _ _ _ _ Hfd)
    as (f & g & Hf & Hg & Hsh & _).
  split; [by exists f, g|].
  assert (Hnz : (0 < nz)%nat).
  { destruct Hfd as [_ _ (varname & _ & Hsv) _ _].
    destruct Hsv as [_ _ _ _ _ (_ & _ & Hnz & _)]. exact Hnz. }
  unfold C.getitem.
  destruct (decide (C.direction self = "backward")) as [Hb|_];
    [by rewrite Hdir in Hb|].
  rewrite Hdate. res_step. rewrite Hf. res_step.
  unfold FDC_.grid. rewrite Hg. res_step.
  rewrite (get_slabs_no_broadcast (C.Heightnn self) g nx ny nz nx ny hz
             [np; na] []); try done.
  by apply broadcast_points_against_domain.
Qed.
End CForwardOrography.

(** ** Release windows *)

Lemma divide_and_round_half (x : Z) :
  let m := divide_and_round x 2 in
  -1 <= 2 * m - x <= 1 /\ (x mod 2 = 0 -> 2 * m = x) /\
  (0 <= x -> 0 <= m <= x) /\ (x <= 0 -> x <= m <= 0).
Proof.
  unfold divide_and_round. cbv zeta.
  destruct (decide (0 < 2)) as [_|?]; [|lia].
  pose proof (Z.div_mod x 2 ltac:(lia)) as Hdm.
  pose proof (Z.mod_pos_bound x 2 ltac:(lia)) as Hr.
  pose proof (Z.mod_pos_bound (x / 2) 2 ltac:(lia)) as Hq.
  pose proof (Z.div_mod (x / 2) 2 ltac:(lia)) as Hdq.
  repeat case_bool_decide; simpl; lia.
Qed.

(** The midpoint of two datetimes exists and lies between them. *)
Lemma midpoint_between (a b : datetime) :
  0 <= a <= datetime_max -> 0 <= b <= datetime_max ->
  exists m, midpoint a b = Ok m /\
    Z.min a b <= m <= Z.max a b /\ -1 <= 2 * m - (a + b) <= 1 /\
    ((b - a) mod 2 = 0 -> 2 * m = a + b).
Proof.
  intros Ha Hb. unfold midpoint, datetime_add.
  destruct (divide_and_round_half (b - a)) as (Hnear & Heven & Hpos & Hneg).
  destruct (decide (0 <= b + - divide_and_round (b - a) 2 <= datetime_max))
    as [_|Hout]; [eexists; split; [done|]; lia|].
  destruct (decide (0 <= b - a)); [specialize (Hpos ltac:(lia))|
                                   specialize (Hneg ltac:(lia))]; lia.
Qed.

Lemma zip_fmap_seq {A B : Type} (f : nat -> A) (g : nat -> B) (n m : nat) :
  zip (f <$> seq 0 n) (g <$> seq 0 m)
  = (fun i => (f i, g i)) <$> seq 0 (n `min` m).
Proof.
  apply list_eq. intros i. rewrite lookup_zip_with.
  rewrite !list_lookup_fmap.
  destruct (decide (i < n `min` m)%nat) as [Hi|Hi].
  - rewrite !lookup_seq_lt by lia. done.
  - rewrite (lookup_seq_ge 0 (n `min` m)) by lia. simpl.
    destruct (decide (i < n)%nat).
    + rewrite (lookup_seq_lt 0 n) by lia. simpl.
      by rewrite (lookup_seq_ge 0 m) by lia.
    + by rewrite (lookup_seq_ge 0 n) by lia.
Qed.

Section Releases.
Context {T : Type} `{ST : Scalar T} `{DF : DateFormat} `{TI : ToInt T}.

Lemma released_ok (d : datetime) (t : ndarray T) :
  shape t = [] ->
  0 <= d <= datetime_max ->
  0 <= d + 1000000 * s_int (item t []) <= datetime_max ->
  Header.released d t = Ok (d + 1000000 * s_int (item t [])).
Proof.
  unfold datetime_max. intros Hsh Hd Hr.
  unfold Header.released, py_int. rewrite Hsh. simpl.
  unfold timedelta. case_decide; [|lia]. res_step.
  unfold datetime_add, datetime_max. case_decide; [|lia].
  do 2 f_equal. lia.
Qed.

(** The release list read from the one-dimensional array [a]. *)
Lemma release_list (nc : Dataset T) (a : ndarray T) (n : nat) (d : datetime) :
  shape a = [n] ->
  0 <= d <= datetime_max ->
  (forall i, (i < n)%nat ->
     0 <= d + 1000000 * s_int (item a [i]) <= datetime_max) ->
  (a' ← (if decide (ldirect nc < 0) then np.flip a else np.slice_all a);
   ts ← np.iter a'; comprehension (Header.released d) ts)
  = Ok ((fun i : nat => d + 1000000 * s_int (item a [release_index nc n i]))
          <$> seq 0 n).
Proof.
  intros Hsh Hd Hr. unfold release_index.
  destruct (decide (ldirect nc < 0)).
  - unfold np.flip. rewrite Hsh. res_step. unfold np.iter. simpl shape.
    res_step.
    rewrite (comprehension_ok _
               (fun t : ndarray T => d + 1000000 * s_int (item t []))).
    + rewrite <- list_fmap_compose. done.
    + intros t (i & -> & Hi%elem_of_seq)%list_elem_of_fmap.
      apply released_ok; [done..|]. simpl. apply Hr. lia.
  - unfold np.slice_all. rewrite Hsh. res_step. unfold np.iter. rewrite Hsh.
    res_step.
    rewrite (comprehension_ok _
               (fun t : ndarray T => d + 1000000 * s_int (item t []))).
    + rewrite <- list_fmap_compose. done.
    + intros t (i & -> & Hi%elem_of_seq)%list_elem_of_fmap.
      apply released_ok; [done..|]. simpl. apply Hr. lia.
Qed.

Lemma releasestart_run (nc : Dataset T) (a : ndarray T) (n : nat) (d : datetime) :
  vector_var nc "RELSTART" a n ->
  strptime (anchor nc) = Ok d ->
  0 <= d <= datetime_max ->
  (forall i, (i < n)%nat ->
     0 <= d + 1000000 * s_int (item a [i]) <= datetime_max) ->
  Header.releasestart nc
  = Ok ((fun i : nat => d + 1000000 * s_int (item a [release_index nc n i]))
          <$> seq 0 n).
Proof.
  intros [(v & Hv & Ha) Hsh] Hparse Hd Hr.
  rewrite <- (release_list nc a n d Hsh Hd Hr).
  unfold Header.releasestart, Header.ireleasestart, anchor in *.
  rewrite (lookup_key_Some _ _ _ Hv). res_step. rewrite Ha.
  destruct (decide (ldirect nc < 0)); rewrite Hparse;
    [destruct (np.flip a)|destruct (np.slice_all a)]; done.
Qed.

Lemma releaseend_run (nc : Dataset T) (a : ndarray T) (n : nat) (d : datetime) :
  vector_var nc "RELEND" a n ->
  strptime (anchor nc) = Ok d ->
  0 <= d <= datetime_max ->
  (forall i, (i < n)%nat ->
     0 <= d + 1000000 * s_int (item a [i]) <= datetime_max) ->
  Header.releaseend nc
  = Ok ((fun i : nat => d + 1000000 * s_int (item a [release_index nc n i]))
          <$> seq 0 n).
Proof.
  intros [(v & Hv & Ha) Hsh] Hparse Hd Hr.
  rewrite <- (release_list nc a n d Hsh Hd Hr).
  unfold Header.releaseend, Header.ireleaseend, anchor in *.
  rewrite (lookup_key_Some _ _ _ Hv). res_step. rewrite Ha.
  destruct (decide (ldirect nc < 0)); rewrite Hparse;
    [destruct (np.flip a)|destruct (np.slice_all a)]; done.
Qed.

(** The release starts and ends are the anchor date (the end date of a
    backward run, the start date of a forward run) shifted by the
    seconds stored in [RELSTART] and [RELEND]; a backward run lists
    them from the last stored entry to the first. *)
Theorem releasestart_releaseend_spec (nc : Dataset T) (a b : ndarray T)
    (n m : nat) (d : datetime) :
  vector_var nc "RELSTART" a n ->
  vector_var nc "RELEND" b m ->
  strptime (anchor nc) = Ok d ->
  0 <= d <= datetime_max ->
  (forall i, (i < n)%nat ->
     0 <= d + 1000000 * s_int (item a [i]) <= datetime_max) ->
  (forall i, (i < m)%nat ->
     0 <= d + 1000000 * s_int (item b [i]) <= datetime_max) ->
  exists starts ends : list datetime,
    Header.releasestart nc = Ok starts /\ Header.releaseend nc = Ok ends /\
    length starts = n /\ length ends = m /\
    (forall i, (i < n)%nat ->
       starts !! i
       = Some (d + 1000000 * s_int
                 (item a [if decide (ldirect nc < 0) then (n - 1 - i)%nat else i]))) /\
    (forall i, (i < m)%nat ->
       ends !! i
       = Some (d + 1000000 * s_int
                 (item b [if decide (ldirect nc < 0) then (m - 1 - i)%nat else i]))).
Proof.
  intros Ha Hb Hparse Hd Hra Hrb.
  eexists _, _.
  split; [by apply (releasestart_run nc a n d)|].
  split; [by apply (releaseend_run nc b m d)|].
  rewrite !length_fmap, !length_seq. repeat split.
  - intros i Hi. by rewrite list_lookup_fmap, lookup_seq_lt.
  - intros i Hi. by rewrite list_lookup_fmap, lookup_seq_lt.
Qed.

(** The release times pair the starts with the ends by position, as many
    as the shorter list has, and each is exactly halfway between its
    start and its end; taking the midpoint never leaves the range of
    datetimes. *)
Theorem releasetimes_spec (nc : Dataset T) (a b : ndarray T)
    (n m : nat) (d : datetime) :
  vector_var nc "RELSTART" a n ->
  vector_var nc "RELEND" b m ->
  strptime (anchor nc) = Ok d ->
  0 <= d <= datetime_max ->
  (forall i, (i < n)%nat ->
     0 <= d + 1000000 * s_int (item a [i]) <= datetime_max) ->
  (forall i, (i < m)%nat ->
     0 <= d + 1000000 * s_int (item b [i]) <= datetime_max) ->
  exists times : list datetime,
    Header.releasetimes nc = Ok times /\
    length times = (n `min` m)%nat /\
    forall i, (i < n `min` m)%nat ->
      exists t,
        times !! i = Some t /\
        let start := d + 1000000 * s_int (item a [release_index nc n i]) in
        let stop := d + 1000000 * s_int (item b [release_index nc m i]) in
        2 * t = start + stop /\ Z.min start stop <= t <= Z.max start stop.
Proof.
  intros Ha Hb Hparse Hd Hra Hrb.
  set (fs := fun i : nat => d + 1000000 * s_int (item a [release_index nc n i])).
  set (fe := fun i : nat => d + 1000000 * s_int (item b [release_index nc m i])).
  assert (Hfs : forall i, (i < n)%nat -> 0 <= fs i <= datetime_max).
  { intros i Hi. apply Hra. unfold release_index. case_decide; lia. }
  assert (Hfe : forall i, (i < m)%nat -> 0 <= fe i <= datetime_max).
  { intros i Hi. apply Hrb. unfold release_index. case_decide; lia. }
  assert (Hmid : forall i, (i < n `min` m)%nat ->
            exists t, midpoint (fs i) (fe i) = Ok t /\
              2 * t = fs i + fe i /\ Z.min (fs i) (fe i) <= t <= Z.max (fs i) (fe i)).
  { intros i Hi.
    destruct (midpoint_between (fs i) (fe i)) as (t & Ht & Hbt & _ & Heven);
      [apply Hfs; lia | apply Hfe; lia |].
    exists t. split; [done|]. split; [|done]. apply Heven.
    unfold fs, fe.
    replace (d + 1000000 * s_int (item b [release_index nc m i])
             - (d + 1000000 * s_int (item a [release_index nc n i])))
      with ((500000 * (s_int (item b [release_index nc m i])
                       - s_int (item a [release_index nc n i]))) * 2) by lia.
    apply Z.mod_mul. lia. }
  set (mid := fun i : nat =>
                match midpoint (fs i) (fe i) with Ok t => t | Raise _ => 0 end).
  exists (mid <$> seq 0 (n `min` m)).
  split; [|split].
  - unfold Header.releasetimes.
    rewrite (releasestart_run nc a n d), (releaseend_run nc b m d) by done.
    res_step. fold fs fe. rewrite zip_fmap_seq.
    rewrite (comprehension_ok _ (fun ab : datetime * datetime =>
               match midpoint ab.1 ab.2 with Ok t => t | Raise _ => 0 end)).
    + by rewrite <- list_fmap_compose.
    + intros ab (i & -> & Hi%elem_of_seq)%list_elem_of_fmap. simpl.
      destruct (Hmid i) as (t & -> & _); [lia|done].
  - by rewrite length_fmap, length_seq.
  - intros i Hi. destruct (Hmid i Hi) as (t & Ht & H2 & Hbt).
    exists t. split; [|done].
    rewrite list_lookup_fmap, lookup_seq_lt by done. simpl.
    unfold mid. by rewrite Ht.
Qed.
End Releases.

(** ** The height field *)

Lemma unravel_ravel_plane (nx ny x y : nat) :
  (y < ny)%nat ->
  np.unravel [nx; ny] (np.ravel [nx; ny; 1%nat] [x; y; 0%nat]) = [x; y].
Proof.
  intros Hy.
  assert (Hr : np.ravel [nx; ny; 1%nat] [x; y; 0%nat] = (y + x * ny)%nat)
    by (unfold np.ravel; simpl; lia).
  assert (Hs : np.size [ny] = ny) by (unfold np.size; simpl; lia).
  rewrite Hr. cbn [np.unravel]. rewrite Hs.
  change (np.size []) with 1%nat.
  rewrite Nat.div_add, Nat.Div0.mod_add, Nat.div_1_r by lia.
  rewrite Nat.div_small, Nat.mod_small by lia. done.
Qed.

Lemma unravel_ravel_column (nz z : nat) :
  np.unravel [nz] (np.ravel [1%nat; 1%nat; nz] [0%nat; 0%nat; z]) = [z].
Proof.
  assert (Hr : np.ravel [1%nat; 1%nat; nz] [0%nat; 0%nat; z] = z)
    by (unfold np.ravel; simpl; lia).
  rewrite Hr. cbn [np.unravel]. change (np.size []) with 1%nat.
  by rewrite Nat.div_1_r.
Qed.

Section Heights.
Context {T : Type} `{ST : Scalar T} `{DF : DateFormat} `{TI : ToInt T}.

(** Without an orography the height field is the profile of output
    heights alone, of shape (1, 1, numzgrid); with an orography of shape
    (latitude, longitude) it has shape (numxgrid, numygrid, numzgrid) and
    its cell [(x, y, z)] is the output height [z] plus the orography at
    latitude [y] and longitude [x].  Either way it covers the levels of
    a grid of shape (numxgrid, numygrid, numzgrid). *)
Theorem Heightnn_spec (nc : Dataset T) (hraw : ndarray T) (nx ny nz : nat) :
  dimensions nc !! "longitude" = Some nx ->
  dimensions nc !! "latitude" = Some ny ->
  dimensions nc !! "height" = Some nz ->
  vector_var nc "height" hraw nz ->
  (variables nc !! "ORO" = None ->
   exists h, Header.Heightnn nc = Ok h /\ shape h = [1; 1; nz]%nat /\
     (forall z, item h [0; 0; z]%nat = item hraw [z]) /\
     heights_cover h nx ny nz []) /\
  (forall ov, variables nc !! "ORO" = Some ov ->
   shape (v_data ov) = [ny; nx] ->
   exists h, Header.Heightnn nc = Ok h /\ shape h = [nx; ny; nz] /\
     (forall x y z, (x < nx)%nat -> (y < ny)%nat -> (z < nz)%nat ->
        item h [x; y; z] = s_add (item hraw [z]) (item (v_data ov) [y; x])) /\
     heights_cover h nx ny nz []).
Proof.
  intros Hnx Hny Hnz [(hv & Hhv & Hha) Hhsh].
  split.
  - intros Hno. eexists. split; [|split; [|split]].
    + unfold Header.Heightnn, Header.ORO,
        Header.numxgrid, Header.numygrid, Header.numzgrid, Header.outheight, dim_len.
      rewrite (lookup_key_Some _ _ _ Hnx), (lookup_key_Some _ _ _ Hny),
        (lookup_key_Some _ _ _ Hnz), (lookup_key_Some _ _ _ Hhv), Hno. res_step.
      rewrite Hha. unfold np.slice_all. simpl shape. rewrite Hhsh. simpl rev.
      res_step. unfold np.reshape. simpl shape. rewrite Hhsh. simpl rev.
      destruct (decide (np.size [nz] = np.size [1; 1; nz]%nat)) as [_|Hne];
        [reflexivity|].
      exfalso. apply Hne. unfold np.size. simpl. lia.
    + reflexivity.
    + intros z. cbn [item]. rewrite unravel_ravel_column. done.
    + exists 1%nat, 1%nat, nz, [], [nx; ny]. split; [done|]. split; [lia|].
      unfold np.broadcast_shapes. simpl. by repeat case_decide.
  - intros ov Hov Hosh.
    set (oh := np.transpose hraw).
    set (r := NDArray [nx; ny; 1%nat]
                (fun idx => item (np.transpose (v_data ov))
                   (np.unravel [nx; ny] (np.ravel [nx; ny; 1%nat] idx)))).
    set (h := NDArray [nx; ny; nz]
                (fun idx => s_add (item oh (np.bindex [nz] idx))
                                  (item r (np.bindex [nx; ny; 1%nat] idx)))).
    exists h. split; [|split; [|split]].
    + unfold Header.Heightnn, Header.ORO,
        Header.numxgrid, Header.numygrid, Header.numzgrid, Header.outheight, dim_len.
      rewrite (lookup_key_Some _ _ _ Hnx), (lookup_key_Some _ _ _ Hny),
        (lookup_key_Some _ _ _ Hnz), (lookup_key_Some _ _ _ Hhv), Hov. res_step.
      rewrite Hha. unfold np.slice_all. simpl shape. rewrite Hhsh, Hosh.
      simpl rev. res_step. unfold np.reshape. simpl shape. rewrite Hosh.
      simpl rev.
      destruct (decide (np.size [nx; ny] = np.size [nx; ny; 1%nat])) as [_|Hne].
      2:{ exfalso. apply Hne. unfold np.size. simpl. lia. }
      res_step. unfold np.add, np.binop. simpl shape. rewrite Hhsh. simpl rev.
      unfold np.broadcast_shapes. simpl.
      by repeat case_decide.
    + reflexivity.
    + intros x y z Hx Hy Hz. subst h. cbn [item].
      assert (Hb1 : np.bindex [nz] [x; y; z] = [z]).
      { unfold np.bindex. simpl. case_decide; [|done]. f_equal. lia. }
      assert (Hb2 : np.bindex [nx; ny; 1%nat] [x; y; z] = [x; y; 0%nat]).
      { unfold np.bindex. simpl. repeat case_decide; try done; f_equal; try lia;
          f_equal; lia. }
      rewrite Hb1, Hb2. subst r oh. cbn [item np.transpose].
      by rewrite unravel_ravel_plane.
    + exists nx, ny, nz, [], [nx; ny]. split; [done|]. split; [lia|].
      apply broadcast_shapes_refl.
Qed.
End Heights.

(** ** Variable names and the species list *)

Lemma digit_val_digit_char (d : Z) :
  0 <= d < 10 -> RefDate.digit_val (digit_char d) = Some d.
Proof.
  intros Hd.
  assert (Hc : d = 0 \/ d = 1 \/ d = 2 \/ d = 3 \/ d = 4 \/ d = 5 \/ d = 6
               \/ d = 7 \/ d = 8 \/ d = 9) by lia.
  repeat (destruct Hc as [->|Hc]; [reflexivity|]). by subst.
Qed.

Lemma str_app_cons (c : ascii) (a b : string) :
  String c a +:+ b = String c (a +:+ b).
Proof. reflexivity. Qed.

Lemma str_app_nil (b : string) : "" +:+ b = b.
Proof. reflexivity. Qed.

Lemma str_app_assoc (a b c : string) : (a +:+ b) +:+ c = a +:+ (b +:+ c).
Proof.
  induction a as [|x a IH]; [done|]. rewrite !str_app_cons. by rewrite IH.
Qed.

Lemma digits_fuel_app (fuel : nat) (n : Z) (acc s : string) :
  digits_fuel fuel n acc +:+ s = digits_fuel fuel n (acc +:+ s).
Proof.
  revert n acc. induction fuel as [|fuel IH]; intros n acc; [done|].
  cbn [digits_fuel]. case_decide; [done|]. by rewrite IH.
Qed.

Lemma leading_digits_fuel (fuel : nat) (n : Z) (acc : string) :
  0 <= n < 2 ^ Z.of_nat fuel ->
  exists k : nat, forall a,
    leading_number (digits_fuel fuel n acc) a
    = leading_number acc (a * 10 ^ Z.of_nat k + n).
Proof.
  revert n acc. induction fuel as [|fuel IH]; intros n acc Hn.
  - exists 0%nat. intros a. cbn [digits_fuel].
    change (2 ^ Z.of_nat 0) with 1 in Hn.
    f_equal. change (10 ^ Z.of_nat 0) with 1. lia.
  - cbn [digits_fuel]. case_decide as Hlt.
    + exists 1%nat. intros a. cbn [leading_number].
      rewrite Z.mod_small by lia. rewrite digit_val_digit_char by lia.
      change (10 ^ Z.of_nat 1) with 10. f_equal; lia.
    + destruct (IH (n / 10) (String (digit_char (n mod 10)) acc)) as [k Hk].
      { split; [apply Z.div_pos; lia|].
        apply Z.div_lt_upper_bound; [lia|].
        rewrite Nat2Z.inj_succ, Z.pow_succ_r in Hn by lia. lia. }
      exists (S k). intros a. rewrite Hk. cbn [leading_number].
      rewrite digit_val_digit_char by (apply Z.mod_pos_bound; lia).
      f_equal. rewrite Nat2Z.inj_succ, Z.pow_succ_r by lia.
      pose proof (Z.div_mod n 10 ltac:(lia)) as Hdm.
      set (p := 10 ^ Z.of_nat k). set (q := n / 10) in *. set (r := n mod 10) in *.
      rewrite Hdm. ring.
Qed.

Lemma leading_zeros (k : nat) (s : string) :
  leading_number (zeros_string k +:+ s) 0 = leading_number s 0.
Proof.
  induction k as [|k IH]; [done|].
  cbn [zeros_string]. rewrite str_app_cons. exact IH.
Qed.

Lemma substring_all (s : string) : String.substring 0 (String.length s) s = s.
Proof. induction s as [|c s IH]; simpl; [done|]. by rewrite IH. Qed.

(** The number printed by ["%0<w>d"] is read back from the text, up to
    the first character that is no digit. *)
Lemma leading_fmt_0d (w : nat) (n : Z) (s : string) :
  0 <= n -> (forall a, leading_number s a = a) ->
  leading_number (fmt_0d w n +:+ s) 0 = n.
Proof.
  intros Hn Hs. unfold fmt_0d. case_decide; [lia|].
  rewrite Z.abs_eq by lia. rewrite str_app_nil, str_app_assoc, leading_zeros.
  unfold digits. rewrite digits_fuel_app, str_app_nil.
  destruct (leading_digits_fuel (S (Z.to_nat (Z.log2 n))) n s) as [k Hk].
  { split; [done|]. rewrite Nat2Z.inj_succ, Z2Nat.id by apply Z.log2_nonneg.
    destruct (decide (n = 0)) as [->|Hne]; [done|].
    apply Z.log2_spec. lia. }
  rewrite Hk, Hs. lia.
Qed.

Lemma select_varname_number (io n : Z) (name : string) :
  0 <= n -> select_varname io n = Ok name -> species_number name = n.
Proof.
  intros Hn. unfold select_varname.
  assert (Hread : forall suffix, (forall a, leading_number suffix a = a) ->
            species_number ("spec" +:+ fmt_0d 3 n +:+ suffix) = n).
  { intros suffix Hs. unfold species_number.
    rewrite !str_app_cons, str_app_nil. cbn [String.length].
    replace (S (S (S (S (String.length (fmt_0d 3 n +:+ suffix))))) - 4)%nat
      with (String.length (fmt_0d 3 n +:+ suffix)) by lia.
    cbn [String.substring]. rewrite substring_all. by apply leading_fmt_0d. }
  repeat case_decide; intros Hsel; simplify_eq; by apply Hread.
Qed.

(** Variable names tell the species apart: two different species
    numbers (the code passes [nspec + 1 >= 1]) never select the same
    variable of the dataset. *)
Theorem select_varname_injective (io n m : Z) (a b : string) :
  0 <= n -> 0 <= m -> n <> m ->
  select_varname io n = Ok a -> select_varname io m = Ok b -> a <> b.
Proof.
  intros Hn Hm Hne Ha Hb Hab. apply Hne.
  rewrite <- (select_varname_number io n a Hn Ha).
  rewrite <- (select_varname_number io m b Hm Hb). by rewrite Hab.
Qed.

Lemma comprehension_Forall2 {A B : Type} (f : A -> res B) (xs : list A) (l : list B) :
  comprehension f xs = Ok l <-> Forall2 (fun x y => f x = Ok y) xs l.
Proof.
  revert l. induction xs as [|x xs IH]; intros l; simpl.
  - split.
    + intros Hl. injection Hl as <-. constructor.
    + intros Hl. by inversion Hl.
  - split.
    + intros Hl. apply bind_inv in Hl as (y & Hy & Hl).
      apply bind_inv in Hl as (ys & Hys & Hl). injection Hl as <-.
      constructor; [done|]. by apply IH.
    + intros Hl. inversion Hl as [|? y ? ys Hy Hys]; subst.
      rewrite Hy. res_step. apply IH in Hys. rewrite Hys. by res_step.
Qed.

Lemma comprehension_fails {A B : Type} (f : A -> res B) (xs : list A) (e : exn) :
  (forall x, x ∈ xs -> f x = Raise e \/ exists y, f x = Ok y) ->
  (exists x, x ∈ xs /\ f x = Raise e) ->
  comprehension f xs = Raise e.
Proof.
  induction xs as [|x xs IH]; intros Hall (x0 & Hin & Hx0).
  - by apply elem_of_nil in Hin.
  - simpl. destruct (Hall x) as [Hx|[y Hy]]; [apply elem_of_cons; by left| |].
    + by rewrite Hx.
    + rewrite Hy. res_step.
      apply elem_of_cons in Hin as [->|Hin]; [congruence|].
      rewrite IH; [done| |by exists x0].
      intros z Hz. apply Hall, elem_of_cons. by right.
Qed.

Section Species.
Context {T : Type} `{DF : DateFormat}.

(** For an output kind with a variable name, [species] lists the long
    names of the variables of the species numbers 1, 2, ..., numspec in
    this order, and it raises [KeyError] as soon as one of these
    variables is missing from the dataset. *)
Theorem Header_species_spec (nc : Dataset T) (n : nat) :
  dimensions nc !! "numspec" = Some n ->
  handled (iout nc) ->
  (forall l, Header.species nc = Ok l <->
     length l = n /\
     forall i, (i < n)%nat ->
       exists name v, select_varname (iout nc) (Z.of_nat i + 1) = Ok name /\
         variables nc !! name = Some v /\ l !! i = Some (long_name v)) /\
  (forall i name, (i < n)%nat ->
     select_varname (iout nc) (Z.of_nat i + 1) = Ok name ->
     variables nc !! name = None ->
     Header.species nc = Raise KeyError).
Proof.
  intros Hn Hh.
  set (F := fun i : nat =>
       varname ← select_varname (iout nc) (Z.of_nat i + 1);
       ncvar ← lookup_key (variables nc) varname;
       Ok (long_name ncvar)).
  assert (Hsp : Header.species nc = comprehension F (seq 0 n)).
  { unfold Header.species, Header.nspec, dim_len.
    by rewrite (lookup_key_Some _ _ _ Hn). }
  assert (Hname : forall k, exists name, select_varname (iout nc) k = Ok name).
  { intros k. unfold select_varname, handled in *.
    repeat case_decide; try (eexists; reflexivity); lia. }
  split.
  - intros l. rewrite Hsp, comprehension_Forall2, Forall2_same_length_lookup.
    rewrite length_seq. split.
    + intros [Hlen Hall]. split; [done|]. intros i Hi.
      destruct (lookup_lt_is_Some_2 l i) as [y Hy]; [lia|].
      specialize (Hall i i y (lookup_seq_lt _ _ _ Hi) Hy).
      unfold F in Hall. apply bind_inv in Hall as (name & Hnm & Hall).
      apply bind_inv in Hall as (v & Hv & Hall). injection Hall as <-.
      exists name, v. split; [done|]. split; [|done].
      unfold lookup_key in Hv. by destruct (variables nc !! name); simplify_eq.
    + intros [Hlen Hall]. split; [done|]. intros i x y Hx Hy.
      apply lookup_seq in Hx as [-> Hi]. simpl in Hi.
      destruct (Hall i Hi) as (name & v & Hnm & Hv & Hl).
      unfold F. simpl. rewrite Hnm. res_step.
      rewrite (lookup_key_Some _ _ _ Hv). res_step. congruence.
  - intros i name Hi Hnm Hno. rewrite Hsp. apply comprehension_fails.
    + intros x _. unfold F. destruct (Hname (Z.of_nat x + 1)) as [nm ->].
      res_step. unfold lookup_key. destruct (variables nc !! nm); [right|left].
      * eexists. by res_step.
      * done.
    + exists i. split; [apply elem_of_seq; lia|].
      unfold F. rewrite Hnm. res_step. unfold lookup_key. by rewrite Hno.
Qed.
End Species.

(** ** The accessors the header builds *)

Lemma lookup_key_inv {V : Type} (m : gmap string V) (key : string) (v : V) :
  lookup_key m key = Ok v -> m !! key = Some v.
Proof. unfold lookup_key. by destruct (m !! key); intros; simplify_eq. Qed.

Section HeaderAccessors.
Context {T : Type} `{ST : Scalar T} `{DF : DateFormat} `{TI : ToInt T}.

(** When the header builds the C accessor, the accessor and the FD
    accessor inside it describe the same dataset: they share the
    species list, the available dates (which are also the grid dates of
    the FD accessor), the direction and the output kind; the species
    list has one name for each index below [numspec], the output kind
    has a variable name as soon as there is a species, and iteration
    yields exactly the pairs of a species index below [numspec] and a
    release index below [pointspec].  [fill_grids] returns the same
    accessor. *)
Theorem Header_C_coherent (nc : Dataset T) (c : C.t T) :
  Header_C nc = Ok c ->
  fill_grids nc = Ok c /\
  C.nc c = nc /\ FD.nc (C._FD c) = nc /\
  Header.available_dates nc = Ok (C.available_dates c) /\
  FD.available_dates (C._FD c) = C.available_dates c /\
  FD.grid_dates (C._FD c) = C.available_dates c /\
  Header.species nc = Ok (C.species c) /\
  FD.species (C._FD c) = C.species c /\
  FD.direction (C._FD c) = C.direction c /\
  FD.iout (C._FD c) = C.iout c /\
  dimensions nc !! "numspec" = Some (C.nspec c) /\
  dimensions nc !! "pointspec" = Some (C.pointspec c) /\
  FD.nspec (C._FD c) = C.nspec c /\
  length (C.species c) = C.nspec c /\
  ((0 < C.nspec c)%nat -> handled (C.iout c)) /\
  (forall s k : nat,
     (s, k) ∈ C.iter c <-> (s < C.nspec c)%nat /\ (k < C.pointspec c)%nat).
Proof.
  intros Hrun. split; [exact Hrun|]. unfold Header_C in Hrun.
  apply bind_inv in Hrun as (rt & Hrt & Hrun).
  apply bind_inv in Hrun as (sp & Hsp & Hrun).
  apply bind_inv in Hrun as (ad & Had & Hrun).
  apply bind_inv in Hrun as (hn & Hhn & Hrun).
  apply bind_inv in Hrun as (fd & Hfd & Hrun).
  unfold Header_FD in Hfd.
  apply bind_inv in Hfd as (n & Hn & Hfd).
  apply bind_inv in Hfd as (sp' & Hsp' & Hfd).
  apply bind_inv in Hfd as (ad' & Had' & Hfd).
  injection Hfd as <-.
  unfold C.init in Hrun.
  apply bind_inv in Hrun as (n' & Hn' & Hrun).
  apply bind_inv in Hrun as (ps & Hps & Hrun).
  injection Hrun as <-. simpl.
  unfold Header.nspec, dim_len in *.
  apply lookup_key_inv in Hn, Hn', Hps.
  assert (n' = n) as -> by congruence.
  assert (sp' = sp) as -> by congruence.
  assert (ad' = ad) as -> by congruence.
  assert (Hspn : Header.species nc = comprehension
            (fun i : nat =>
               varname ← select_varname (iout nc) (Z.of_nat i + 1);
               ncvar ← lookup_key (variables nc) varname;
               Ok (long_name ncvar)) (seq 0 n)).
  { unfold Header.species, Header.nspec, dim_len.
    by rewrite (lookup_key_Some _ _ _ Hn). }
  rewrite Hspn in Hsp. apply comprehension_Forall2 in Hsp.
  split_and!; try done.
  - apply Forall2_length in Hsp. by rewrite length_seq in Hsp.
  - intros Hpos. destruct n as [|n]; [lia|].
    change (seq 0 (S n)) with (0%nat :: seq 1 n) in Hsp.
    inversion Hsp as [|? y ? ys Hy _]; subst.
    apply bind_inv in Hy as (name & Hname & _).
    destruct (decide (handled (iout nc))) as [|Hno]; [done|].
    by rewrite (select_varname_unhandled _ _ Hno) in Hname.
  - intros s k. unfold C.iter. simpl. unfold product.
    rewrite list_elem_of_bind. split.
    + intros (x & (k' & [= -> ->] & Hk)%list_elem_of_fmap & Hx%elem_of_seq).
      apply elem_of_seq in Hk. lia.
    + intros [Hs Hk]. exists s. split; [|apply elem_of_seq; lia].
      apply list_elem_of_fmap. exists k. split; [done|apply elem_of_seq; lia].
Qed.
End HeaderAccessors.

Section DateFailures.
Context {T : Type} `{DF : DateFormat}.

(** [available_dates] fails in the order of its statements: without a
    [time] dimension it raises [KeyError]; a start or end date that does
    not parse raises what [strptime] raises; and with a date that
    parses, a zero [loutstep] raises [ValueError], the step of [range]
    being zero, however many time steps there are. *)
Theorem available_dates_failures (nc : Dataset T) :
  (dimensions nc !! "time" = None ->
   Header.available_dates nc = Raise KeyError) /\
  (forall n e,
     dimensions nc !! "time" = Some n -> strptime (anchor nc) = Raise e ->
     Header.available_dates nc = Raise e) /\
  (forall n d,
     dimensions nc !! "time" = Some n -> strptime (anchor nc) = Ok d ->
     loutstep nc = 0 ->
     Header.available_dates nc = Raise ValueError).
Proof.
  unfold Header.available_dates, anchor, dim_len, lookup_key.
  split; [|split].
  - by intros ->.
  - intros n e -> Hp. res_step. by destruct (decide (ldirect nc < 0)); rewrite Hp.
  - intros n d -> Hp Hz. res_step. rewrite Hz.
    by destruct (decide (ldirect nc < 0)); rewrite Hp.
Qed.
End DateFailures.

(** * The further properties on the small datasets *)

Section FurtherWitnesses.
Import RefDate.

Lemma demo_C_forward_ready :
  C_forward_ready (Demo.c 1 3600 1) 0 (Z.of_nat 1) "20100101010000" 1
    Demo.raw 2 2 3 2 3 2.
Proof.
  split; [reflexivity | reflexivity | apply demo_FD_ready
         | apply demo_heights_cover].
Qed.

Lemma demo_C_backward_ready_last :
  C_backward_ready (Demo.c (-1) (-3600) 1) 0 (-1) 1 Demo.raw 2 2 3 2 3 2.
Proof.
  split.
  - reflexivity.
  - eexists. reflexivity.
  - eexists. reflexivity.
  - exists "spec001_mr". split; [reflexivity | apply demo_species_var].
  - reflexivity.
  - vm_compute. lia.
  - apply demo_heights_cover.
Qed.

Lemma demo_release_vars :
  vector_var (DemoFull.nc (-1) (-3600) 1 true) "RELSTART"
    (NDArray [2%nat] (fun idx => -7200 * Demo.code idx)) 2 /\
  vector_var (DemoFull.nc (-1) (-3600) 1 true) "RELEND"
    (NDArray [2%nat] (fun idx => -3600 * Demo.code idx)) 2 /\
  vector_var (DemoFull.nc (-1) (-3600) 1 true) "height"
    (NDArray [2%nat] (fun idx => 100 * Demo.code idx)) 2.
Proof.
  repeat split; try reflexivity; eexists; split; reflexivity.
Qed.

Lemma demo_release_range (f : Z) (i : nat) :
  -7200 <= f <= 0 -> (i < 2)%nat ->
  0 <= 63398246400000000
       + 1000000 * s_int (item (NDArray [2%nat] (fun idx => f * Demo.code idx)) [i])
    <= datetime_max.
Proof.
  intros Hf Hi. unfold datetime_max, s_int, Z_int. simpl.
  assert (Hc : Demo.code [i] = Z.of_nat i + 1) by (unfold Demo.code; simpl; lia).
  rewrite Hc. nia.
Qed.

Lemma FD_getitem_failures_witness :
  FD.getitem (Demo.fd 1 3600 1) (0, "19990101000000") = Raise ValueError /\
  FD.getitem (Demo.fd 1 3600 1) (1, "20100101010000") = Raise KeyError.
Proof.
  split.
  - apply (FD_getitem_failures (Demo.fd 1 3600 1) 0 "19990101000000").
    refine (bool_decide_unpack _ _). vm_compute. exact I.
  - apply (FD_getitem_failures (Demo.fd 1 3600 1) 1 "20100101010000")
      with (varname := "spec002_mr").
    + refine (bool_decide_unpack _ _). vm_compute. exact I.
    + reflexivity.
    + reflexivity.
Defined.

Lemma FD_getitem_slots_witness :
  exists fdc : FDC Z,
    FD.getitem (Demo.fd 1 3600 1) (0, "20100101010000") = Ok fdc /\
    _spec_i fdc = PInt 0 /\ _rel_i fdc = PInt 0 /\ _slabs fdc = None.
Proof.
  destruct (FD_getitem_slots _ _ _ _ _ _ _ _ _ _ _ demo_FD_ready)
    as (fdc & tvar & it & ts & Hrun & _ & _ & _ & _ & _ & Hs & _ & Hr & _ & _ & _ & Hsl).
  exists fdc. repeat split; [exact Hrun | exact Hs | exact Hr | exact Hsl].
Defined.

Lemma FD_getitem_position_witness :
  exists (fdc : FDC Z) (g : ndarray Z),
    FD.getitem (Demo.fd 1 3600 1) (0, "20100101010000") = Ok fdc /\
    _grid fdc = Some g /\ item g [1; 2; 0; 1; 0]%nat = 122132.
Proof.
  destruct (FD_getitem_position (Demo.fd 1 3600 1) 0 "20100101010000" 1 1
              Demo.raw 2 2 3 2 3 2)
    as (_ & fdc & g & Hrun & Hg & Hval).
  - refine (bool_decide_unpack _ _). vm_compute. exact I.
  - reflexivity.
  - exact demo_FD_ready.
  - exists fdc, g. rewrite Hval. repeat split; [exact Hrun | exact Hg].
Defined.

Lemma FD_keys_spec_witness :
  FD.keys (Demo.fd 1 3600 1) = Raise TypeError /\
  length (FD._keys (Demo.fd 1 3600 1)) = 3%nat /\
  FD._keys (Demo.fd 1 3600 1) !! 1%nat = Some (0%nat, "20100101010000").
Proof.
  pose proof (FD_keys_spec (Demo.nc 1 3600 1) 1 ["TRACER"] (Demo.dates 1 3600)
                (Header.direction (Demo.nc 1 3600 1)) 1) as Hk.
  cbv zeta in Hk. destruct Hk as (Hkeys & Hlen & _ & Hpos & _).
  split; [exact Hkeys|]. split; [exact Hlen|].
  apply (Hpos 0%nat 1%nat "20100101010000"); [lia | reflexivity].
Defined.

Lemma demo_C_getitem_runs :
  exists c : FDC Z,
    C.getitem (Demo.c 1 3600 1) (PTuple [PInt 0; PInt 1]) = Ok c.
Proof.
  destruct (C.getitem (Demo.c 1 3600 1) (PTuple [PInt 0; PInt 1]))
    as [c|e] eqn:Hrun; [by exists c|].
  vm_compute in Hrun. discriminate.
Qed.

Lemma C_getitem_consistent_witness :
  exists c : FDC Z,
    C.getitem (Demo.c 1 3600 1) (PTuple [PInt 0; PInt 1]) = Ok c /\
    FDC_consistent c.
Proof.
  destruct demo_C_getitem_runs as [c Hrun].
  exists c. split; [exact Hrun|].
  exact (proj1 (C_getitem_consistent _ _ _ Hrun)).
Defined.
Lemma C_getitem_backward_slots_witness :
  exists c : FDC Z,
    C.getitem (Demo.c (-1) (-3600) 1) (PTuple [PInt 0; PInt 1]) = Ok c /\
    _gridfile c = PStr "multiple" /\ _rel_i c = PInt 1 /\
    _shape c = Some [2; 3; 2]%nat.
Proof.
  destruct (C_getitem_backward_slots _ _ _ _ _ _ _ _ _ _ _ demo_C_backward_ready)
    as (c & g & slabs & ts & sp & mx & mn & Hrun & _ & Hfile & _ & _ & _ & _ & _
        & Hrel & _ & _ & _ & _ & _ & Hshape & _).
  exists c. repeat split; [exact Hrun | exact Hfile | exact Hrel | exact Hshape].
Defined.

Lemma C_getitem_backward_wraps_witness :
  exists (c c' : FDC Z) (g g' : ndarray Z),
    C.getitem (Demo.c (-1) (-3600) 1) (PTuple [PInt 0; PInt 1]) = Ok c /\
    C.getitem (Demo.c (-1) (-3600) 1) (PTuple [PInt 0; PInt (-1)]) = Ok c' /\
    _grid c = Some g /\ _grid c' = Some g' /\ np.array_eq g g'.
Proof.
  destruct (C_getitem_backward_wraps _ _ _ _ _ _ _ _ _ _ _ _
              demo_C_backward_ready demo_C_backward_ready_last)
    as (c & c' & g & g' & Hc & Hc' & Hg & Hg' & Heq & _).
  exists c, c', g, g'.
  repeat split; [exact Hc | exact Hc' | exact Hg | exact Hg' | apply Heq | apply Heq].
Defined.

Lemma C_getitem_out_of_range_witness :
  C.getitem (Demo.c (-1) (-3600) 1) (PTuple [PInt 0; PInt 2]) = Raise IndexError.
Proof.
  destruct (C_getitem_out_of_range (Demo.c (-1) (-3600) 1) 0 2) as [Hback _].
  apply Hback.
  - reflexivity.
  - simpl. lia.
Defined.

Lemma C_getitem_forward_position_witness :
  exists (c : FDC Z) (g : ndarray Z),
    C.getitem (Demo.c 1 3600 1) (PTuple [PInt 0; PInt (Z.of_nat 1)]) = Ok c /\
    _grid c = Some g /\ item g [1; 2; 0; 1; 0]%nat = 122132.
Proof.
  destruct (C_getitem_forward_position (Demo.c 1 3600 1) 0 1 "20100101010000" 1
              Demo.raw 2 2 3 2 3 2 demo_C_forward_ready)
    as (_ & c & g & Hrun & Hg & _ & Hval).
  - reflexivity.
  - refine (bool_decide_unpack _ _). vm_compute. exact I.
  - exists c, g. rewrite Hval. repeat split; [exact Hrun | exact Hg].
Defined.

Lemma get_slabs_failures_witness :
  get_slabs Demo.heights (NDArray [2; 3]%nat Demo.code) = Raise IndexError.
Proof.
  apply (get_slabs_failures Demo.heights (NDArray [2; 3]%nat Demo.code)).
  simpl. lia.
Defined.

Lemma get_slabs_cells_witness :
  exists (slabs : gmap nat (ndarray Z)) (a : ndarray Z),
    get_slabs Demo.heights Demo.grid = Ok slabs /\
    slabs !! 1%nat = Some a /\ shape a = [3; 2]%nat.
Proof.
  destruct (get_slabs_cells Demo.heights Demo.grid 2 3 2 2)
    as (slabs & Hrun & _ & Hlev); [reflexivity | by left | lia |].
  destruct (Hlev 0%nat) as (a & Ha & Hsh & _); [lia|].
  exists slabs, a. repeat split; [exact Hrun | exact Ha | exact Hsh].
Defined.

Lemma releasestart_releaseend_spec_witness :
  exists starts ends : list datetime,
    Header.releasestart (DemoFull.nc (-1) (-3600) 1 true) = Ok starts /\
    Header.releaseend (DemoFull.nc (-1) (-3600) 1 true) = Ok ends /\
    starts !! 0%nat = Some 63398232000000000 /\
    ends !! 0%nat = Some 63398239200000000.
Proof.
  destruct demo_release_vars as (Hs & He & _).
  destruct (releasestart_releaseend_spec _ _ _ 2 2 63398246400000000 Hs He)
    as (starts & ends & Hrs & Hre & _ & _ & Hsv & Hev).
  - reflexivity.
  - unfold datetime_max. lia.
  - intros i Hi. apply demo_release_range; [lia | exact Hi].
  - intros i Hi. apply demo_release_range; [lia | exact Hi].
  - exists starts, ends. rewrite (Hsv 0%nat), (Hev 0%nat) by lia.
    repeat split; [exact Hrs | exact Hre].
Defined.

Lemma releasetimes_spec_witness :
  exists times : list datetime,
    Header.releasetimes (DemoFull.nc (-1) (-3600) 1 true) = Ok times /\
    length times = 2%nat.
Proof.
  destruct demo_release_vars as (Hs & He & _).
  destruct (releasetimes_spec _ _ _ 2 2 63398246400000000 Hs He)
    as (times & Hrun & Hlen & _).
  - reflexivity.
  - unfold datetime_max. lia.
  - intros i Hi. apply demo_release_range; [lia | exact Hi].
  - intros i Hi. apply demo_release_range; [lia | exact Hi].
  - exists times. split; [exact Hrun | exact Hlen].
Defined.

Lemma Heightnn_spec_witness :
  exists h : ndarray Z,
    Header.Heightnn (DemoFull.nc (-1) (-3600) 1 true) = Ok h /\
    shape h = [2; 3; 2]%nat /\ item h [1; 2; 0]%nat = 32100.
Proof.
  destruct demo_release_vars as (_ & _ & Hh).
  destruct (Heightnn_spec (DemoFull.nc (-1) (-3600) 1 true)
              (NDArray [2%nat] (fun idx => 100 * Demo.code idx)) 2 3 2)
    as [_ Horo]; [reflexivity | reflexivity | reflexivity | exact Hh |].
  destruct (Horo (NCVar (NDArray [3; 2]%nat (fun idx => 1000 * Demo.code idx))
                    "m" "orography"))
    as (h & Hrun & Hsh & Hval & _); [reflexivity | reflexivity |].
  exists h. rewrite (Hval 1 2 0)%nat by lia.
  repeat split; [exact Hrun | exact Hsh].
Defined.

Lemma select_varname_injective_witness : "spec001_mr" <> "spec002_mr".
Proof.
  apply (select_varname_injective 1 1 2 "spec001_mr" "spec002_mr");
    [lia | lia | lia | reflexivity | reflexivity].
Defined.

Lemma Header_species_spec_witness :
  Header.species (Demo.nc 1 3600 1) = Ok ["TRACER"].
Proof.
  destruct (Header_species_spec (Demo.nc 1 3600 1) 1) as [Hiff _].
  - reflexivity.
  - by left.
  - apply Hiff. split; [reflexivity|]. intros i Hi.
    assert (i = 0%nat) as -> by lia.
    exists "spec001_mr". eexists. repeat split; reflexivity.
Defined.

Lemma demo_Header_C_runs :
  exists c : C.t Z, Header_C (DemoFull.nc (-1) (-3600) 1 true) = Ok c.
Proof.
  destruct (Header_C (DemoFull.nc (-1) (-3600) 1 true)) as [c|e] eqn:Hrun;
    [by exists c|].
  vm_compute in Hrun. discriminate.
Qed.

Lemma Header_C_coherent_witness :
  exists c : C.t Z,
    Header_C (DemoFull.nc (-1) (-3600) 1 true) = Ok c /\
    FD.grid_dates (C._FD c) = C.available_dates c /\
    length (C.species c) = C.nspec c.
Proof.
  destruct demo_Header_C_runs as [c Hrun].
  destruct (Header_C_coherent _ _ Hrun)
    as (_ & _ & _ & _ & _ & Hgd & _ & _ & _ & _ & _ & _ & _ & Hlen & _).
  exists c. repeat split; [exact Hrun | exact Hgd | exact Hlen].
Defined.

Lemma available_dates_failures_witness :
  Header.available_dates (Demo.nc5 (-1) 0) = Raise ValueError.
Proof.
  apply (available_dates_failures (Demo.nc5 (-1) 0)) with (n := 5%nat)
    (d := 63398246400000000); reflexivity.
Defined.
Lemma demo_full_FD_ready :
  FD_ready (C._FD (DemoFull.c 1 3600 1 true)) 0 "20100101010000" 1
    Demo.raw 2 2 3 2 3 2.
Proof.
  split.
  - vm_compute. reflexivity.
  - eexists. reflexivity.
  - exists "spec001_mr". split; [vm_compute; reflexivity|].
    split; try (vm_compute; reflexivity).
    + eexists. split; vm_compute; reflexivity.
    + repeat split; lia.
  - lia.
  - eexists _, 3%nat, []. split; [vm_compute; reflexivity|].
    split; [reflexivity | lia].
Qed.

(** C3 on the accessor the header builds for the forward run with an
    orography. *)
Lemma C_getitem_forward_orography_witness :
  Header_C (DemoFull.nc 1 3600 1 true) = Ok (DemoFull.c 1 3600 1 true) /\
  (exists f : FDC Z,
     FD.getitem (C._FD (DemoFull.c 1 3600 1 true)) (0, "20100101010000") = Ok f) /\
  C.getitem (DemoFull.c 1 3600 1 true) (PTuple [PInt 0; PInt 1])
  = Raise ValueError.
Proof.
  split; [vm_compute; reflexivity|].
  destruct (C_getitem_forward_orography (DemoFull.c 1 3600 1 true) 0 1
              "20100101010000" 1 Demo.raw 2 2 3 2 3 2 2)
    as [(f & g & Hf & _) Hc].
  - vm_compute. reflexivity.
  - vm_compute. reflexivity.
  - exact demo_full_FD_ready.
  - vm_compute. reflexivity.
  - lia.
  - left. lia.
  - split; [by exists f | exact Hc].
Defined.
End FurtherWitnesses.
